(** * UIDAI analytics dashboard: the tabular pipeline of [app.py]

    A shallow embedding of the data pipeline of [src/app.py]: the loader
    ([load_files]), the normaliser ([normalize]), the totaliser
    ([add_total]), the combined view (three [groupby] sums, two outer
    merges, [fillna(0)] and the grand total), the empty check, the
    date-range filter and what the page shows of the filtered table: the
    three cards, the series of the trend chart and the rows of the data
    tab.  The style of the page, the text of the CSV download and the
    choice made at the date widget (a parameter here) are left out.

    The pandas objects are modelled as follows.
    - A cell is a missing value, an integer, a float, a text or a timestamp.
    - A [Series] is the list of its cells; a [DataFrame] is its number of rows
      and its labelled columns in order.  Labels are unique in every frame
      that [read_csv] and [concat] build; where two labels become equal by
      the renaming of [normalize], pandas raises as soon as such a label is
      read, and the statements below are made for frames with unique labels
      ([wf]).
    - [df.copy()] and the column assignments that follow it are modelled
      twice: on the value of the frame, and on a heap of frames, which
      shows which object an assignment changes.
    - An exception is a result [Raise]: the [KeyError] of a label that is
      no column and, in the modules [Machine] and [Run], what
      [astype(int)], the date widget and [.dt] raise.
    - The scalar parsers and printers of pandas (a date, a number, the text
      of a float or of a timestamp), the sum of a row of float64 and the
      printing of the missing period are the fields of the class [Pandas];
      what the source file itself does is a definition below.
    - In the definitions of the pipeline integers are unbounded and floats
      are exact rationals.  [Machine.add_total] has the totals as int64 and
      float64 compute them (the wrap-around, the sum that the library
      rounds, the exception on a sum that is not finite), and the
      statements on sums carry the bound under which both agree.
    - A text is a sequence of bytes; [strip] and [lower] act on the ASCII
      range.
    [groupby] drops the rows whose key holds a missing value
    ([dropna=True], the default), and a comparison with one is false.
    [astype(str)] prints a missing cell of "state", "district" and
    "pincode" ("nan"), as pandas 2 does; for the month both behaviours are
    there, the printed "NaT" of pandas 2 and the missing value of pandas 3
    ([prints_missing]).  [groupby] and the outer [merge] return their rows
    sorted by key. *)

From Stdlib Require Import List String Ascii Bool Arith ZArith NArith Lia.
From Stdlib Require Import QArith Qcanon Permutation DecimalString.
Import ListNotations.
Close Scope Qc_scope.
Close Scope Q_scope.
Local Open Scope string_scope.
Local Open Scope list_scope.

(* ================================================================== *)
(** * Text *)
(* ================================================================== *)

Module Text.

(** Python's [str.isspace] on the ASCII range: TAB..CR, FS..US and space. *)
Definition is_space (c : ascii) : bool :=
  let n := N_of_ascii c in
  (((9 <=? n) && (n <=? 13)) || ((28 <=? n) && (n <=? 32)))%N.

(** [str.lower] on one ASCII character. *)
Definition lower_char (c : ascii) : ascii :=
  let n := N_of_ascii c in
  if ((65 <=? n) && (n <=? 90))%N then ascii_of_N (n + 32) else c.

Fixpoint map_chars (f : ascii -> ascii) (s : string) : string :=
  match s with
  | EmptyString => EmptyString
  | String c r => String (f c) (map_chars f r)
  end.

Definition lower (s : string) : string := map_chars lower_char s.

(** [s.replace(a, b)] for one-character [a] and [b]. *)
Definition replace_char (a b : ascii) (s : string) : string :=
  map_chars (fun c => if Ascii.eqb c a then b else c) s.

Fixpoint lstrip (s : string) : string :=
  match s with
  | EmptyString => EmptyString
  | String c r => if is_space c then lstrip r else s
  end.

Fixpoint rstrip (s : string) : string :=
  match s with
  | EmptyString => EmptyString
  | String c r =>
      match rstrip r with
      | EmptyString => if is_space c then EmptyString else String c EmptyString
      | r' => String c r'
      end
  end.

(** [str.strip()]: white space removed at both ends. *)
Definition strip (s : string) : string := rstrip (lstrip s).

(** [s.replace(".0", "")] with [regex=False]: Python scans from the left and
    removes every non-overlapping occurrence of the two characters. *)
Fixpoint remove_dot0 (s : string) : string :=
  match s with
  | EmptyString => EmptyString
  | String c r =>
      match r with
      | String d r' =>
          if (Ascii.eqb c "." && Ascii.eqb d "0")%bool then remove_dot0 r'
          else String c (remove_dot0 r)
      | EmptyString => s
      end
  end.

(** Does [".0"] occur in [s]? *)
Fixpoint has_dot0 (s : string) : bool :=
  match s with
  | EmptyString => false
  | String c r =>
      match r with
      | String d _ => (Ascii.eqb c "." && Ascii.eqb d "0") || has_dot0 r
      | EmptyString => false
      end
  end.

(** [str(n)] for a Python int. *)
Definition repr_int (z : Z) : string := NilZero.string_of_int (Z.to_int z).

(** A non-negative number on at least [w] digits, zero-padded ("%02d"). *)
Definition zero_pad (w : nat) (z : Z) : string :=
  let s := repr_int z in
  string_of_list_ascii (repeat "0"%char (w - String.length s)) ++ s.

End Text.

(* ================================================================== *)
(** * Calendar: timestamps are nanoseconds since 1970-01-01 *)
(* ================================================================== *)

Module Calendar.
Local Open Scope Z_scope.

Definition ns_per_day : Z := 86400 * 1000000000.

(** [Timestamp.date()] as the day number since 1970-01-01. *)
Definition day_of (t : Z) : Z := t / ns_per_day.

(** The proleptic Gregorian date (year, month, day) of a day number. *)
Definition civil_from_days (d : Z) : Z * Z * Z :=
  let z := d + 719468 in
  let era := z / 146097 in
  let doe := z - era * 146097 in
  let yoe := (doe - doe / 1460 + doe / 36524 - doe / 146096) / 365 in
  let doy := doe - (365 * yoe + yoe / 4 - yoe / 100) in
  let mp := (5 * doy + 2) / 153 in
  let day := doy - (153 * mp + 2) / 5 + 1 in
  let m := if mp <? 10 then mp + 3 else mp - 9 in
  let y := yoe + era * 400 in
  ((if m <=? 2 then y + 1 else y), m, day).

(** The day number of a proleptic Gregorian date. *)
Definition days_from_civil (y m d : Z) : Z :=
  let y := if m <=? 2 then y - 1 else y in
  let era := y / 400 in
  let yoe := y - era * 400 in
  let doy := (153 * (if 2 <? m then m - 3 else m + 9) + 2) / 5 + d - 1 in
  let doe := yoe * 365 + yoe / 4 - yoe / 100 + doy in
  era * 146097 + doe - 719468.

(** [str(Timestamp.to_period("M"))]: the month bucket "YYYY-MM". *)
Definition period_month (t : Z) : string :=
  let '(y, m, _) := civil_from_days (day_of t) in
  (Text.zero_pad 4 y ++ "-" ++ Text.zero_pad 2 m)%string.

End Calendar.

(* ================================================================== *)
(** * Cells, series and frames *)
(* ================================================================== *)

(** A numeric value as pandas' parsers produce it: an int or a float. *)
Inductive number : Type :=
| NInt (z : Z)
| NFloat (q : Qc).

(** One cell of a table.  [NA] is the missing value (NaN, None or NaT);
    [Date t] is a timestamp, [t] nanoseconds since 1970-01-01.  [Int] and
    [Float] tell how a number prints ("110001", "110001.0"); that pandas
    turns a whole column into floats when one of its cells is one changes
    no value and is not tracked. *)
Inductive cell : Type :=
| NA
| Int (z : Z)
| Float (q : Qc)
| Str (s : string)
| Date (t : Z).

Definition Series : Type := list cell.

(** A frame: [index] is the number of rows, [data] the columns in order,
    each with its label. *)
Record DataFrame : Type := mkFrame {
  index : nat;
  data : list (string * Series)
}.

(** The scalar parsers and printers of the library, which the source file
    calls and does not define. *)
Class Pandas : Type := {
  (** one text read as a date, day first; [None] when it does not parse *)
  parse_datetime : string -> option Z;
  (** one text read as a number; [None] when it does not parse *)
  parse_number : string -> option number;
  (** [str] of a float *)
  repr_float : Qc -> string;
  (** [str] of a timestamp *)
  repr_datetime : Z -> string;
  (** whether [astype(str)] prints the missing period, as the text "NaT"
      (pandas 2), or keeps it missing (pandas 3) *)
  prints_missing : bool;
  (** the texts that [to_numeric] reads as an infinity ("inf", "-Infinity",
      "1e999") *)
  reads_as_infinite : string -> bool;
  (** [sum(axis=1).astype(int)] on one row of float64 numbers: their sum in
      float64, truncated; [None] when the sum is not finite, where
      [astype(int)] raises *)
  sum_as_int64 : list Qc -> option Z
}.

Definition Z2Qc (z : Z) : Qc := Q2Qc (inject_Z z).

(** [int(x)] on a float: truncation toward zero. *)
Definition trunc (q : Qc) : Z := Z.quot (Qnum q) (Z.pos (Qden q)).

Definition cell_of_number (n : number) : cell :=
  match n with
  | NInt z => Int z
  | NFloat q => Float q
  end.

(** The numeric value of a cell; a cell that is no number counts for 0, as
    a missing value does in a sum that skips them. *)
Definition value (c : cell) : Qc :=
  match c with
  | Int z => Z2Qc z
  | Float q => q
  | _ => Z2Qc 0
  end.

Definition is_na (c : cell) : bool :=
  match c with
  | NA => true
  | _ => false
  end.

Definition is_number (c : cell) : bool :=
  match c with
  | Int _ | Float _ => true
  | _ => false
  end.

(** A cell of a datetime column: a timestamp or the missing one. *)
Definition is_date (c : cell) : bool :=
  match c with
  | Date _ | NA => true
  | _ => false
  end.

Definition cell_eq_dec (a b : cell) : {a = b} + {a <> b}.
Proof.
  decide equality; try apply Z.eq_dec; try apply Qc_eq_dec; apply string_dec.
Defined.

Definition cell_eqb (a b : cell) : bool :=
  if cell_eq_dec a b then true else false.

(** ** Frames *)

(** [pd.DataFrame()]: no row, no column. *)
Definition empty_frame : DataFrame := mkFrame 0 [].

(** [df.columns] *)
Definition columns (df : DataFrame) : list string := map fst (data df).

(** [df.empty]: true when either axis has length 0. *)
Definition empty (df : DataFrame) : bool :=
  (index df =? 0)%nat || match data df with [] => true | _ => false end.

Fixpoint lookup (c : string) (d : list (string * Series)) : option Series :=
  match d with
  | [] => None
  | (c', s) :: r => if String.eqb c' c then Some s else lookup c r
  end.

(** [df[c]] when the label is present. *)
Definition getitem (df : DataFrame) (c : string) : option Series :=
  lookup c (data df).

(** [c in df.columns] *)
Definition contains (df : DataFrame) (c : string) : bool :=
  match getitem df c with
  | Some _ => true
  | None => false
  end.

(** The column [c], read where the source has checked or created it. *)
Definition col (df : DataFrame) (c : string) : Series :=
  match getitem df c with
  | Some s => s
  | None => []
  end.

Fixpoint assign (c : string) (s : Series) (d : list (string * Series))
  : list (string * Series) :=
  match d with
  | [] => [(c, s)]
  | (c', s') :: r =>
      if String.eqb c' c then (c, s) :: r else (c', s') :: assign c s r
  end.

(** [df[c] = s]: the column is replaced where it stands, or added last. *)
Definition setitem (df : DataFrame) (c : string) (s : Series) : DataFrame :=
  mkFrame (index df) (assign c s (data df)).

(** [df[c] = v] for a scalar [v]: one copy of [v] per row. *)
Definition setitem_scalar (df : DataFrame) (c : string) (v : cell) : DataFrame :=
  setitem df c (repeat v (index df)).

(** [df.columns = [f c for c in df.columns]] *)
Definition set_columns (f : string -> string) (df : DataFrame) : DataFrame :=
  mkFrame (index df) (map (fun cs => (f (fst cs), snd cs)) (data df)).

(** [if c in df.columns: df[c] = f(df[c])] *)
Definition update_col (c : string) (f : Series -> Series) (df : DataFrame)
  : DataFrame :=
  match getitem df c with
  | Some s => setitem df c (f s)
  | None => df
  end.

(** The cell of column [c] at row [i]. *)
Definition at_ (df : DataFrame) (c : string) (i : nat) : cell :=
  nth i (col df c) NA.

(** The invariant of a frame: labels are unique and every column has one
    cell per row. *)
Definition wf (df : DataFrame) : Prop :=
  NoDup (columns df) /\
  Forall (fun cs => List.length (snd cs) = index df) (data df).

(* ================================================================== *)
(** * The normaliser *)
(* ================================================================== *)

Section Pipeline.
Context {lib : Pandas}.

(** The chain applied to [df.columns]:
    [.astype(str).str.strip().str.lower().str.replace(" ", "_")
     .str.replace("-", "_")]. *)
Definition clean_label (c : string) : string :=
  Text.replace_char "-" "_"
    (Text.replace_char " " "_" (Text.lower (Text.strip c))).

(** [pd.to_datetime(_, errors="coerce", dayfirst=True)] on one cell: a
    number is read as nanoseconds since the epoch, a text goes to the
    library's parser, and what does not parse is missing. *)
Definition to_datetime_cell (c : cell) : cell :=
  match c with
  | NA => NA
  | Int z => Date z
  | Float q => Date (trunc q)
  | Str s => match parse_datetime s with
             | Some t => Date t
             | None => NA
             end
  | Date t => Date t
  end.

Definition to_datetime (s : Series) : Series := map to_datetime_cell s.

(** [.dt.to_period("M").astype(str)] on one cell of a datetime column:
    the year and month of a timestamp; the missing timestamp is printed
    or kept missing, as the library has it. *)
Definition month_cell (c : cell) : cell :=
  match c with
  | Date t => Str (Calendar.period_month t)
  | _ => if prints_missing then Str "NaT" else NA
  end.

(** [.astype(str)] on one cell. *)
Definition astype_str (c : cell) : string :=
  match c with
  | NA => "nan"
  | Int z => Text.repr_int z
  | Float q => repr_float q
  | Str s => s
  | Date t => repr_datetime t
  end.

(** [df[c].astype(str).str.strip()] *)
Definition strip_text (s : Series) : Series :=
  map (fun c => Str (Text.strip (astype_str c))) s.

(** [df["pincode"].astype(str).str.replace(".0", "", regex=False)] *)
Definition clean_pincode (s : Series) : Series :=
  map (fun c => Str (Text.remove_dot0 (astype_str c))) s.

(** The two statements under [if "date" in df.columns]. *)
Definition parse_dates (df : DataFrame) : DataFrame :=
  if contains df "date" then
    let df := setitem df "date" (to_datetime (col df "date")) in
    setitem df "month" (map month_cell (col df "date"))
  else df.

(** [normalize(df)], as a function of the frame's value. *)
Definition normalize (df : DataFrame) : DataFrame :=
  if empty df then df
  else
    let df := set_columns clean_label df in
    let df := parse_dates df in
    let df := fold_left (fun d c => update_col c strip_text d)
                        ["state"; "district"] df in
    update_col "pincode" clean_pincode df.

(* ================================================================== *)
(** * The totaliser *)
(* ================================================================== *)

(** [pd.to_numeric(_, errors="coerce")] on one cell: numbers are kept, a
    text goes to the library's parser, a timestamp is its nanosecond count,
    and what does not parse is missing. *)
Definition to_numeric_cell (c : cell) : cell :=
  match c with
  | NA => NA
  | Int z => Int z
  | Float q => Float q
  | Str s => match parse_number s with
             | Some n => cell_of_number n
             | None => NA
             end
  | Date t => Int t
  end.

Definition to_numeric (s : Series) : Series := map to_numeric_cell s.

(** [.fillna(0)]: the missing cells become the number 0. *)
Definition fillna0_cell (c : cell) : cell :=
  match c with
  | NA => Int 0
  | _ => c
  end.

Definition fillna0 (s : Series) : Series := map fillna0_cell s.

(** The sum of a list of numbers, from the left. *)
Definition qsum (l : list Qc) : Qc := fold_left Qcplus l (Z2Qc 0).

(** [df[cols].sum(axis=1)]: per row, the sum over the listed columns. *)
Definition row_sums (df : DataFrame) (cols : list string) : list Qc :=
  map (fun i => qsum (map (fun c => value (at_ df c i)) cols))
      (seq 0 (index df)).

(** [.astype(int)] on a column of numbers: each is truncated toward 0. *)
Definition astype_int (l : list Qc) : Series := map (fun q => Int (trunc q)) l.

(** The body of the loop [for c in cols]. *)
Definition add_total_step (df : DataFrame) (c : string) : DataFrame :=
  let df := if contains df c then df else setitem_scalar df c (Int 0) in
  setitem df c (fillna0 (to_numeric (col df c))).

(** The statement [df[name] = df[cols].sum(axis=1).astype(int)]. *)
Definition set_total (cols : list string) (name : string) (df : DataFrame)
  : DataFrame :=
  setitem df name (astype_int (row_sums df cols)).

(** [add_total(df, cols, name)], as a function of the frame's value. *)
Definition add_total (df : DataFrame) (cols : list string) (name : string)
  : DataFrame :=
  set_total cols name (fold_left add_total_step cols df).

End Pipeline.

(* ================================================================== *)
(** * Frames as objects: copies and updates in place *)
(* ================================================================== *)

(** Both functions of the source start with [df = df.copy()] and then
    assign columns of the copy in place.  A heap of frames, addressed by
    position, shows which object each statement touches. *)

Definition loc : Type := nat.
Definition heap : Type := list DataFrame.

(** A computation on the heap. *)
Definition St (A : Type) : Type := heap -> A * heap.

Definition ret {A : Type} (a : A) : St A := fun h => (a, h).

Definition bind {A B : Type} (m : St A) (k : A -> St B) : St B :=
  fun h => let (a, h') := m h in k a h'.

Notation "x <- m ;; k" := (bind m (fun x => k))
  (at level 61, m at next level, right associativity).
Notation "m ;;; k" := (bind m (fun _ => k))
  (at level 61, right associativity).

Definition deref (h : heap) (l : loc) : DataFrame := nth l h empty_frame.

Fixpoint store (h : heap) (l : loc) (df : DataFrame) : heap :=
  match h, l with
  | [], _ => []
  | _ :: r, O => df :: r
  | x :: r, S l' => x :: store r l' df
  end.

Definition read (l : loc) : St DataFrame := fun h => (deref h l, h).

(** [df.copy()]: a new object with the same value. *)
Definition copy (l : loc) : St loc :=
  fun h => (List.length h, h ++ [deref h l]).

(** A statement that changes the object at [l] in place. *)
Definition modify (l : loc) (f : DataFrame -> DataFrame) : St unit :=
  fun h => (tt, store h l (f (deref h l))).

Fixpoint for_each {A : Type} (xs : list A) (body : A -> St unit) : St unit :=
  match xs with
  | [] => ret tt
  | x :: r => body x ;;; for_each r body
  end.

Section Objects.
Context {lib : Pandas}.

(** [normalize], statement by statement: an empty frame is returned as the
    same object, any other is copied first. *)
Definition normalize_obj (l : loc) : St loc :=
  df <- read l ;;
  if empty df then ret l
  else
    l' <- copy l ;;
    modify l' (set_columns clean_label) ;;;
    modify l' parse_dates ;;;
    for_each ["state"; "district"]
             (fun c => modify l' (update_col c strip_text)) ;;;
    modify l' (update_col "pincode" clean_pincode) ;;;
    ret l'.

(** [add_total], statement by statement. *)
Definition add_total_obj (l : loc) (cols : list string) (name : string)
  : St loc :=
  l' <- copy l ;;
  for_each cols (fun c => modify l' (fun df => add_total_step df c)) ;;;
  modify l' (set_total cols name) ;;;
  ret l'.

End Objects.

(* ================================================================== *)
(** * The combined view *)
(* ================================================================== *)

Inductive exn : Type :=
| KeyError (label : string)
| IntCastingNaNError
| ValueError
| AttributeError.

Inductive result (A : Type) : Type :=
| Ok (a : A)
| Raise (e : exn).

Arguments Ok {A} a.
Arguments Raise {A} e.

Definition rbind {A B : Type} (m : result A) (k : A -> result B) : result B :=
  match m with
  | Ok a => k a
  | Raise e => Raise e
  end.

Notation "x <-- m ;; k" := (rbind m (fun x => k))
  (at level 61, m at next level, right associativity).

(** A row restricted to some labels, and a key: the cells of the key
    columns of one row. *)
Definition row : Type := list cell.

Definition row_eq_dec (a b : row) : {a = b} + {a <> b} :=
  list_eq_dec cell_eq_dec a b.

Definition row_eqb (a b : row) : bool :=
  if row_eq_dec a b then true else false.

(** The rows of a frame, read through the listed labels. *)
Definition rows_of (df : DataFrame) (labels : list string) : list row :=
  map (fun i => map (fun c => at_ df c i) labels) (seq 0 (index df)).

(** The columns of a list of rows: the first label heads the first cell of
    every row, and so on. *)
Fixpoint columns_of (labels : list string) (rows : list row)
  : list (string * Series) :=
  match labels with
  | [] => []
  | c :: r => (c, map (hd NA) rows) :: columns_of r (map (@tl cell) rows)
  end.

(** The frame with the given labels whose rows are the given lists. *)
Definition of_rows (labels : list string) (rows : list row) : DataFrame :=
  mkFrame (List.length rows) (columns_of labels rows).

(** The elements of a list, each once, in the order of first occurrence. *)
Fixpoint distinct {A : Type} (eqb : A -> A -> bool) (l : list A) : list A :=
  match l with
  | [] => []
  | x :: r => x :: filter (fun y => negb (eqb x y)) (distinct eqb r)
  end.

(** The order in which keys are sorted: cell by cell, timestamps by time,
    text by code, numbers by value. *)
Definition rank (c : cell) : nat :=
  match c with
  | NA => 0
  | Int _ | Float _ => 1
  | Str _ => 2
  | Date _ => 3
  end.

Definition cell_leb (a b : cell) : bool :=
  match a, b with
  | Date s, Date t => (s <=? t)%Z
  | Str s, Str t => String.leb s t
  | (Int _ | Float _), (Int _ | Float _) =>
      match Qcompare (value a) (value b) with
      | Gt => false
      | _ => true
      end
  | _, _ => (rank a <=? rank b)%nat
  end.

Fixpoint row_leb (a b : row) : bool :=
  match a, b with
  | [], _ => true
  | _ :: _, [] => false
  | x :: a', y :: b' => if cell_eqb x y then row_leb a' b' else cell_leb x y
  end.

Fixpoint insert_row (k : row) (l : list row) : list row :=
  match l with
  | [] => [k]
  | x :: r => if row_leb k x then k :: l else x :: insert_row k r
  end.

Definition sort_rows (l : list row) : list row :=
  fold_right insert_row [] l.

(** A key is complete when none of its cells is missing. *)
Definition complete (k : row) : bool := forallb (fun c => negb (is_na c)) k.

Definition is_int (c : cell) : bool :=
  match c with
  | Int _ => true
  | _ => false
  end.

Definition int_value (c : cell) : Z :=
  match c with
  | Int z => z
  | _ => 0%Z
  end.

Definition zsum (l : list Z) : Z := fold_left Z.add l 0%Z.

(** The sum of one group: an integer when every cell is one, else a float
    (missing values are skipped).  The metric columns of the source come
    from [add_total] and hold integers. *)
Definition agg_sum (cells : list cell) : cell :=
  if forallb is_int cells then Int (zsum (map int_value cells))
  else Float (qsum (map value cells)).

(** The first of [labels] that is no column of [df]. *)
Definition missing_label (df : DataFrame) (labels : list string)
  : option string :=
  find (fun c => negb (contains df c)) labels.

(** The keyed rows with key [k]. *)
Definition with_key {A : Type} (k : row) (l : list (row * A)) : list (row * A) :=
  filter (fun kr => row_eqb (fst kr) k) l.

(** [df.groupby(on, as_index=False)[metric].sum()]: the rows whose key
    is complete are kept ([dropna=True]), and there is one row per key, in
    sorted order, with the metric summed.  A label that is no column
    raises [KeyError]. *)
Definition groupby_sum (df : DataFrame) (on : list string) (metric : string)
  : result DataFrame :=
  match missing_label df on with
  | Some c => Raise (KeyError c)
  | None =>
      if contains df metric then
        let keyed := combine (rows_of df on) (col df metric) in
        let kept := filter (fun kr => complete (fst kr)) keyed in
        let groups := sort_rows (distinct row_eqb (map fst kept)) in
        Ok (of_rows (on ++ [metric])
              (map (fun k => k ++ [agg_sum (map snd (with_key k kept))])
                   groups))
      else Raise (KeyError metric)
  end.

(** The labels of [df] outside [on]. *)
Definition others (df : DataFrame) (on : list string) : list string :=
  filter (fun c => negb (existsb (String.eqb c) on)) (columns df).

(** The joined rows for one key: the pairs of a left and a right row with
    that key, or the rows of one side completed with missing values. *)
Definition join_key (nl nr : nat) (L R : list (row * row)) (k : row)
  : list row :=
  match with_key k L, with_key k R with
  | [], rs => map (fun r => k ++ repeat NA nl ++ snd r) rs
  | ls, [] => map (fun l => k ++ snd l ++ repeat NA nr) ls
  | ls, rs => flat_map (fun l => map (fun r => k ++ snd l ++ snd r) rs) ls
  end.

(** [left.merge(right, on=on, how="outer")]: the keys of both sides in
    sorted order.  (The value labels of the two sides are different in
    every call of the source, so no suffix is added.) *)
Definition merge_outer (left right : DataFrame) (on : list string)
  : result DataFrame :=
  match missing_label left on, missing_label right on with
  | Some c, _ => Raise (KeyError c)
  | None, Some c => Raise (KeyError c)
  | None, None =>
      let lv := others left on in
      let rv := others right on in
      let L := combine (rows_of left on) (rows_of left lv) in
      let R := combine (rows_of right on) (rows_of right rv) in
      let keys := sort_rows (distinct row_eqb (map fst L ++ map fst R)) in
      Ok (of_rows (on ++ lv ++ rv)
            (flat_map (join_key (List.length lv) (List.length rv) L R) keys))
  end.

(** [df.fillna(0)] on a whole frame. *)
Definition fillna0_frame (df : DataFrame) : DataFrame :=
  mkFrame (index df) (map (fun cs => (fst cs, fillna0 (snd cs))) (data df)).

(** The composite key of the combined view. *)
Definition key : list string :=
  ["date"; "state"; "district"; "pincode"; "month"].

(** The expression bound to [df] in the combined branch, and the grand
    total that follows it. *)
Definition combined (enr dem bio : DataFrame) : result DataFrame :=
  g1 <-- groupby_sum enr key "enrol" ;;
  g2 <-- groupby_sum dem key "demo" ;;
  m1 <-- merge_outer g1 g2 key ;;
  g3 <-- groupby_sum bio key "bio" ;;
  m2 <-- merge_outer m1 g3 key ;;
  Ok (set_total ["enrol"; "demo"; "bio"] "total" (fillna0_frame m2)).

(* ================================================================== *)
(** * The loader, the page and the date filter *)
(* ================================================================== *)

Definition ENROLMENT_FILES : list string :=
  ["enrollment_all (1).csv"; "enrollment_all (1)_2.csv";
   "enrollment_all (1)_3.csv"].

Definition DEMOGRAPHIC_FILES : list string :=
  ["demo_all (1).csv"; "demo_all (1)_2.csv"].

Definition BIOMETRIC_FILES : list string :=
  ["mightymerge.io__xzzeu4zp.csv"; "mightymerge.io__xzzeu4zp (1)_2.csv"].

(** The files on disk: [None] when [os.path.exists] is false, else the
    frame that [pd.read_csv] returns. *)
Definition filesystem : Type := string -> option DataFrame.

(** The column [c] of [df] in a concatenation: missing cells when [df] has
    no such column. *)
Definition column_or_na (c : string) (df : DataFrame) : Series :=
  match getitem df c with
  | Some s => s
  | None => repeat NA (index df)
  end.

(** [pd.concat(dfs, ignore_index=True)]: the rows one after the other,
    under the union of the labels. *)
Definition concat (dfs : list DataFrame) : DataFrame :=
  mkFrame (list_sum (map index dfs))
          (map (fun c => (c, flat_map (column_or_na c) dfs))
               (distinct String.eqb (flat_map columns dfs))).

(** [load_files(files)] *)
Definition load_files (fs : filesystem) (files : list string) : DataFrame :=
  let dfs := flat_map (fun f => match fs f with
                                | Some df => [df]
                                | None => []
                                end) files in
  match dfs with
  | [] => empty_frame
  | _ => concat dfs
  end.

(** The test [start <= d <= end] on one cell of the date column, where
    the bounds are day numbers: a comparison with a missing date is false. *)
Definition in_range (start stop : Z) (c : cell) : bool :=
  match c with
  | Date t => ((start <=? Calendar.day_of t) && (Calendar.day_of t <=? stop))%Z
  | _ => false
  end.

(** The rows that the mask of the date filter keeps. *)
Definition kept_rows (df : DataFrame) (start stop : Z) : list nat :=
  filter (fun i => in_range start stop (at_ df "date" i)) (seq 0 (index df)).

(** [df[mask]]: the listed rows of every column. *)
Definition take_rows (df : DataFrame) (rows : list nat) : DataFrame :=
  mkFrame (List.length rows)
          (map (fun cs => (fst cs, map (fun i => nth i (snd cs) NA) rows))
               (data df)).

(** [df[(df["date"].dt.date >= start) & (df["date"].dt.date <= end)]] *)
Definition date_filter (df : DataFrame) (start stop : Z) : result DataFrame :=
  if contains df "date" then Ok (take_rows df (kept_rows df start stop))
  else Raise (KeyError "date").

(** The choice of the sidebar. *)
Inductive dataset : Type :=
| Enrolment
| Demographic
| Biometric
| Combined.

(** How a run of the page ends: stopped on "No data loaded", or the
    filtered table handed to the widgets. *)
Inductive outcome : Type :=
| NoData
| Shown (df : DataFrame).

Section Page.
Context {lib : Pandas}.

(** The branch [LOAD DATA] of the script. *)
Definition load_data (fs : filesystem) (sel : dataset) : result DataFrame :=
  match sel with
  | Enrolment =>
      Ok (add_total (normalize (load_files fs ENROLMENT_FILES))
                    ["age_0_5"; "age_5_17"; "age_18_greater"] "total")
  | Demographic =>
      Ok (add_total (normalize (load_files fs DEMOGRAPHIC_FILES))
                    ["demo_age_5_17"; "demo_age_17_"] "total")
  | Biometric =>
      Ok (add_total (normalize (load_files fs BIOMETRIC_FILES))
                    ["bio_age_5_17"; "bio_age_17_"] "total")
  | Combined =>
      let enr := add_total (normalize (load_files fs ENROLMENT_FILES))
                           ["age_0_5"; "age_5_17"; "age_18_greater"] "enrol" in
      let dem := add_total (normalize (load_files fs DEMOGRAPHIC_FILES))
                           ["demo_age_5_17"; "demo_age_17_"] "demo" in
      let bio := add_total (normalize (load_files fs BIOMETRIC_FILES))
                           ["bio_age_5_17"; "bio_age_17_"] "bio" in
      combined enr dem bio
  end.

(** The script from [LOAD DATA] to [FILTER]; [start] and [stop] are the
    days that [st.sidebar.date_input] returns. *)
Definition page (fs : filesystem) (sel : dataset) (start stop : Z)
  : result outcome :=
  df <-- load_data fs sel ;;
  if empty df then Ok NoData
  else
    shown <-- date_filter df start stop ;;
    Ok (Shown shown).

End Page.

(* ================================================================== *)
(** * What the page shows of the filtered table *)
(* ================================================================== *)

(** The timestamps of a column, the missing ones skipped. *)
Definition timestamps (s : Series) : list Z :=
  flat_map (fun c => match c with Date t => [t] | _ => [] end) s.

(** [(df["date"].min().date(), df["date"].max().date())], the range the
    date widget starts with: the days of the earliest and of the latest
    timestamp.  When no row has one, both are [NaT] and there is no such
    range. *)
Definition date_bounds (df : DataFrame) : option (Z * Z) :=
  match timestamps (col df "date") with
  | [] => None
  | t :: r => Some (Calendar.day_of (fold_left Z.min r t),
                    Calendar.day_of (fold_left Z.max r t))
  end.

(** [s.nunique()]: the number of different values, missing ones aside. *)
Definition nunique (s : Series) : nat :=
  List.length (distinct cell_eqb (filter (fun c => negb (is_na c)) s)).

(** The three cards: [len(df)], [df['total'].sum()] and
    [df['state'].nunique()]. *)
Record cards : Type := mkCards {
  records : nat;
  total_count : cell;
  states : nat
}.

Definition kpi_cards (df : DataFrame) : result cards :=
  if contains df "total" then
    if contains df "state" then
      Ok (mkCards (index df) (agg_sum (col df "total"))
                  (nunique (col df "state")))
    else Raise (KeyError "state")
  else Raise (KeyError "total").

(** [df.groupby("date")["total"].sum()], the series of the trend chart, as
    the list of its points: a date of the index and the sum at that date. *)
Definition trend (df : DataFrame) : result (list (cell * cell)) :=
  g <-- groupby_sum df ["date"] "total" ;;
  Ok (combine (col g "date") (col g "total")).

(** [df.head(n)]: the first [n] rows, or all of them when there are fewer. *)
Definition head (n : nat) (df : DataFrame) : DataFrame :=
  take_rows df (seq 0 (Nat.min n (index df))).

(** What the page renders below the filter: the cards, the points of the
    trend chart and the rows of the data tab ([df.head(5000)]); the text
    that [to_csv] hands to the download button is not modelled. *)
Record view : Type := mkView {
  view_cards : cards;
  view_trend : list (cell * cell);
  view_table : DataFrame
}.

Definition widgets (df : DataFrame) : result view :=
  k <-- kpi_cards df ;;
  t <-- trend df ;;
  Ok (mkView k t (head 5000 df)).

Section Dashboard.
Context {lib : Pandas}.

(** A run of the script: [None] when it stops on "No data loaded". *)
Definition dashboard (fs : filesystem) (sel : dataset) (start stop : Z)
  : result (option view) :=
  o <-- page fs sel start stop ;;
  match o with
  | NoData => Ok None
  | Shown df => v <-- widgets df ;; Ok (Some v)
  end.

End Dashboard.

(* ================================================================== *)
(** * The script on machine numbers, with what the libraries raise *)
(* ================================================================== *)

(** The definitions above compute with unbounded integers and exact
    fractions, and they leave out what the libraries raise apart from
    [KeyError]: [astype(int)] on a sum that is not finite, the date widget
    on a range it cannot take, [.dt] on a column that holds no dates.  The
    definitions below have the int64 and float64 totals of [add_total] and
    these exceptions; they are the same script otherwise. *)

Module Machine.

(** An integer as int64 holds it: sums of int64 wrap around. *)
Definition wrap64 (z : Z) : Z := ((z + 2 ^ 63) mod 2 ^ 64 - 2 ^ 63)%Z.

(** The results of a list of steps, or the first exception. *)
Fixpoint collect {A : Type} (l : list (result A)) : result (list A) :=
  match l with
  | [] => Ok []
  | r :: l' => x <-- r ;; xs <-- collect l' ;; Ok (x :: xs)
  end.

Section Totals.
Context {lib : Pandas}.

(** A text that [to_numeric] reads as an infinity. *)
Definition infinite (c : cell) : bool :=
  match c with
  | Str s => reads_as_infinite s
  | _ => false
  end.

(** The cells that the loop body finds under [c]: those of the frame, or
    the zeros of [df[c] = 0]. *)
Definition expected (df : DataFrame) (c : string) : Series :=
  match getitem df c with
  | Some s => s
  | None => repeat (Int 0) (index df)
  end.

(** [to_numeric(...).fillna(0)] gives an int64 column when every cell
    reads as a whole number written without a fraction, and a float64
    column otherwise: a missing or unreadable cell makes it one. *)
Definition int64_column (s : Series) : bool :=
  forallb (fun x => is_int (to_numeric_cell x) && negb (infinite x)) s.

(** [df[cols].sum(axis=1).astype(int)] on row [i], where [after] is the
    frame that the loop leaves: a sum of int64 when all the columns are
    int64, else a sum of float64, on which [astype(int)] raises when it is
    not finite (an infinity in the row, or an overflow). *)
Definition total_of_row (df after : DataFrame) (cols : list string) (i : nat)
  : result cell :=
  if forallb (fun c => int64_column (expected df c)) cols then
    Ok (Int (wrap64 (zsum (map (fun c => int_value (at_ after c i)) cols))))
  else if existsb (fun c => infinite (nth i (expected df c) NA)) cols then
    Raise IntCastingNaNError
  else
    match sum_as_int64 (map (fun c => value (at_ after c i)) cols) with
    | Some z => Ok (Int z)
    | None => Raise IntCastingNaNError
    end.

(** [add_total(df, cols, name)] *)
Definition add_total (df : DataFrame) (cols : list string) (name : string)
  : result DataFrame :=
  let after := fold_left add_total_step cols df in
  totals <-- collect (map (total_of_row df after cols) (seq 0 (index df))) ;;
  Ok (setitem after name totals).

End Totals.
End Machine.

Module Run.
Section Script.
Context {lib : Pandas}.

(** The three tables of the combined branch, in the order of the
    script. *)
Definition categories (fs : filesystem)
  : result (DataFrame * DataFrame * DataFrame) :=
  enr <-- Machine.add_total (normalize (load_files fs ENROLMENT_FILES))
            ["age_0_5"; "age_5_17"; "age_18_greater"] "enrol" ;;
  dem <-- Machine.add_total (normalize (load_files fs DEMOGRAPHIC_FILES))
            ["demo_age_5_17"; "demo_age_17_"] "demo" ;;
  bio <-- Machine.add_total (normalize (load_files fs BIOMETRIC_FILES))
            ["bio_age_5_17"; "bio_age_17_"] "bio" ;;
  Ok (enr, dem, bio).

(** The branch [LOAD DATA] of the script.  (The sums of the combined view
    are those of [combined].) *)
Definition load_data (fs : filesystem) (sel : dataset) : result DataFrame :=
  match sel with
  | Enrolment =>
      Machine.add_total (normalize (load_files fs ENROLMENT_FILES))
                        ["age_0_5"; "age_5_17"; "age_18_greater"] "total"
  | Demographic =>
      Machine.add_total (normalize (load_files fs DEMOGRAPHIC_FILES))
                        ["demo_age_5_17"; "demo_age_17_"] "total"
  | Biometric =>
      Machine.add_total (normalize (load_files fs BIOMETRIC_FILES))
                        ["bio_age_5_17"; "bio_age_17_"] "total"
  | Combined =>
      t <-- categories fs ;;
      let '(enr, dem, bio) := t in
      combined enr dem bio
  end.

(** [df["date"].min(), df["date"].max()] and the two calls of [.date()],
    as the days handed to the date widget; [None] when both are [NaT].  On
    a column of texts or of numbers [min] returns one of them, which has no
    method [date]. *)
Definition bounds (df : DataFrame) : result (option (Z * Z)) :=
  if contains df "date" then
    if forallb is_date (col df "date") then Ok (date_bounds df)
    else Raise AttributeError
  else Raise (KeyError "date").

(** [start, end = st.sidebar.date_input("Date Range", (min, max))]:
    [picked] are the days that the widget returns, the two of the range
    when the user has picked both ends (at first they are the default
    range).  The widget raises [ValueError] on [NaT], and the assignment
    does when it is not handed two days. *)
Definition date_input (range : option (Z * Z)) (picked : list Z)
  : result (Z * Z) :=
  match range with
  | None => Raise ValueError
  | Some _ =>
      match picked with
      | [start; stop] => Ok (start, stop)
      | _ => Raise ValueError
      end
  end.

(** [df[(df["date"].dt.date >= start) & (df["date"].dt.date <= end)]]:
    [.dt] raises [AttributeError] on a column that is no datetime
    column. *)
Definition date_filter (df : DataFrame) (start stop : Z) : result DataFrame :=
  if contains df "date" then
    if forallb is_date (col df "date") then
      Ok (take_rows df (kept_rows df start stop))
    else Raise AttributeError
  else Raise (KeyError "date").

(** The empty check and the section [FILTER], on the table loaded. *)
Definition filtered (df : DataFrame) (picked : list Z) : result outcome :=
  if empty df then Ok NoData
  else
    range <-- bounds df ;;
    days <-- date_input range picked ;;
    shown <-- date_filter df (fst days) (snd days) ;;
    Ok (Shown shown).

(** The script from [LOAD DATA] to [FILTER]. *)
Definition page (fs : filesystem) (sel : dataset) (picked : list Z)
  : result outcome :=
  df <-- load_data fs sel ;;
  filtered df picked.

(** A run of the script: [None] when it stops on "No data loaded". *)
Definition dashboard (fs : filesystem) (sel : dataset) (picked : list Z)
  : result (option view) :=
  o <-- page fs sel picked ;;
  match o with
  | NoData => Ok None
  | Shown df => v <-- widgets df ;; Ok (Some v)
  end.

End Script.
End Run.

(* ================================================================== *)
(** * An instance of the library, and sample tables *)
(* ================================================================== *)

Module Demo.

Definition digit (c : ascii) : option Z :=
  let n := N_of_ascii c in
  if ((48 <=? n) && (n <=? 57))%N then Some (Z.of_N (n - 48)) else None.

Fixpoint digits (s : string) (acc : Z) : option Z :=
  match s with
  | EmptyString => Some acc
  | String c r =>
      match digit c with
      | Some d => digits r (10 * acc + d)%Z
      | None => None
      end
  end.

(** A non-empty run of decimal digits. *)
Definition literal (s : string) : option Z :=
  match s with
  | EmptyString => None
  | _ => digits s 0%Z
  end.

Definition is_sep (c : ascii) : bool := Ascii.eqb c "-" || Ascii.eqb c "/".

(** Dates written DD-MM-YYYY or DD/MM/YYYY. *)
Definition parse_dmy (s : string) : option Z :=
  match literal (substring 0 2 s), literal (substring 3 2 s),
        literal (substring 6 4 s), get 2 s, get 5 s with
  | Some d, Some m, Some y, Some a, Some b =>
      if (String.length s =? 10)%nat && is_sep a && is_sep b
         && (1 <=? m)%Z && (m <=? 12)%Z && (1 <=? d)%Z && (d <=? 31)%Z
      then Some (Calendar.days_from_civil y m d * Calendar.ns_per_day)%Z
      else None
  | _, _, _, _, _ => None
  end.

(** Decimal numbers: an optional sign, digits, and an optional fraction. *)
Definition parse_decimal (s : string) : option number :=
  let (sign, body) := match s with
                      | String "-" r => ((-1)%Z, r)
                      | _ => (1%Z, s)
                      end in
  match String.index 0 "." body with
  | None => option_map (fun z => NInt (sign * z)) (literal body)
  | Some i =>
      let frac := substring (S i) (String.length body - S i) body in
      match literal (substring 0 i body), literal frac with
      | Some a, Some b =>
          let den := (10 ^ Z.of_nat (String.length frac))%Z in
          Some (NFloat (Q2Qc (Qmake (sign * (a * den + b)) (Z.to_pos den))))
      | _, _ => None
      end
  end.

Fixpoint fraction (fuel : nat) (r den : Z) : string :=
  match fuel with
  | O => EmptyString
  | S fuel' =>
      if (r =? 0)%Z then EmptyString
      else (Text.repr_int (10 * r / den) ++ fraction fuel' (10 * r mod den) den)
  end.

(** A float printed with its fraction, "110001.0" for a whole number. *)
Definition print_float (q : Qc) : string :=
  let n := Qnum q in
  let d := Z.pos (Qden q) in
  let whole := Z.quot n d in
  let r := Z.abs (Z.rem n d) in
  (if (n <? 0)%Z && (whole =? 0)%Z then "-" else "")
  ++ Text.repr_int whole ++ "."
  ++ (if (r =? 0)%Z then "0" else fraction 20 r d).

(** A timestamp printed as its day, "YYYY-MM-DD". *)
Definition print_day (t : Z) : string :=
  let '(y, m, d) := Calendar.civil_from_days (Calendar.day_of t) in
  Text.zero_pad 4 y ++ "-" ++ Text.zero_pad 2 m ++ "-" ++ Text.zero_pad 2 d.

(** The spellings of an infinity, with or without a sign. *)
Definition spells_infinity (s : string) : bool :=
  let body := match s with
              | String "-" r => r
              | String "+" r => r
              | _ => s
              end in
  let t := Text.lower body in
  String.eqb t "inf" || String.eqb t "infinity".

(** The sum of one row, exact and truncated: what float64 gives on the
    small numbers of the sample tables. *)
Definition exact_sum (l : list Qc) : option Z := Some (trunc (qsum l)).

(** The library as pandas 2 behaves: the missing period is printed. *)
#[global] Instance lib : Pandas := {
  parse_datetime := parse_dmy;
  parse_number := parse_decimal;
  repr_float := print_float;
  repr_datetime := print_day;
  prints_missing := true;
  reads_as_infinite := spells_infinity;
  sum_as_int64 := exact_sum
}.

(** The library as pandas 3 behaves: the missing period stays missing. *)
Definition lib3 : Pandas := {|
  parse_datetime := parse_dmy;
  parse_number := parse_decimal;
  repr_float := print_float;
  repr_datetime := print_day;
  prints_missing := false;
  reads_as_infinite := spells_infinity;
  sum_as_int64 := exact_sum
|}.

(** The timestamp of a day at midnight. *)
Definition midnight (y m d : Z) : Z :=
  (Calendar.days_from_civil y m d * Calendar.ns_per_day)%Z.

(** One enrolment row as [read_csv] gives it, with a float pin code. *)
Definition enrolment_raw : DataFrame :=
  mkFrame 1
    [("Date", [Str "01-01-2024"]); ("State ", [Str " X "]);
     ("District", [Str "A"]); ("Pincode", [Str "110001.0"]);
     ("age_0_5", [Int 2]); ("age_5_17", [Int 3]); ("age_18_greater", [Int 5])].

(** Three rows: a date that does not parse, a negative count, a count that
    is no number and a count with a fraction. *)
Definition messy_raw : DataFrame :=
  mkFrame 3
    [("date", [Str "01-01-2024"; Str "not a date"; Str "15-02-2024"]);
     ("state", [Str "X"; NA; Str "Y"]);
     ("district", [Str "A"; Str "B"; Str "C"]);
     ("pincode", [Float (Z2Qc 110001); Int 560001; Str "110.001"]);
     ("age_0_5", [Int (-5); Str "seven"; Str "2.5"]);
     ("age_5_17", [Int 3; Int 4; Int 1])].

(** A pin code in which removing ".0" brings a new ".0" together. *)
Definition dotted_raw : DataFrame :=
  mkFrame 1 [("pincode", [Str "110..001"])].

(** Two rows of counts and no column "age_18_greater": a count written
    "3.0", a text that is no number and a missing count. *)
Definition sparse_raw : DataFrame :=
  mkFrame 2
    [("age_0_5", [Str "7"; Str "seven"]);
     ("age_5_17", [Str "3.0"; NA])].

(** One row with two counts of 2^62. *)
Definition large_raw : DataFrame :=
  mkFrame 1
    [("age_0_5", [Int 4611686018427387904]);
     ("age_5_17", [Int 4611686018427387904])].

(** One row with a count that reads as an infinity. *)
Definition infinite_raw : DataFrame :=
  mkFrame 1 [("age_0_5", [Str "inf"]); ("age_5_17", [Int 1])].

(** The three categories as [read_csv] gives them.  Enrolment: two rows
    with the same date and place (counts 3 and 5) and a third row. *)
Definition enrolment_rows : DataFrame :=
  mkFrame 3
    [("date", [Str "01-01-2024"; Str "01-01-2024"; Str "15-02-2024"]);
     ("state", [Str "X"; Str "X"; Str "Y"]);
     ("district", [Str "A"; Str "A"; Str "C"]);
     ("pincode", [Int 110001; Int 110001; Int 560001]);
     ("age_0_5", [Int 1; Int 2; Int 1]);
     ("age_5_17", [Int 1; Int 2; Int 2]);
     ("age_18_greater", [Int 1; Int 1; Int 3])].

Definition demographic_rows : DataFrame :=
  mkFrame 1
    [("date", [Str "15-02-2024"]); ("state", [Str "Y"]);
     ("district", [Str "C"]); ("pincode", [Int 560001]);
     ("demo_age_5_17", [Int 1]); ("demo_age_17_", [Int 3])].

Definition biometric_rows : DataFrame :=
  mkFrame 1
    [("date", [Str "01-01-2024"]); ("state", [Str "Z"]);
     ("district", [Str "Q"]); ("pincode", [Int 700001]);
     ("bio_age_5_17", [Int 3]); ("bio_age_17_", [Int 4])].

(** Two enrolment rows of one place whose date does not parse (counts 3
    and 5), and a dated row. *)
Definition undated_rows : DataFrame :=
  mkFrame 3
    [("date", [Str "n/a"; Str "n/a"; Str "01-01-2024"]);
     ("state", [Str "X"; Str "X"; Str "X"]);
     ("district", [Str "A"; Str "A"; Str "A"]);
     ("pincode", [Int 110001; Int 110001; Int 110001]);
     ("age_0_5", [Int 1; Int 2; Int 1]);
     ("age_5_17", [Int 1; Int 2; Int 1]);
     ("age_18_greater", [Int 1; Int 1; Int 0])].

Definition day1 : cell := Date (midnight 2024 1 1).
Definition day2 : cell := Date (midnight 2024 2 15).

(** The same, normalised and totalised as the combined branch does. *)
Definition enr_t : DataFrame :=
  add_total (normalize enrolment_rows)
            ["age_0_5"; "age_5_17"; "age_18_greater"] "enrol".

Definition dem_t : DataFrame :=
  add_total (normalize demographic_rows)
            ["demo_age_5_17"; "demo_age_17_"] "demo".

Definition bio_t : DataFrame :=
  add_total (normalize biometric_rows)
            ["bio_age_5_17"; "bio_age_17_"] "bio".

Definition undated_t : DataFrame :=
  add_total (normalize undated_rows)
            ["age_0_5"; "age_5_17"; "age_18_greater"] "enrol".

(** No file exists. *)
Definition no_files : filesystem := fun _ => None.

(** One row whose count column has a label to clean. *)
Definition labelled_raw : DataFrame :=
  mkFrame 1 [("Date", [Str "01-01-2024"]); (" Age 0-5 ", [Int 2])].

(** One row with a date and a count, and no state. *)
Definition stateless_raw : DataFrame :=
  mkFrame 1 [("date", [Str "01-01-2024"]); ("age_0_5", [Int 1])].

(** One row of a place whose date does not parse. *)
Definition unparsed_rows : DataFrame :=
  mkFrame 1
    [("date", [Str "n/a"]); ("state", [Str "X"]); ("district", [Str "A"]);
     ("pincode", [Int 110001])].

(** The enrolment table as the enrolment page totalises it. *)
Definition enr_view : DataFrame :=
  add_total (normalize enrolment_rows)
            ["age_0_5"; "age_5_17"; "age_18_greater"] "total".

(** The files on disk: [file] holds [df], and so on. *)
Fixpoint disk (files : list (string * DataFrame)) : filesystem :=
  match files with
  | [] => fun _ => None
  | (name, df) :: r =>
      fun f => if String.eqb f name then Some df else disk r f
  end.

(** Two enrolment files, the second with other columns, and no other. *)
Definition two_files : filesystem :=
  disk [("enrollment_all (1).csv", enrolment_rows);
        ("enrollment_all (1)_3.csv", dotted_raw)].

(** One file for each category. *)
Definition all_files : filesystem :=
  disk [("enrollment_all (1).csv", enrolment_rows);
        ("demo_all (1).csv", demographic_rows);
        ("mightymerge.io__xzzeu4zp.csv", biometric_rows)].

(** One enrolment file, with no date column. *)
Definition dateless_files : filesystem :=
  disk [("enrollment_all (1).csv", dotted_raw)].

(** One enrolment file, with no state column. *)
Definition stateless_files : filesystem :=
  disk [("enrollment_all (1).csv", stateless_raw)].

(** One demographic file that has its header and no row. *)
Definition header_files : filesystem :=
  disk [("demo_all (1).csv", mkFrame 0 [("date", []); ("state", [])])].

(** One file for each category, in which no date parses. *)
Definition unparsed_files : filesystem :=
  disk [("enrollment_all (1).csv", unparsed_rows);
        ("demo_all (1).csv", unparsed_rows);
        ("mightymerge.io__xzzeu4zp.csv", unparsed_rows)].

End Demo.

(* ================================================================== *)
(** * What the statements below are phrased with *)
(* ================================================================== *)

Section Statements.
Context {lib : Pandas}.

(** A number with no fraction. *)
Definition whole (q : Qc) : bool := Qc_eq_bool q (Z2Qc (trunc q)).

(** Modelled from the spec: what a cell of an expected column contributes
    to the total of its row, the number it holds or, for a text, the
    number it reads as; a missing cell and a text that is no number
    contribute 0. *)
Definition reading (c : cell) : Z :=
  match c with
  | Int z => z
  | Float q => trunc q
  | Str s =>
      match parse_number s with
      | Some (NInt z) => z
      | Some (NFloat q) => trunc q
      | None => 0%Z
      end
  | NA | Date _ => 0%Z
  end.

(** Modelled from the spec: what column [c] contributes to row [i]; an
    expected column that the input does not have contributes 0. *)
Definition count (df : DataFrame) (i : nat) (c : string) : Z :=
  match getitem df c with
  | Some s => reading (nth i s NA)
  | None => 0%Z
  end.

(** The cells on which the total can be the exact sum: whole numbers,
    texts that read as a whole number or as no number, and missing cells;
    no fraction, no infinity, no timestamp. *)
Definition countable (c : cell) : bool :=
  match c with
  | NA | Int _ => true
  | Float q => whole q
  | Str s =>
      negb (reads_as_infinite s)
      && match parse_number s with
         | Some (NFloat q) => whole q
         | _ => true
         end
  | Date _ => false
  end.

(** The law of float64 that an exact total rests on: whole numbers whose
    absolute values add up to 2^53 at most are added without rounding, in
    any order, and the sum is finite. *)
Definition float64_exact : Prop :=
  forall zs : list Z,
    (zsum (map Z.abs zs) <= 2 ^ 53)%Z ->
    sum_as_int64 (map Z2Qc zs) = Some (zsum zs).

(** A text of ASCII characters only; on such a text [Text.strip] is
    Python's [str.strip], which takes off other Unicode spaces too. *)
Fixpoint is_ascii (s : string) : bool :=
  match s with
  | EmptyString => true
  | String c r => (N_of_ascii c <? 128)%N && is_ascii r
  end.

(** A cell that holds the whole number [z], as an int64 or as a float64:
    a metric column is float64 after an outer merge that left gaps. *)
Definition holds (c : cell) (z : Z) : Prop :=
  is_number c = true /\ value c = Z2Qc z.

(** The absolute values of an integer column, added up: a bound of every
    sum over rows of the column. *)
Definition magnitude (df : DataFrame) (metric : string) : Z :=
  zsum (map (fun c => Z.abs (int_value c)) (col df metric)).

(** The frame after the renaming of its labels, where [normalize] reads
    the columns "date", "state", "district" and "pincode". *)
Definition renamed (df : DataFrame) : DataFrame := set_columns clean_label df.

(** No ".0" is left in the pin codes of a frame. *)
Definition settled_pincode (df : DataFrame) : bool :=
  forallb (fun c => match c with
                    | Str s => negb (Text.has_dot0 s)
                    | _ => true
                    end) (col df "pincode").

End Statements.

(** Modelled from the spec: "strip a trailing literal [.0] suffix ...
    leaving other formatting untouched" (section 4.2, step 4), to be
    compared with [Text.remove_dot0], which the source applies. *)
Fixpoint strip_suffix_dot0 (s : string) : string :=
  match s with
  | EmptyString => EmptyString
  | String c r =>
      if String.eqb s ".0" then EmptyString else String c (strip_suffix_dot0 r)
  end.

(** The key of row [i]. *)
Definition key_at (df : DataFrame) (i : nat) : row :=
  map (fun c => at_ df c i) key.

(** The rows of [df] whose key is [k]. *)
Definition rows_with_key (df : DataFrame) (k : row) : list nat :=
  filter (fun i => row_eqb (key_at df i) k) (seq 0 (index df)).

(** The sum of an integer metric over the rows with key [k]; 0 when there
    is none. *)
Definition group_total (df : DataFrame) (metric : string) (k : row) : Z :=
  zsum (map (fun i => int_value (at_ df metric i)) (rows_with_key df k)).

(** The cells of the key columns as [normalize] leaves them: a timestamp
    or the missing one under "date" ([is_date]), a text or the missing
    value under the four other labels. *)
Definition is_text (c : cell) : bool :=
  match c with
  | Str _ | NA => true
  | _ => false
  end.

Definition typed_keys (df : DataFrame) : Prop :=
  Forall (fun c => is_date c = true) (col df "date") /\
  Forall (fun l => Forall (fun c => is_text c = true) (col df l))
         ["state"; "district"; "pincode"; "month"].

(** A table as [add_total (normalize _)] hands it to the combined view: a
    well-formed frame with the five key columns, typed as above, and the
    metric, which is no key label and holds integers. *)
Definition ready (df : DataFrame) (metric : string) : Prop :=
  wf df /\
  Forall (fun c => contains df c = true) key /\
  contains df metric = true /\
  ~ In metric key /\
  typed_keys df /\
  Forall (fun c => is_int c = true) (col df metric).

(** The frames of the files that exist, in the order of the list. *)
Definition existing (fs : filesystem) (files : list string) : list DataFrame :=
  flat_map (fun f => match fs f with
                     | Some df => [df]
                     | None => []
                     end) files.

(** A cell that holds a timestamp. *)
Definition is_timestamp (c : cell) : bool :=
  match c with
  | Date _ => true
  | _ => false
  end.

(** The files behind a choice of the sidebar. *)
Definition files_of (sel : dataset) : list string :=
  match sel with
  | Enrolment => ENROLMENT_FILES
  | Demographic => DEMOGRAPHIC_FILES
  | Biometric => BIOMETRIC_FILES
  | Combined => ENROLMENT_FILES ++ DEMOGRAPHIC_FILES ++ BIOMETRIC_FILES
  end.

(** The three categories of the combined view. *)
Definition CATEGORY_FILES : list (list string) :=
  [ENROLMENT_FILES; DEMOGRAPHIC_FILES; BIOMETRIC_FILES].

(** The key columns that a file has to bring; "month" is derived. *)
Definition SOURCE_KEY : list string := ["date"; "state"; "district"; "pincode"].

(** The sum of an integer metric over the rows whose key is complete. *)
Definition complete_total (df : DataFrame) (metric : string) : Z :=
  zsum (map (fun i => int_value (at_ df metric i))
            (filter (fun i => complete (key_at df i)) (seq 0 (index df)))).

(** The sum of the totals of the rows dated [d]. *)
Definition date_total (df : DataFrame) (d : cell) : Z :=
  zsum (map (fun i => int_value (at_ df "total" i))
            (filter (fun i => cell_eqb (at_ df "date" i) d)
                    (seq 0 (index df)))).

(* ================================================================== *)
(** * What the proofs are phrased with *)
(* ================================================================== *)

(** The three per-character steps of [clean_label] after [strip]. *)
Definition label_char (c : ascii) : ascii :=
  let c := Text.lower_char c in
  let c := if Ascii.eqb c " " then "_"%char else c in
  if Ascii.eqb c "-" then "_"%char else c.

(** A text that does not start with white space. *)
Definition head_ok (s : string) : bool :=
  match s with
  | EmptyString => true
  | String c _ => negb (Text.is_space c)
  end.

Section ProofTerms.
Context {lib : Pandas}.

(** The two conversions of the loop body on one cell. *)
Definition coerce (c : cell) : cell := fillna0_cell (to_numeric_cell c).

(** The column the loop body converts: the one of the frame, or the zeros
    it has just created. *)
Definition source (df : DataFrame) (c : string) : Series :=
  match getitem df c with
  | Some s => s
  | None => repeat (Int 0) (index df)
  end.

(** The frame that the totaliser returns, given the cells of its output
    column. *)
Definition with_totals (df : DataFrame) (cols : list string) (name : string)
           (totals : Series) : DataFrame :=
  setitem (fold_left add_total_step cols df) name totals.

(** The four steps that follow the renaming. *)
Definition after_dates (df : DataFrame) : DataFrame := parse_dates (renamed df).

Definition after_state (df : DataFrame) : DataFrame :=
  update_col "state" strip_text (after_dates df).

Definition after_district (df : DataFrame) : DataFrame :=
  update_col "district" strip_text (after_state df).

End ProofTerms.

(** The cell of a row under a label, given the labels of the row. *)
Fixpoint cell_at (labels : list string) (r : row) (c : string) : cell :=
  match labels with
  | [] => NA
  | c0 :: ls => if String.eqb c0 c then hd NA r else cell_at ls (tl r) c
  end.

(** A frame given by its keys and, for each key, the values that follow. *)
Definition keyed_frame (on vs : list string) (K : list row) (f : row -> row)
  : DataFrame :=
  of_rows (on ++ vs) (map (fun k => k ++ f k) K).

(** The keys of the groups of [df]: the complete keys, each once, sorted. *)
Definition groups (df : DataFrame) (on : list string) : list row :=
  sort_rows (distinct row_eqb (filter complete (rows_of df on))).

(** The metric cells of the rows of [df] with key [k]. *)
Definition group_cells (df : DataFrame) (on : list string) (metric : string)
           (k : row) : list cell :=
  map snd (with_key k (filter (fun kr => complete (fst kr))
                              (combine (rows_of df on) (col df metric)))).

(** The values of one side of an outer merge at key [k]: those of the row
    with that key, or missing values. *)
Definition side (K : list row) (f : row -> row) (n : nat) (k : row) : row :=
  if in_dec row_eq_dec k K then f k else repeat NA n.

(** The value of a group, as the one-cell row that follows its key. *)
Definition metric_cell (df : DataFrame) (metric : string) (k : row) : row :=
  [agg_sum (group_cells df key metric k)].

(** The keys of the first merge and of the second. *)
Definition keys2 (enr dem : DataFrame) : list row :=
  sort_rows (distinct row_eqb (groups enr key ++ groups dem key)).

Definition keys3 (enr dem bio : DataFrame) : list row :=
  sort_rows (distinct row_eqb (keys2 enr dem ++ groups bio key)).

(** The values of the first merge and of the second. *)
Definition values2 (enr dem : DataFrame) (k : row) : row :=
  side (groups enr key) (metric_cell enr "enrol") 1 k
  ++ side (groups dem key) (metric_cell dem "demo") 1 k.

Definition values3 (enr dem bio : DataFrame) (k : row) : row :=
  side (keys2 enr dem) (values2 enr dem) 2 k
  ++ side (groups bio key) (metric_cell bio "bio") 1 k.

(** The three totals of a key. *)
Definition totals (enr dem bio : DataFrame) (k : row) : row :=
  [Int (group_total enr "enrol" k); Int (group_total dem "demo" k);
   Int (group_total bio "bio" k)].

(** The table of the combined view, key by key. *)
Definition combined_out (enr dem bio : DataFrame) : DataFrame :=
  set_total ["enrol"; "demo"; "bio"] "total"
            (keyed_frame key ["enrol"; "demo"; "bio"]
                         (keys3 enr dem bio) (totals enr dem bio)).

(** The cells of column [c], row by row; missing ones when [df] has no
    such column. *)
Definition cells (c : string) (df : DataFrame) : Series :=
  map (fun i => at_ df c i) (seq 0 (index df)).

(** Closes the goals that say that concrete labels are different. *)
Ltac distinct_labels :=
  solve [repeat apply NoDup_cons; try apply NoDup_nil; simpl;
         intuition discriminate].

(** Proves [wf] and [ready] for a concrete table, by evaluation. *)
Ltac by_evaluation :=
  cbv beta delta [ready wf typed_keys]; vm_compute;
  repeat match goal with
         | |- _ /\ _ => split
         | |- NoDup _ => constructor
         | |- Forall _ _ => constructor
         | |- ~ _ => let H := fresh in intro H; simpl in H
         | |- _ -> False => intro
         | |- _ = _ => reflexivity
         | H : _ \/ _ |- _ => destruct H
         | H : _ = _ |- False => discriminate H
         | H : False |- _ => destruct H
         end.

(* ================================================================== *)
(** * Text: stripping and replacing *)
(* ================================================================== *)

Module TextFacts.
Import Text.

Lemma map_chars_compose (f g : ascii -> ascii) (s : string) :
  map_chars f (map_chars g s) = map_chars (fun c => f (g c)) s.
Proof.
  induction s as [|c r IH]; simpl; [reflexivity | now rewrite IH].
Qed.

Lemma map_chars_ext (f g : ascii -> ascii) (s : string) :
  (forall c, f c = g c) -> map_chars f s = map_chars g s.
Proof.
  intros E; induction s as [|c r IH]; simpl; [reflexivity | now rewrite E, IH].
Qed.

Lemma label_char_idem (c : ascii) : label_char (label_char c) = label_char c.
Proof.
  destruct c as [[] [] [] [] [] [] [] []]; reflexivity.
Qed.

Lemma label_char_space (c : ascii) :
  is_space c = false -> is_space (label_char c) = false.
Proof.
  destruct c as [[] [] [] [] [] [] [] []]; simpl; intros E;
    solve [reflexivity | discriminate E].
Qed.

Lemma lstrip_head_ok (s : string) : head_ok (lstrip s) = true.
Proof.
  induction s as [|c r IH]; simpl; [reflexivity|].
  destruct (is_space c) eqn:E; [exact IH | simpl; now rewrite E].
Qed.

Lemma head_ok_lstrip (s : string) : head_ok s = true -> lstrip s = s.
Proof.
  destruct s as [|c r]; simpl; [reflexivity|].
  destruct (is_space c); [discriminate | reflexivity].
Qed.

Lemma rstrip_head_ok (s : string) : head_ok s = true -> head_ok (rstrip s) = true.
Proof.
  destruct s as [|c r]; simpl; [reflexivity|].
  intros E. destruct (rstrip r); simpl.
  - destruct (is_space c) eqn:Ec; [discriminate | simpl; now rewrite Ec].
  - exact E.
Qed.

Lemma rstrip_idem (s : string) : rstrip (rstrip s) = rstrip s.
Proof.
  induction s as [|c r IH]; simpl; [reflexivity|].
  destruct (rstrip r) as [|d r'] eqn:E.
  - destruct (is_space c) eqn:Ec; simpl; [reflexivity | now rewrite Ec].
  - simpl in *. now rewrite IH.
Qed.

Lemma strip_head_ok (s : string) : head_ok (strip s) = true.
Proof. apply rstrip_head_ok, lstrip_head_ok. Qed.

Lemma strip_rstrip (s : string) : rstrip (strip s) = strip s.
Proof. apply rstrip_idem. Qed.

Lemma strip_fixed (s : string) :
  head_ok s = true -> rstrip s = s -> strip s = s.
Proof.
  intros H1 H2. unfold strip. now rewrite (head_ok_lstrip _ H1).
Qed.

(** [strip] is idempotent. *)
Lemma strip_idem (s : string) : strip (strip s) = strip s.
Proof. apply strip_fixed; [apply strip_head_ok | apply strip_rstrip]. Qed.

Lemma map_chars_head_ok (s : string) :
  head_ok s = true -> head_ok (map_chars label_char s) = true.
Proof.
  destruct s as [|c r]; simpl; [reflexivity|].
  intros E. apply negb_true_iff in E. apply negb_true_iff.
  now apply label_char_space.
Qed.

Lemma map_chars_nonempty (f : ascii -> ascii) (s : string) :
  map_chars f s = EmptyString -> s = EmptyString.
Proof. destruct s; simpl; [reflexivity | discriminate]. Qed.

Lemma map_chars_rstrip (s : string) :
  rstrip s = s -> rstrip (map_chars label_char s) = map_chars label_char s.
Proof.
  induction s as [|c r IH]; simpl; [reflexivity|].
  destruct (rstrip r) as [|d r'] eqn:E.
  - destruct (is_space c) eqn:Ec; [discriminate|].
    intros H; injection H as <-. simpl.
    now rewrite (label_char_space _ Ec).
  - intros H; injection H as H.
    rewrite (IH H). rewrite <- H. reflexivity.
Qed.

End TextFacts.

Module DotZero.
Import Text.

(** Where ".0" does not occur, nothing is removed. *)
Lemma remove_dot0_fixed (s : string) :
  has_dot0 s = false -> remove_dot0 s = s.
Proof.
  induction s as [|c r IH]; [reflexivity|].
  destruct r as [|d r']; [reflexivity|].
  intros H. change (has_dot0 (String c (String d r')))
    with ((Ascii.eqb c "." && Ascii.eqb d "0") || has_dot0 (String d r'))%bool in H.
  apply orb_false_iff in H as [H1 H2].
  change (remove_dot0 (String c (String d r')))
    with (if (Ascii.eqb c "." && Ascii.eqb d "0")%bool then remove_dot0 r'
          else String c (remove_dot0 (String d r'))).
  rewrite H1. now rewrite (IH H2).
Qed.

(** A trailing ".0" is removed from a text that holds no other ".0". *)
Lemma remove_dot0_suffix (s : string) :
  has_dot0 s = false -> remove_dot0 (s ++ ".0") = s.
Proof.
  induction s as [|c r IH]; [reflexivity|].
  intros H.
  destruct r as [|d r'].
  - simpl. now rewrite andb_false_r.
  - change (has_dot0 (String c (String d r')))
      with ((Ascii.eqb c "." && Ascii.eqb d "0") || has_dot0 (String d r'))%bool in H.
    apply orb_false_iff in H as [H1 H2].
    change (remove_dot0 (String c (String d r') ++ ".0"))
      with (if (Ascii.eqb c "." && Ascii.eqb d "0")%bool
            then remove_dot0 (r' ++ ".0")
            else String c (remove_dot0 (String d r' ++ ".0"))).
    rewrite H1. now rewrite (IH H2).
Qed.

End DotZero.

(* ================================================================== *)
(** * Numbers *)
(* ================================================================== *)

Module Numbers.

Lemma this_Z2Qc (z : Z) : this (Z2Qc z) = inject_Z z.
Proof.
  unfold Z2Qc. change (this (Q2Qc (inject_Z z))) with (Qred (inject_Z z)).
  apply Qred_identity. simpl. apply Z.gcd_1_r.
Qed.

(** Truncation leaves a whole number as it is. *)
Lemma trunc_Z2Qc (z : Z) : trunc (Z2Qc z) = z.
Proof.
  unfold trunc. rewrite this_Z2Qc. simpl. apply Z.quot_1_r.
Qed.

Lemma Z2Qc_add (a b : Z) : Qcplus (Z2Qc a) (Z2Qc b) = Z2Qc (a + b).
Proof.
  apply Qc_is_canon.
  change (this (Qcplus (Z2Qc a) (Z2Qc b)))
    with (Qred (this (Z2Qc a) + this (Z2Qc b))).
  rewrite Qred_correct, !this_Z2Qc, inject_Z_plus. apply Qeq_refl.
Qed.

Lemma fold_Qcplus_whole (l : list Z) (a : Z) :
  fold_left Qcplus (map Z2Qc l) (Z2Qc a) = Z2Qc (fold_left Z.add l a).
Proof.
  revert a; induction l as [|z l IH]; intros a; simpl; [reflexivity|].
  now rewrite Z2Qc_add, IH.
Qed.

(** The sum of whole numbers is the whole number of their sum. *)
Lemma qsum_whole (l : list Z) : qsum (map Z2Qc l) = Z2Qc (zsum l).
Proof. apply fold_Qcplus_whole. Qed.

Lemma fold_add_shift (l : list Z) (a : Z) :
  fold_left Z.add l a = (a + fold_left Z.add l 0)%Z.
Proof.
  revert a; induction l as [|z l IH]; intros a; simpl; [lia|].
  rewrite IH, (IH z). lia.
Qed.

Lemma zsum_cons (z : Z) (l : list Z) : zsum (z :: l) = (z + zsum l)%Z.
Proof. unfold zsum. simpl. apply fold_add_shift. Qed.

Lemma abs_zsum (l : list Z) : (Z.abs (zsum l) <= zsum (map Z.abs l))%Z.
Proof.
  induction l as [|z l IH]; [reflexivity|].
  cbn [map]. rewrite !zsum_cons. lia.
Qed.

Lemma zsum_abs_nonneg (l : list Z) : (0 <= zsum (map Z.abs l))%Z.
Proof. pose proof (abs_zsum l). lia. Qed.

(** An integer within the range of int64 is held as it is. *)
Lemma wrap64_small (z : Z) :
  (- 2 ^ 63 <= z < 2 ^ 63)%Z -> Machine.wrap64 z = z.
Proof.
  intros H. unfold Machine.wrap64.
  change (2 ^ 64)%Z with (2 ^ 63 + 2 ^ 63)%Z.
  rewrite Z.mod_small; lia.
Qed.

Lemma whole_value (q : Qc) : whole q = true -> q = Z2Qc (trunc q).
Proof. unfold whole. apply Qc_eq_bool_correct. Qed.

Lemma collect_map {A : Type} (f : nat -> result A) (g : nat -> A)
      (l : list nat) :
  (forall i, In i l -> f i = Ok (g i)) ->
  Machine.collect (map f l) = Ok (map g l).
Proof.
  induction l as [|i l IH]; intros H; [reflexivity|].
  cbn [map Machine.collect]. rewrite (H i) by now left.
  cbn [rbind]. rewrite IH by (intros j Hj; apply H; now right).
  reflexivity.
Qed.

End Numbers.

(* ================================================================== *)
(** * Lists *)
(* ================================================================== *)

Module Lists.

Lemma map_seq_nth {A B : Type} (g : A -> B) (l : list A) (d : A) :
  map (fun i => g (nth i l d)) (seq 0 (List.length l)) = map g l.
Proof.
  induction l as [|x l IH]; [reflexivity|].
  simpl. f_equal. rewrite <- seq_shift, map_map. exact IH.
Qed.

Lemma nth_map_default {A B : Type} (f : A -> B) (l : list A) (d : A) (e : B)
      (i : nat) :
  i < List.length l -> nth i (map f l) e = f (nth i l d).
Proof.
  intros H. rewrite (nth_indep _ e (f d)) by now rewrite length_map.
  apply map_nth.
Qed.

Lemma distinct_in {A : Type} (eqb : A -> A -> bool)
      (eqb_ok : forall x y, eqb x y = true <-> x = y) (l : list A) (x : A) :
  In x (distinct eqb l) <-> In x l.
Proof.
  induction l as [|y l IH]; simpl; [tauto|].
  rewrite filter_In, IH. split.
  - intros [H | [H _]]; auto.
  - intros [H | H]; [now left|].
    destruct (eqb y x) eqn:E.
    + left. now apply eqb_ok.
    + right. split; [exact H | reflexivity].
Qed.

Lemma NoDup_filter {A : Type} (f : A -> bool) (l : list A) :
  NoDup l -> NoDup (filter f l).
Proof.
  induction 1 as [|x l Hx Hl IH]; simpl; [constructor|].
  destruct (f x); [constructor|]; auto.
  rewrite filter_In. tauto.
Qed.

Lemma distinct_NoDup {A : Type} (eqb : A -> A -> bool)
      (eqb_ok : forall x y, eqb x y = true <-> x = y) (l : list A) :
  NoDup (distinct eqb l).
Proof.
  induction l as [|y l IH]; simpl; constructor.
  - rewrite filter_In. intros [_ H].
    assert (E : eqb y y = true) by now apply eqb_ok.
    now rewrite E in H.
  - now apply NoDup_filter.
Qed.

Lemma flat_map_singleton {A B : Type} (f : A -> list B) (g : A -> B)
      (l : list A) :
  (forall x, In x l -> f x = [g x]) -> flat_map f l = map g l.
Proof.
  induction l as [|x l IH]; intros H; simpl; [reflexivity|].
  rewrite (H x) by now left. simpl. f_equal. apply IH.
  intros y Hy. apply H. now right.
Qed.

Lemma map_fst_combine {A B : Type} (a : list A) (b : list B) :
  List.length a = List.length b -> map fst (combine a b) = a.
Proof.
  revert b; induction a as [|x a IH]; intros [|y b] H; simpl in *;
    try discriminate; [reflexivity|].
  f_equal. apply IH. lia.
Qed.

Lemma map_snd_combine {A B : Type} (a : list A) (b : list B) :
  List.length a = List.length b -> map snd (combine a b) = b.
Proof.
  revert b; induction a as [|x a IH]; intros [|y b] H; simpl in *;
    try discriminate; [reflexivity|].
  f_equal. apply IH. lia.
Qed.

End Lists.

(* ================================================================== *)
(** * Sorting keeps the rows *)
(* ================================================================== *)

Module Sorting.

Lemma insert_row_perm (k : row) (l : list row) :
  Permutation (insert_row k l) (k :: l).
Proof.
  induction l as [|x l IH]; simpl; [reflexivity|].
  destruct (row_leb k x); [reflexivity|].
  rewrite IH. apply perm_swap.
Qed.

Lemma sort_rows_perm (l : list row) : Permutation (sort_rows l) l.
Proof.
  induction l as [|x l IH]; simpl; [reflexivity|].
  rewrite insert_row_perm. now constructor.
Qed.

Lemma sort_rows_in (l : list row) (k : row) : In k (sort_rows l) <-> In k l.
Proof.
  split; apply Permutation_in;
    [apply sort_rows_perm | symmetry; apply sort_rows_perm].
Qed.

Lemma sort_rows_NoDup (l : list row) : NoDup l -> NoDup (sort_rows l).
Proof.
  apply Permutation_NoDup. symmetry. apply sort_rows_perm.
Qed.

Lemma row_eqb_eq (a b : row) : row_eqb a b = true <-> a = b.
Proof.
  unfold row_eqb. destruct (row_eq_dec a b); split; congruence.
Qed.

Lemma row_eqb_refl (a : row) : row_eqb a a = true.
Proof. now apply row_eqb_eq. Qed.

End Sorting.

(* ================================================================== *)
(** * Frames: reading a column after an assignment *)
(* ================================================================== *)

Module Frames.

Lemma lookup_assign_same (c : string) (s : Series) (d : list (string * Series)) :
  lookup c (assign c s d) = Some s.
Proof.
  induction d as [|[c' s'] d IH]; simpl.
  - now rewrite String.eqb_refl.
  - destruct (String.eqb c' c) eqn:E; simpl.
    + now rewrite String.eqb_refl.
    + now rewrite E.
Qed.

Lemma lookup_assign_other (c c' : string) (s : Series)
      (d : list (string * Series)) :
  c <> c' -> lookup c' (assign c s d) = lookup c' d.
Proof.
  intros N. induction d as [|[c0 s0] d IH]; simpl.
  - apply String.eqb_neq in N. now rewrite N.
  - destruct (String.eqb c0 c) eqn:E; simpl.
    + apply String.eqb_eq in E; subst c0.
      apply String.eqb_neq in N. now rewrite N.
    + destruct (String.eqb c0 c'); [reflexivity | exact IH].
Qed.

Lemma assign_fixed (c : string) (s : Series) (d : list (string * Series)) :
  lookup c d = Some s -> assign c s d = d.
Proof.
  induction d as [|[c0 s0] d IH]; simpl; [discriminate|].
  destruct (String.eqb c0 c) eqn:E.
  - apply String.eqb_eq in E; subst c0. now intros [= ->].
  - intros H. now rewrite (IH H).
Qed.

Lemma assign_labels_present (c : string) (s s0 : Series)
      (d : list (string * Series)) :
  lookup c d = Some s0 -> map fst (assign c s d) = map fst d.
Proof.
  induction d as [|[c0 s1] d IH]; simpl; [discriminate|].
  destruct (String.eqb c0 c) eqn:E.
  - apply String.eqb_eq in E; subst c0. reflexivity.
  - intros H. simpl. now rewrite (IH H).
Qed.

Lemma assign_labels_absent (c : string) (s : Series)
      (d : list (string * Series)) :
  lookup c d = None -> map fst (assign c s d) = map fst d ++ [c].
Proof.
  induction d as [|[c0 s1] d IH]; simpl; [reflexivity|].
  destruct (String.eqb c0 c) eqn:E; [discriminate|].
  intros H. simpl. now rewrite (IH H).
Qed.

Lemma lookup_in (c : string) (s : Series) (d : list (string * Series)) :
  lookup c d = Some s -> In (c, s) d.
Proof.
  induction d as [|[c0 s0] d IH]; simpl; [discriminate|].
  destruct (String.eqb c0 c) eqn:E.
  - apply String.eqb_eq in E; subst c0. intros [= ->]. now left.
  - intros H. right. now apply IH.
Qed.

Lemma lookup_none (c : string) (d : list (string * Series)) :
  lookup c d = None <-> ~ In c (map fst d).
Proof.
  induction d as [|[c0 s0] d IH]; simpl; [tauto|].
  destruct (String.eqb c0 c) eqn:E.
  - apply String.eqb_eq in E. split; [discriminate | intros H; elim H; auto].
  - apply String.eqb_neq in E. rewrite IH. tauto.
Qed.

Lemma getitem_setitem_same (df : DataFrame) (c : string) (s : Series) :
  getitem (setitem df c s) c = Some s.
Proof. apply lookup_assign_same. Qed.

Lemma getitem_setitem_other (df : DataFrame) (c c' : string) (s : Series) :
  c <> c' -> getitem (setitem df c s) c' = getitem df c'.
Proof. apply lookup_assign_other. Qed.

Lemma setitem_fixed (df : DataFrame) (c : string) (s : Series) :
  getitem df c = Some s -> setitem df c s = df.
Proof.
  intros H. destruct df as [n d]. unfold setitem. simpl.
  f_equal. now apply assign_fixed.
Qed.

Lemma col_setitem_same (df : DataFrame) (c : string) (s : Series) :
  col (setitem df c s) c = s.
Proof. unfold col. now rewrite getitem_setitem_same. Qed.

Lemma col_setitem_other (df : DataFrame) (c c' : string) (s : Series) :
  c <> c' -> col (setitem df c s) c' = col df c'.
Proof. intros N. unfold col. now rewrite getitem_setitem_other. Qed.

Lemma getitem_update_col_same (df : DataFrame) (c : string)
      (f : Series -> Series) :
  getitem (update_col c f df) c = option_map f (getitem df c).
Proof.
  unfold update_col. destruct (getitem df c) as [s|] eqn:E; simpl.
  - apply getitem_setitem_same.
  - exact E.
Qed.

Lemma getitem_update_col_other (df : DataFrame) (c c' : string)
      (f : Series -> Series) :
  c <> c' -> getitem (update_col c f df) c' = getitem df c'.
Proof.
  intros N. unfold update_col. destruct (getitem df c) as [s|]; [|reflexivity].
  now apply getitem_setitem_other.
Qed.

Lemma update_col_fixed (df : DataFrame) (c : string) (f : Series -> Series) :
  (forall s, getitem df c = Some s -> f s = s) -> update_col c f df = df.
Proof.
  intros H. unfold update_col. destruct (getitem df c) as [s|] eqn:E;
    [|reflexivity].
  rewrite (H s eq_refl). now apply setitem_fixed.
Qed.

Lemma index_update_col (df : DataFrame) (c : string) (f : Series -> Series) :
  index (update_col c f df) = index df.
Proof. unfold update_col. now destruct (getitem df c). Qed.

Lemma columns_setitem (df : DataFrame) (c : string) (s : Series) :
  columns (setitem df c s)
  = if contains df c then columns df else columns df ++ [c].
Proof.
  unfold columns, contains, getitem, setitem. simpl.
  destruct (lookup c (data df)) eqn:E.
  - now apply assign_labels_present with (s0 := s0).
  - now apply assign_labels_absent.
Qed.

Lemma columns_update_col (df : DataFrame) (c : string) (f : Series -> Series) :
  columns (update_col c f df) = columns df.
Proof.
  unfold update_col. destruct (getitem df c) as [s|] eqn:E; [|reflexivity].
  rewrite columns_setitem. unfold contains. now rewrite E.
Qed.

Lemma contains_in (df : DataFrame) (c : string) :
  contains df c = true <-> In c (columns df).
Proof.
  unfold contains, getitem, columns.
  destruct (lookup c (data df)) eqn:E.
  - split; [intros _ | reflexivity].
    apply lookup_in in E. apply in_map_iff. now exists (c, s).
  - split; [discriminate|]. intros H. now apply lookup_none in E.
Qed.

(** Assignments keep a frame well formed. *)
Lemma wf_setitem (df : DataFrame) (c : string) (s : Series) :
  wf df -> List.length s = index df -> wf (setitem df c s).
Proof.
  intros [N L] Hs. split.
  - rewrite columns_setitem. destruct (contains df c) eqn:E; [exact N|].
    apply NoDup_app; [exact N | repeat constructor; easy |].
    intros a Ha [<-|[]]. apply contains_in in Ha. congruence.
  - unfold setitem. cbn [index data]. clear N.
    induction (data df) as [|[c0 s0] d IH]; simpl.
    + now repeat constructor.
    + inversion L as [|? ? L1 L2]; subst.
      destruct (String.eqb c0 c); constructor; auto.
Qed.

Lemma wf_update_col (df : DataFrame) (c : string) (f : Series -> Series) :
  wf df -> (forall s, List.length (f s) = List.length s) ->
  wf (update_col c f df).
Proof.
  intros W H. unfold update_col. destruct (getitem df c) as [s|] eqn:E;
    [|exact W].
  apply wf_setitem; [exact W|]. rewrite H.
  destruct W as [_ L]. apply lookup_in in E.
  rewrite Forall_forall in L. exact (L _ E).
Qed.

Lemma wf_col_length (df : DataFrame) (c : string) :
  wf df -> contains df c = true -> List.length (col df c) = index df.
Proof.
  intros [_ L] H. unfold col, contains in *.
  destruct (getitem df c) as [s|] eqn:E; [|discriminate].
  apply lookup_in in E. rewrite Forall_forall in L. exact (L _ E).
Qed.


End Frames.

(* ================================================================== *)
(** * The totaliser: what every column holds afterwards *)
(* ================================================================== *)

Section Totaliser.
Context {lib : Pandas}.
Import Frames.

Lemma coerce_idem (c : cell) : coerce (coerce c) = coerce c.
Proof.
  unfold coerce. destruct c as [|z|q|s|t]; simpl; try reflexivity.
  destruct (parse_number s) as [[z|q]|]; reflexivity.
Qed.

Lemma coerce_number (c : cell) : is_number (coerce c) = true.
Proof.
  unfold coerce. destruct c as [|z|q|s|t]; simpl; try reflexivity.
  destruct (parse_number s) as [[z|q]|]; reflexivity.
Qed.

Lemma coerce_series (s : Series) : fillna0 (to_numeric s) = map coerce s.
Proof. unfold fillna0, to_numeric. now rewrite map_map. Qed.

Lemma index_step (df : DataFrame) (c : string) :
  index (add_total_step df c) = index df.
Proof. unfold add_total_step. now destruct (contains df c). Qed.

Lemma step_same (df : DataFrame) (c : string) :
  getitem (add_total_step df c) c = Some (map coerce (source df c)).
Proof.
  unfold add_total_step, source, contains.
  rewrite getitem_setitem_same, coerce_series.
  destruct (getitem df c) as [s|] eqn:E.
  - unfold col. now rewrite E.
  - unfold setitem_scalar. now rewrite col_setitem_same.
Qed.

Lemma step_other (df : DataFrame) (c c' : string) :
  c <> c' -> getitem (add_total_step df c) c' = getitem df c'.
Proof.
  intros N. unfold add_total_step.
  rewrite getitem_setitem_other by exact N.
  destruct (contains df c); [reflexivity|].
  unfold setitem_scalar. now rewrite getitem_setitem_other.
Qed.

Lemma index_loop (cols : list string) (df : DataFrame) :
  index (fold_left add_total_step cols df) = index df.
Proof.
  revert df; induction cols as [|a r IH]; intros df; simpl; [reflexivity|].
  now rewrite IH, index_step.
Qed.

(** A column outside [cols] is the same after the loop. *)
Lemma loop_other (cols : list string) (df : DataFrame) (c : string) :
  ~ In c cols -> getitem (fold_left add_total_step cols df) c = getitem df c.
Proof.
  revert df; induction cols as [|a r IH]; intros df N; simpl; [reflexivity|].
  rewrite IH by (intros H; apply N; now right).
  apply step_other. intros ->. apply N. now left.
Qed.

(** A column of [cols] holds the converted cells after the loop. *)
Lemma loop_same (cols : list string) (df : DataFrame) (c : string) :
  In c cols ->
  getitem (fold_left add_total_step cols df) c = Some (map coerce (source df c)).
Proof.
  revert df; induction cols as [|a r IH]; intros df H; [destruct H|].
  simpl. destruct (string_dec a c) as [->|N].
  - destruct (in_dec string_dec c r) as [Hr|Hr].
    + rewrite (IH _ Hr). unfold source at 1. rewrite step_same.
      rewrite map_map. f_equal. apply map_ext. intros x. apply coerce_idem.
    + rewrite (loop_other _ _ _ Hr). apply step_same.
  - destruct H as [H|H]; [contradiction|].
    rewrite (IH _ H). unfold source.
    now rewrite (step_other _ _ _ N), index_step.
Qed.

Lemma nth_row_sums (df : DataFrame) (cols : list string) (i : nat) :
  i < index df ->
  nth i (astype_int (row_sums df cols)) NA
  = Int (trunc (qsum (map (fun c => value (at_ df c i)) cols))).
Proof.
  intros Hi. unfold astype_int, row_sums. rewrite map_map.
  rewrite (Lists.nth_map_default _ (seq 0 (index df)) 0 NA)
    by (rewrite length_seq; exact Hi).
  now rewrite seq_nth.
Qed.

Lemma length_row_sums (df : DataFrame) (cols : list string) :
  List.length (astype_int (row_sums df cols)) = index df.
Proof. unfold astype_int, row_sums. now rewrite !length_map, length_seq. Qed.

Lemma wf_column_length (df : DataFrame) (c : string) (s : Series) :
  wf df -> getitem df c = Some s -> List.length s = index df.
Proof.
  intros [_ W] H. apply lookup_in in H.
  rewrite Forall_forall in W. exact (W _ H).
Qed.

Lemma length_source (df : DataFrame) (c : string) :
  wf df -> List.length (source df c) = index df.
Proof.
  intros W. unfold source. destruct (getitem df c) as [s|] eqn:E.
  - now apply wf_column_length with (c := c).
  - apply repeat_length.
Qed.

Lemma nth_source (df : DataFrame) (c : string) (i : nat) :
  i < index df -> coerce (nth i (source df c) NA) = coerce (at_ df c i).
Proof.
  intros Hi. unfold source, at_, col. destruct (getitem df c) as [s|];
    [reflexivity|].
  rewrite nth_repeat_lt by exact Hi. now destruct i.
Qed.

(** C7, as the code has it: after [add_total], every expected column is
    there with one cell per row, and every cell of it is a number, never
    a missing value.  A cell that does not parse has become 0; a cell that
    is a number is kept as it is, a negative one included. *)
Theorem expected_columns_hold_numbers
        (df : DataFrame) (cols : list string) (name c : string) :
  wf df -> In c cols ->
  exists s : Series,
    getitem (add_total df cols name) c = Some s
    /\ List.length s = index df
    /\ Forall (fun x => is_number x = true) s
    /\ (c <> name ->
        forall i, i < index df ->
                  nth i s NA = fillna0_cell (to_numeric_cell (at_ df c i))).
Proof.
  intros W Hc. unfold add_total, set_total.
  destruct (string_dec name c) as [->|N].
  - exists (astype_int (row_sums (fold_left add_total_step cols df) cols)).
    rewrite getitem_setitem_same, length_row_sums, index_loop.
    repeat split; [|congruence].
    unfold astype_int. apply Forall_forall. intros x Hx.
    apply in_map_iff in Hx as [q [<- _]]. reflexivity.
  - exists (map coerce (source df c)).
    rewrite getitem_setitem_other by exact N. rewrite (loop_same _ _ _ Hc).
    rewrite length_map, length_source by exact W.
    repeat split.
    + apply Forall_forall. intros x Hx.
      apply in_map_iff in Hx as [y [<- _]]. apply coerce_number.
    + intros _ i Hi.
      rewrite (Lists.nth_map_default coerce _ NA NA)
        by (rewrite length_source; assumption).
      now apply nth_source.
Qed.

(** What the two conversions make of a countable cell. *)
Lemma coerce_countable (x : cell) :
  countable x = true ->
  is_number (coerce x) = true
  /\ value (coerce x) = Z2Qc (reading x)
  /\ (is_int (to_numeric_cell x) = true -> int_value (coerce x) = reading x)
  /\ Machine.infinite x = false.
Proof.
  unfold coerce. destruct x as [|z|q|s|t]; simpl; intros H;
    try discriminate; try (repeat split; reflexivity).
  - repeat split; [now apply Numbers.whole_value | discriminate].
  - apply andb_true_iff in H as [H1 H2]. apply negb_true_iff in H1.
    destruct (parse_number s) as [[z|q]|]; simpl;
      repeat split; try assumption; try discriminate.
    now apply Numbers.whole_value.
Qed.

(** The cell that the loop converts in row [i] of an expected column. *)
Lemma source_cell (df : DataFrame) (c : string) (i : nat) :
  wf df -> i < index df ->
  Forall (fun x => countable x = true) (col df c) ->
  countable (nth i (source df c) NA) = true
  /\ reading (nth i (source df c) NA) = count df i c.
Proof.
  intros W Hi F. unfold source, count, col in *.
  destruct (getitem df c) as [s|] eqn:E.
  - split; [|reflexivity]. rewrite Forall_forall in F. apply F.
    apply nth_In. now rewrite (wf_column_length df c s W E).
  - rewrite nth_repeat_lt by exact Hi. now split.
Qed.

Lemma at_loop (df : DataFrame) (cols : list string) (c : string) (i : nat) :
  wf df -> In c cols -> i < index df ->
  at_ (fold_left add_total_step cols df) c i = coerce (nth i (source df c) NA).
Proof.
  intros W Hc Hi. unfold at_, col. rewrite (loop_same _ _ _ Hc).
  apply Lists.nth_map_default. now rewrite length_source.
Qed.

Section ExactTotals.
Variables (df : DataFrame) (cols : list string).
Hypothesis W : wf df.
Hypothesis law : float64_exact.
Hypothesis scope :
  forall c, In c cols -> Forall (fun x => countable x = true) (col df c).
Hypothesis bound :
  forall i, i < index df ->
            (zsum (map (fun c => Z.abs (count df i c)) cols) <= 2 ^ 53)%Z.

Let after : DataFrame := fold_left add_total_step cols df.

Lemma values_of_row (i : nat) :
  i < index df ->
  map (fun c => value (at_ after c i)) cols
  = map Z2Qc (map (count df i) cols).
Proof.
  intros Hi. rewrite map_map. apply map_ext_in. intros c Hc.
  unfold after. rewrite at_loop by assumption.
  destruct (source_cell df c i W Hi (scope c Hc)) as [C R].
  destruct (coerce_countable _ C) as (_ & V & _). now rewrite V, R.
Qed.

Lemma exact_row (i : nat) :
  i < index df ->
  nth i (astype_int (row_sums after cols)) NA
  = Int (zsum (map (count df i) cols)).
Proof.
  intros Hi. rewrite nth_row_sums by (unfold after; now rewrite index_loop).
  now rewrite values_of_row, Numbers.qsum_whole, Numbers.trunc_Z2Qc.
Qed.

Lemma machine_row (i : nat) :
  i < index df ->
  Machine.total_of_row df after cols i
  = Ok (Int (zsum (map (count df i) cols))).
Proof.
  intros Hi. unfold Machine.total_of_row.
  pose proof (bound i Hi) as B.
  destruct (forallb (fun c => Machine.int64_column (Machine.expected df c)) cols)
    eqn:I.
  - assert (E : map (fun c => int_value (at_ after c i)) cols
                = map (count df i) cols).
    { apply map_ext_in. intros c Hc.
      unfold after. rewrite at_loop by assumption.
      destruct (source_cell df c i W Hi (scope c Hc)) as [C R].
      destruct (coerce_countable _ C) as (_ & _ & V & _).
      rewrite <- R. apply V.
      rewrite forallb_forall in I. specialize (I c Hc).
      unfold Machine.int64_column in I. rewrite forallb_forall in I.
      assert (X : In (nth i (source df c) NA) (Machine.expected df c)).
      { apply nth_In. now rewrite length_source. }
      specialize (I _ X). now apply andb_true_iff in I as [I _]. }
    rewrite E. rewrite Numbers.wrap64_small; [reflexivity|].
    pose proof (Numbers.abs_zsum (map (count df i) cols)) as A.
    rewrite map_map in A. lia.
  - assert (N : existsb (fun c => Machine.infinite
                                    (nth i (Machine.expected df c) NA)) cols
                = false).
    { apply not_true_is_false. intros X.
      apply existsb_exists in X as [c [Hc X]].
      destruct (source_cell df c i W Hi (scope c Hc)) as [C _].
      destruct (coerce_countable _ C) as (_ & _ & _ & V).
      unfold source in V. unfold Machine.expected in X. congruence. }
    rewrite N, values_of_row by exact Hi.
    rewrite law; [reflexivity|]. now rewrite map_map.
Qed.

Lemma machine_add_total (name : string) :
  Machine.add_total df cols name = Ok (add_total df cols name).
Proof.
  unfold Machine.add_total, add_total, set_total. fold after.
  rewrite (Numbers.collect_map _
             (fun i => Int (zsum (map (count df i) cols))))
    by (intros i Hi; apply machine_row; now apply in_seq in Hi).
  cbn [rbind]. do 2 f_equal.
  unfold astype_int, row_sums. rewrite map_map.
  unfold after at 2. rewrite index_loop.
  apply map_ext_in. intros i Hi. apply in_seq in Hi.
  rewrite <- (exact_row i) by lia.
  rewrite nth_row_sums by (unfold after; rewrite index_loop; lia).
  reflexivity.
Qed.

End ExactTotals.

(** C2, as the code has it: on a well-formed frame whose expected cells
    are whole numbers, texts that read as whole numbers or as no number,
    or missing, with absolute values that add up to 2^53 at most in every
    row, [add_total] raises nothing and returns what exact arithmetic
    gives (int64 and float64 compute the same there): in every row
    the output column is the integer sum of what the expected columns
    contribute, where a column that the input does not have contributes 0
    and a cell that is missing or no number contributes 0; and every
    expected column holds that contribution as a number. *)
Theorem total_is_sum_of_expected_columns
        (df : DataFrame) (cols : list string) (name : string) :
  wf df ->
  float64_exact ->
  (forall c, In c cols -> Forall (fun x => countable x = true) (col df c)) ->
  (forall i, i < index df ->
             (zsum (map (fun c => Z.abs (count df i c)) cols) <= 2 ^ 53)%Z) ->
  Machine.add_total df cols name = Ok (add_total df cols name)
  /\ (forall i, i < index df ->
                at_ (add_total df cols name) name i
                = Int (zsum (map (count df i) cols)))
  /\ (forall c i, In c cols -> c <> name -> i < index df ->
                  is_number (at_ (add_total df cols name) c i) = true
                  /\ value (at_ (add_total df cols name) c i)
                     = Z2Qc (count df i c)).
Proof.
  intros W L S B. split; [now apply machine_add_total|]. split.
  - intros i Hi. unfold add_total, set_total, at_. rewrite col_setitem_same.
    now apply exact_row.
  - intros c i Hc N Hi.
    assert (E : at_ (add_total df cols name) c i
                = coerce (nth i (source df c) NA)).
    { unfold add_total, set_total, at_, col.
      rewrite getitem_setitem_other by congruence.
      now apply at_loop. }
    rewrite E. destruct (source_cell df c i W Hi (S c Hc)) as [C R].
    destruct (coerce_countable _ C) as (Nb & V & _).
    split; [exact Nb | now rewrite V, R].
Qed.

End Totaliser.

(** The sums of the sample library are exact. *)
Lemma sample_sums_are_exact : float64_exact (lib := Demo.lib).
Proof.
  intros zs _. cbn [sum_as_int64 Demo.lib]. unfold Demo.exact_sum.
  now rewrite Numbers.qsum_whole, Numbers.trunc_Z2Qc.
Qed.

(** A run of [add_total] on [Demo.sparse_raw]: 7 + 3 + 0 = 10 in the
    first row, and 0 in the second, where no cell is a number. *)
Lemma total_is_sum_witness :
  Machine.add_total Demo.sparse_raw
                    ["age_0_5"; "age_5_17"; "age_18_greater"] "total"
  = Ok (add_total Demo.sparse_raw
                  ["age_0_5"; "age_5_17"; "age_18_greater"] "total")
  /\ at_ (add_total Demo.sparse_raw
                    ["age_0_5"; "age_5_17"; "age_18_greater"] "total")
         "total" 0 = Int 10
  /\ at_ (add_total Demo.sparse_raw
                    ["age_0_5"; "age_5_17"; "age_18_greater"] "total")
         "total" 1 = Int 0.
Proof.
  assert (W : wf Demo.sparse_raw) by by_evaluation.
  assert (S : forall c, In c ["age_0_5"; "age_5_17"; "age_18_greater"] ->
                Forall (fun x => countable x = true) (col Demo.sparse_raw c)).
  { intros c [<-|[<-|[<-|[]]]];
      match goal with
      | |- Forall _ ?l => let v := eval vm_compute in l in change l with v
      end; repeat constructor. }
  assert (B : forall i, i < index Demo.sparse_raw ->
                (zsum (map (fun c => Z.abs (count Demo.sparse_raw i c))
                           ["age_0_5"; "age_5_17"; "age_18_greater"])
                 <= 2 ^ 53)%Z).
  { intros [|[|i]] Hi; [apply Z.leb_le; vm_compute; reflexivity ..|].
    simpl in Hi. lia. }
  destruct (total_is_sum_of_expected_columns
              Demo.sparse_raw ["age_0_5"; "age_5_17"; "age_18_greater"]
              "total" W sample_sums_are_exact S B) as (M & T & _).
  split; [exact M|].
  split; [rewrite (T 0) by (simpl; lia) | rewrite (T 1) by (simpl; lia)];
    vm_compute; reflexivity.
Defined.

(** C2 as the spec words it fails on large counts and on an infinity:
    the two counts of [Demo.large_raw] add up to 2^63 and the output
    column holds -2^63, the sum of int64; and on [Demo.infinite_raw]
    [add_total] raises, where the spec has the text contribute 0. *)
Lemma large_total_wraps_and_infinity_raises :
  zsum (map (count Demo.large_raw 0) ["age_0_5"; "age_5_17"])
  = 9223372036854775808%Z
  /\ (exists t, Machine.add_total Demo.large_raw ["age_0_5"; "age_5_17"]
                                  "total" = Ok t
                /\ at_ t "total" 0 = Int (-9223372036854775808))
  /\ Machine.add_total Demo.infinite_raw ["age_0_5"; "age_5_17"] "total"
     = Raise IntCastingNaNError.
Proof.
  split; [vm_compute; reflexivity|]. split.
  - eexists. split; vm_compute; reflexivity.
  - vm_compute. reflexivity.
Qed.

(** The sample with a negative count and a text that is no number. *)
Lemma expected_columns_witness :
  exists s : Series,
    getitem (add_total Demo.messy_raw ["age_0_5"; "age_5_17"] "total") "age_0_5"
    = Some s
    /\ List.length s = 3
    /\ Forall (fun x => is_number x = true) s
    /\ ("age_0_5" <> "total" ->
        forall i, i < 3 ->
                  nth i s NA
                  = fillna0_cell (to_numeric_cell (at_ Demo.messy_raw "age_0_5" i))).
Proof.
  apply (expected_columns_hold_numbers
           Demo.messy_raw ["age_0_5"; "age_5_17"] "total" "age_0_5").
  - by_evaluation.
  - simpl. auto.
Defined.

(** C7 as the spec words it fails on a negative count: the cell stays
    negative. *)
Lemma negative_count_is_kept :
  at_ (add_total Demo.messy_raw ["age_0_5"; "age_5_17"] "total") "age_0_5" 0
  = Int (-5)
  /\ (-5 < 0)%Z.
Proof. split; [vm_compute; reflexivity | lia]. Qed.

(* ================================================================== *)
(** * The totaliser works on a copy *)
(* ================================================================== *)

Module Heap.

Lemma deref_last (h : heap) (x : DataFrame) :
  deref (h ++ [x]) (List.length h) = x.
Proof. unfold deref. now rewrite app_nth2, Nat.sub_diag by lia. Qed.

Lemma deref_old (h : heap) (x : DataFrame) (l : loc) :
  l < List.length h -> deref (h ++ [x]) l = deref h l.
Proof. intros H. unfold deref. now rewrite app_nth1. Qed.

Lemma store_last (h : heap) (x y : DataFrame) :
  store (h ++ [x]) (List.length h) y = h ++ [y].
Proof.
  induction h as [|z h IH]; simpl; [reflexivity | now rewrite IH].
Qed.

(** A loop of statements on the newest object changes that object only. *)
Lemma for_each_last {A : Type} (f : DataFrame -> A -> DataFrame)
      (xs : list A) (h : heap) (x : DataFrame) :
  for_each xs (fun a => modify (List.length h) (fun df => f df a)) (h ++ [x])
  = (tt, h ++ [fold_left f xs x]).
Proof.
  revert x; induction xs as [|a r IH]; intros x; simpl; [reflexivity|].
  unfold bind, modify at 1. rewrite deref_last, store_last. apply IH.
Qed.

End Heap.

Section TotaliserObjects.
Context {lib : Pandas}.

(** [normalize] returns its argument itself when it is empty; else it
    leaves the heap as it was and adds one object, whose value is
    [normalize] of the argument. *)
Lemma normalize_obj_run (h : heap) (l : loc) :
  normalize_obj l h
  = if empty (deref h l) then (l, h)
    else (List.length h, h ++ [normalize (deref h l)]).
Proof.
  unfold normalize_obj, normalize, bind, read.
  destruct (empty (deref h l)) eqn:E; [reflexivity|].
  unfold copy, modify at 1 2. rewrite !Heap.deref_last, !Heap.store_last.
  rewrite (Heap.for_each_last (fun df c => update_col c strip_text df)).
  unfold modify, ret. now rewrite !Heap.deref_last, Heap.store_last.
Qed.

(** [add_total] leaves the heap as it was and adds one object, whose
    value is [add_total] of the argument. *)
Lemma add_total_obj_run (h : heap) (l : loc) (cols : list string)
      (name : string) :
  add_total_obj l cols name h
  = (List.length h, h ++ [add_total (deref h l) cols name]).
Proof.
  unfold add_total_obj, bind, copy.
  rewrite (Heap.for_each_last add_total_step).
  unfold modify, ret. now rewrite Heap.deref_last, Heap.store_last.
Qed.

(** C10: [add_total], called on a well-formed frame of the heap, does not
    change its argument (nor any other frame that exists when it is
    called); what it returns is a new frame with as many rows, in which
    every column other than the expected ones and the output one is the
    column of the argument, cell for cell, so that the rows are in the same
    order. *)
Theorem add_total_leaves_its_argument
        (h : heap) (l : loc) (cols : list string) (name : string) :
  l < List.length h ->
  wf (deref h l) ->
  let res := add_total_obj l cols name h in
  let out := deref (snd res) (fst res) in
  (forall l0, l0 < List.length h -> deref (snd res) l0 = deref h l0)
  /\ fst res = List.length h
  /\ out = add_total (deref h l) cols name
  /\ index out = index (deref h l)
  /\ (forall c, ~ In c cols -> c <> name ->
                getitem out c = getitem (deref h l) c).
Proof.
  intros Hl _. rewrite add_total_obj_run. cbn [fst snd].
  rewrite Heap.deref_last.
  split; [intros l0 H0; now apply Heap.deref_old|].
  split; [reflexivity|]. split; [reflexivity|].
  split.
  - unfold add_total, set_total. cbn [index setitem]. apply index_loop.
  - intros c Hc Hn. unfold add_total, set_total.
    rewrite Frames.getitem_setitem_other by congruence.
    now apply loop_other.
Qed.

End TotaliserObjects.

(** The sample enrolment frame on a heap of its own: the argument is
    unchanged, and the state column of the result is the argument's. *)
Lemma add_total_leaves_its_argument_witness :
  let h := [normalize Demo.enrolment_raw] in
  let res := add_total_obj 0 ["age_0_5"; "age_5_17"; "age_18_greater"] "total" h in
  deref (snd res) 0 = deref h 0
  /\ getitem (deref (snd res) (fst res)) "state" = getitem (deref h 0) "state".
Proof.
  intros h res.
  assert (L : 0 < List.length h) by (vm_compute; lia).
  assert (W : wf (deref h 0)) by by_evaluation.
  destruct (add_total_leaves_its_argument
              h 0 ["age_0_5"; "age_5_17"; "age_18_greater"] "total" L W)
    as (H1 & _ & _ & _ & H5).
  split.
  - apply H1. vm_compute; lia.
  - apply H5; [|discriminate].
    simpl. intuition discriminate.
Defined.

(* ================================================================== *)
(** * The normaliser: labels, dates, text and pin codes *)
(* ================================================================== *)

Section Normaliser.
Context {lib : Pandas}.
Import Frames.

Lemma clean_label_chars (c : string) :
  clean_label c = Text.map_chars label_char (Text.strip c).
Proof.
  unfold clean_label, Text.replace_char, Text.lower.
  rewrite !TextFacts.map_chars_compose. reflexivity.
Qed.

(** A cleaned label is clean. *)
Lemma clean_label_idem (c : string) : clean_label (clean_label c) = clean_label c.
Proof.
  rewrite !clean_label_chars.
  rewrite (TextFacts.strip_fixed (Text.map_chars _ (Text.strip c))).
  - rewrite TextFacts.map_chars_compose. apply TextFacts.map_chars_ext.
    apply TextFacts.label_char_idem.
  - apply TextFacts.map_chars_head_ok, TextFacts.strip_head_ok.
  - apply TextFacts.map_chars_rstrip, TextFacts.strip_rstrip.
Qed.

Lemma set_columns_fixed (f : string -> string) (df : DataFrame) :
  Forall (fun c => f c = c) (columns df) -> set_columns f df = df.
Proof.
  destruct df as [n d]. unfold set_columns, columns. simpl. intros H.
  f_equal. induction d as [|[c s] d IH]; simpl in *; [reflexivity|].
  inversion H as [|? ? H1 H2]; subst. now rewrite H1, IH.
Qed.

Lemma columns_renamed (df : DataFrame) :
  columns (renamed df) = map clean_label (columns df).
Proof.
  unfold renamed, set_columns, columns. simpl. rewrite !map_map. reflexivity.
Qed.

Lemma empty_false (df : DataFrame) :
  empty df = false <-> index df <> 0 /\ columns df <> [].
Proof.
  unfold empty, columns. rewrite orb_false_iff, Nat.eqb_neq.
  destruct (data df); simpl; intuition congruence.
Qed.

Lemma normalize_steps (df : DataFrame) :
  empty df = false ->
  normalize df = update_col "pincode" clean_pincode (after_district df).
Proof. intros E. unfold normalize. now rewrite E. Qed.

Lemma index_parse_dates (df : DataFrame) : index (parse_dates df) = index df.
Proof. unfold parse_dates. now destruct (contains df "date"). Qed.

Lemma columns_parse_dates (df : DataFrame) :
  exists tail, columns (parse_dates df) = columns df ++ tail
               /\ Forall (fun c => c = "month") tail.
Proof.
  unfold parse_dates.
  destruct (contains df "date") eqn:E.
  - rewrite !columns_setitem, E.
    destruct (contains (setitem df "date" _) "month").
    + exists []. now rewrite app_nil_r.
    + exists ["month"]. split; [reflexivity | now constructor].
  - exists []. now rewrite app_nil_r.
Qed.

Lemma getitem_parse_dates_date (df : DataFrame) :
  getitem (parse_dates df) "date" = option_map to_datetime (getitem df "date").
Proof.
  unfold parse_dates, contains. destruct (getitem df "date") as [s|] eqn:E.
  - rewrite getitem_setitem_other by discriminate.
    rewrite getitem_setitem_same. unfold col. now rewrite E.
  - now rewrite E.
Qed.

Lemma getitem_parse_dates_month (df : DataFrame) (s : Series) :
  getitem df "date" = Some s ->
  getitem (parse_dates df) "month" = Some (map month_cell (to_datetime s)).
Proof.
  intros E. unfold parse_dates, contains. rewrite E.
  rewrite getitem_setitem_same, col_setitem_same. unfold col. now rewrite E.
Qed.

Lemma getitem_parse_dates_other (df : DataFrame) (c : string) :
  c <> "date" -> c <> "month" -> getitem (parse_dates df) c = getitem df c.
Proof.
  intros N1 N2. unfold parse_dates. destruct (contains df "date");
    [|reflexivity].
  now rewrite !getitem_setitem_other by congruence.
Qed.

Lemma to_datetime_idem (s : Series) : to_datetime (to_datetime s) = to_datetime s.
Proof.
  unfold to_datetime. rewrite map_map. apply map_ext. intros [|z|q|t|t]; simpl;
    try reflexivity.
  now destruct (parse_datetime t).
Qed.

Lemma strip_text_idem (s : Series) : strip_text (strip_text s) = strip_text s.
Proof.
  unfold strip_text. rewrite map_map. apply map_ext. intros c. simpl.
  now rewrite TextFacts.strip_idem.
Qed.

(** [parse_dates] changes nothing in a frame whose dates are parsed and
    whose months are derived from them. *)
Lemma parse_dates_fixed (df : DataFrame) :
  (forall s, getitem df "date" = Some s ->
             to_datetime s = s
             /\ getitem df "month" = Some (map month_cell s)) ->
  parse_dates df = df.
Proof.
  intros H. unfold parse_dates, contains.
  destruct (getitem df "date") as [s|] eqn:E; [|reflexivity].
  destruct (H s eq_refl) as [H1 H2].
  assert (C : col df "date" = s) by (unfold col; now rewrite E).
  rewrite C, H1. rewrite (setitem_fixed df "date" s E), C.
  now apply setitem_fixed.
Qed.

(** The columns that [normalize] has written, read in its result. *)
Lemma normalized_date (df : DataFrame) :
  empty df = false ->
  getitem (normalize df) "date"
  = option_map to_datetime (getitem (renamed df) "date").
Proof.
  intros E. rewrite (normalize_steps df E).
  unfold after_district, after_state, after_dates.
  rewrite !getitem_update_col_other by discriminate.
  apply getitem_parse_dates_date.
Qed.

Lemma normalized_month (df : DataFrame) (s : Series) :
  empty df = false ->
  getitem (renamed df) "date" = Some s ->
  getitem (normalize df) "month" = Some (map month_cell (to_datetime s)).
Proof.
  intros E H. rewrite (normalize_steps df E).
  unfold after_district, after_state, after_dates.
  rewrite !getitem_update_col_other by discriminate.
  now apply getitem_parse_dates_month.
Qed.

Lemma normalized_state (df : DataFrame) :
  empty df = false ->
  getitem (normalize df) "state"
  = option_map strip_text (getitem (renamed df) "state").
Proof.
  intros E. rewrite (normalize_steps df E).
  unfold after_district, after_state, after_dates.
  rewrite !getitem_update_col_other by discriminate.
  rewrite getitem_update_col_same.
  now rewrite getitem_parse_dates_other by discriminate.
Qed.

Lemma normalized_district (df : DataFrame) :
  empty df = false ->
  getitem (normalize df) "district"
  = option_map strip_text (getitem (renamed df) "district").
Proof.
  intros E. rewrite (normalize_steps df E).
  unfold after_district, after_state, after_dates.
  rewrite getitem_update_col_other by discriminate.
  rewrite getitem_update_col_same.
  rewrite getitem_update_col_other by discriminate.
  now rewrite getitem_parse_dates_other by discriminate.
Qed.

Lemma normalized_pincode (df : DataFrame) :
  empty df = false ->
  getitem (normalize df) "pincode"
  = option_map clean_pincode (getitem (renamed df) "pincode").
Proof.
  intros E. rewrite (normalize_steps df E).
  unfold after_district, after_state, after_dates.
  rewrite getitem_update_col_same.
  rewrite !getitem_update_col_other by discriminate.
  now rewrite getitem_parse_dates_other by discriminate.
Qed.

Lemma index_normalize (df : DataFrame) : index (normalize df) = index df.
Proof.
  unfold normalize. destruct (empty df); [reflexivity|]. simpl.
  now rewrite !index_update_col, index_parse_dates.
Qed.

Lemma columns_normalize (df : DataFrame) :
  empty df = false ->
  exists tail, columns (normalize df) = map clean_label (columns df) ++ tail
               /\ Forall (fun c => c = "month") tail.
Proof.
  intros E. rewrite (normalize_steps df E).
  unfold after_district, after_state, after_dates.
  rewrite !columns_update_col. rewrite <- columns_renamed.
  apply columns_parse_dates.
Qed.

Lemma normalize_not_empty (df : DataFrame) :
  empty df = false -> empty (normalize df) = false.
Proof.
  intros E. destruct (columns_normalize df E) as [tail [C _]].
  apply empty_false in E as [E1 E2]. apply empty_false.
  rewrite index_normalize, C. split; [exact E1|].
  destruct (columns df); [congruence | discriminate].
Qed.

Lemma clean_pincode_fixed (s : Series) :
  forallb (fun c => match c with
                    | Str t => negb (Text.has_dot0 t)
                    | _ => true
                    end) (clean_pincode s) = true ->
  clean_pincode (clean_pincode s) = clean_pincode s.
Proof.
  unfold clean_pincode. rewrite forallb_forall. intros H.
  rewrite map_map. apply map_ext_in. intros c Hc. simpl. f_equal.
  apply DotZero.remove_dot0_fixed.
  specialize (H (Str (Text.remove_dot0 (astype_str c)))).
  simpl in H. apply negb_true_iff. apply H.
  apply in_map_iff. now exists c.
Qed.

(** C4, as the code has it: a second [normalize] changes nothing in the
    result of the first, provided the pin codes of that result hold no
    ".0" (the replacement of ".0" is the one step that a second pass can
    carry further). *)
Theorem normalize_idempotent_when_settled (df : DataFrame) :
  settled_pincode (normalize df) = true ->
  normalize (normalize df) = normalize df.
Proof.
  intros P. destruct (empty df) eqn:E.
  - unfold normalize. now rewrite E, E.
  - pose proof (normalize_not_empty df E) as E'.
    set (n := normalize df) in *.
    assert (R : renamed n = n).
    { apply set_columns_fixed. unfold n.
      destruct (columns_normalize df E) as [tail [-> T]].
      apply Forall_app. split.
      - apply Forall_forall. intros c Hc.
        apply in_map_iff in Hc as [c0 [<- _]]. apply clean_label_idem.
      - eapply Forall_impl; [|exact T]. intros c ->. reflexivity. }
    rewrite (normalize_steps n E').
    unfold after_district, after_state, after_dates. rewrite R.
    assert (D : parse_dates n = n).
    { apply parse_dates_fixed. intros s Hs. unfold n in Hs.
      rewrite normalized_date in Hs by exact E.
      destruct (getitem (renamed df) "date") as [s0|] eqn:E0; [|discriminate].
      injection Hs as <-. split; [apply to_datetime_idem|].
      unfold n. now apply normalized_month. }
    rewrite D.
    rewrite (update_col_fixed n "state").
    2:{ intros s Hs. unfold n in Hs. rewrite normalized_state in Hs by exact E.
        destruct (getitem (renamed df) "state"); [|discriminate].
        injection Hs as <-. apply strip_text_idem. }
    rewrite (update_col_fixed n "district").
    2:{ intros s Hs. unfold n in Hs.
        rewrite normalized_district in Hs by exact E.
        destruct (getitem (renamed df) "district"); [|discriminate].
        injection Hs as <-. apply strip_text_idem. }
    apply update_col_fixed.
    intros s Hs. unfold settled_pincode, col in P. rewrite Hs in P.
    unfold n in Hs. rewrite normalized_pincode in Hs by exact E.
    destruct (getitem (renamed df) "pincode"); [|discriminate].
    injection Hs as <-. now apply clean_pincode_fixed.
Qed.

End Normaliser.

(** The sample enrolment row: its pin code is settled after one pass. *)
Lemma normalize_idempotent_witness :
  normalize (normalize Demo.enrolment_raw) = normalize Demo.enrolment_raw.
Proof.
  apply (normalize_idempotent_when_settled Demo.enrolment_raw).
  vm_compute. reflexivity.
Defined.

(** C4 as the spec words it fails: the pin code "110..001" becomes
    "110.01" in the first pass and "1101" in the second. *)
Lemma normalize_twice_differs :
  normalize (normalize Demo.dotted_raw) <> normalize Demo.dotted_raw.
Proof. intros H. vm_compute in H. discriminate H. Qed.

Section NormaliserCells.
Context {lib : Pandas}.

(** A row of a column of a well-formed frame. *)
Lemma row_of_column (df : DataFrame) (c : string) (i : nat) :
  wf (renamed df) -> contains (renamed df) c = true -> i < index df ->
  empty df = false /\ i < List.length (col (renamed df) c).
Proof.
  intros W C Hi. split.
  - apply empty_false. split; [lia|].
    apply Frames.contains_in in C. rewrite columns_renamed in C.
    destruct (columns df); [destruct C | discriminate].
  - rewrite (Frames.wf_col_length (renamed df) c W C). exact Hi.
Qed.

Lemma at_normalized_pincode (df : DataFrame) (i : nat) :
  empty df = false ->
  i < List.length (col (renamed df) "pincode") ->
  at_ (normalize df) "pincode" i
  = Str (Text.remove_dot0 (astype_str (at_ (renamed df) "pincode" i))).
Proof.
  intros E Hi. unfold at_, col in *. rewrite normalized_pincode by exact E.
  destruct (getitem (renamed df) "pincode") as [s|]; simpl in *; [|lia].
  unfold clean_pincode.
  now rewrite (Lists.nth_map_default _ s NA NA i Hi).
Qed.

(** C5, as the code has it: in a table with a "pincode" column (after the
    renaming, labels unique), the pin code of every row is turned into text
    and every occurrence of ".0" is taken out of it, from the left.  So a
    text with no ".0" is kept, and a text that ends in ".0" and holds no
    other ".0" loses that ending and nothing else. *)
Theorem pincode_loses_every_dot0 (df : DataFrame) (i : nat) :
  wf (renamed df) ->
  contains (renamed df) "pincode" = true ->
  i < index df ->
  let text := astype_str (at_ (renamed df) "pincode" i) in
  at_ (normalize df) "pincode" i = Str (Text.remove_dot0 text)
  /\ (Text.has_dot0 text = false -> at_ (normalize df) "pincode" i = Str text)
  /\ (forall s, text = (s ++ ".0")%string -> Text.has_dot0 s = false ->
                at_ (normalize df) "pincode" i = Str s).
Proof.
  intros W C Hr text.
  destruct (row_of_column df "pincode" i W C Hr) as [E Hi].
  rewrite (at_normalized_pincode df i E Hi). fold text.
  split; [reflexivity|]. split.
  - intros H. now rewrite DotZero.remove_dot0_fixed.
  - intros s -> H. now rewrite DotZero.remove_dot0_suffix.
Qed.

Lemma at_normalized_date (df : DataFrame) (i : nat) :
  empty df = false ->
  i < List.length (col (renamed df) "date") ->
  at_ (normalize df) "date" i = to_datetime_cell (at_ (renamed df) "date" i).
Proof.
  intros E Hi. unfold at_, col in *. rewrite normalized_date by exact E.
  destruct (getitem (renamed df) "date") as [s|]; simpl in *; [|lia].
  unfold to_datetime.
  now rewrite (Lists.nth_map_default _ s NA NA i Hi).
Qed.

Lemma at_normalized_month (df : DataFrame) (i : nat) :
  empty df = false ->
  i < List.length (col (renamed df) "date") ->
  at_ (normalize df) "month" i
  = month_cell (to_datetime_cell (at_ (renamed df) "date" i)).
Proof.
  intros E Hi. unfold at_, col in *.
  destruct (getitem (renamed df) "date") as [s|] eqn:Es; simpl in *; [|lia].
  rewrite (normalized_month df s E Es). unfold to_datetime.
  rewrite map_map.
  now rewrite (Lists.nth_map_default _ s NA NA i Hi).
Qed.

Lemma not_kept (df : DataFrame) (start stop : Z) (i : nat) :
  at_ df "date" i = NA -> ~ In i (kept_rows df start stop).
Proof.
  intros H K. unfold kept_rows in K. apply filter_In in K as [_ K].
  rewrite H in K. discriminate K.
Qed.

Lemma at_add_total_other (df : DataFrame) (cols : list string)
      (name c : string) (i : nat) :
  ~ In c cols -> c <> name -> at_ (add_total df cols name) c i = at_ df c i.
Proof.
  intros Hc Hn. unfold at_, col, add_total, set_total.
  rewrite Frames.getitem_setitem_other by congruence.
  now rewrite loop_other.
Qed.

(** C6: with a library whose [astype(str)] keeps the missing period
    missing (pandas 3), in a table with a "date" column (after the
    renaming, labels unique), a date that does not parse becomes the
    missing date, and no error is raised; the month of that row is missing
    as well, it is no text; and the date-range filter keeps the row for no
    range, whether it is applied to the normalised table or to that table
    after [add_total]. *)
Theorem unparsed_date_is_filtered_out (df : DataFrame) (i : nat) :
  prints_missing = false ->
  wf (renamed df) ->
  contains (renamed df) "date" = true ->
  i < index df ->
  to_datetime_cell (at_ (renamed df) "date" i) = NA ->
  at_ (normalize df) "date" i = NA
  /\ at_ (normalize df) "month" i = NA
  /\ (forall start stop, ~ In i (kept_rows (normalize df) start stop))
  /\ (forall cols name start stop,
         ~ In "date" cols -> name <> "date" ->
         ~ In i (kept_rows (add_total (normalize df) cols name) start stop)).
Proof.
  intros V W C Hr P.
  destruct (row_of_column df "date" i W C Hr) as [E Hi].
  assert (D : at_ (normalize df) "date" i = NA)
    by now rewrite at_normalized_date.
  split; [exact D|]. split.
  - rewrite at_normalized_month by assumption. rewrite P. simpl.
    now rewrite V.
  - split.
    + intros start stop. now apply not_kept.
    + intros cols name start stop Hc Hn. apply not_kept.
      rewrite at_add_total_other by congruence. exact D.
Qed.

End NormaliserCells.

(** The pin code "110001.0" of the sample enrolment row. *)
Lemma pincode_witness :
  at_ (normalize Demo.enrolment_raw) "pincode" 0 = Str "110001".
Proof.
  assert (W : wf (renamed Demo.enrolment_raw)) by by_evaluation.
  assert (C : contains (renamed Demo.enrolment_raw) "pincode" = true)
    by (vm_compute; reflexivity).
  assert (R : 0 < index Demo.enrolment_raw) by (vm_compute; lia).
  apply (proj2 (proj2 (pincode_loses_every_dot0 Demo.enrolment_raw 0 W C R))
               "110001");
    vm_compute; reflexivity.
Defined.

(** C5 as the spec words it fails on "110.001": the text does not end in
    ".0", so stripping a trailing ".0" would keep it, and the code returns
    "11001". *)
Lemma interior_dot0_is_removed :
  at_ (normalize Demo.messy_raw) "pincode" 2
  <> Str (strip_suffix_dot0
            (astype_str (at_ (renamed Demo.messy_raw) "pincode" 2))).
Proof. intros H. vm_compute in H. discriminate H. Qed.

(** The second row of the sample, "not a date", with the library as
    pandas 3 behaves. *)
Lemma unparsed_date_witness :
  at_ (normalize (lib := Demo.lib3) Demo.messy_raw) "date" 1 = NA
  /\ at_ (normalize (lib := Demo.lib3) Demo.messy_raw) "month" 1 = NA
  /\ (forall start stop,
         ~ In 1 (kept_rows (normalize (lib := Demo.lib3) Demo.messy_raw)
                           start stop))
  /\ (forall cols name start stop,
         ~ In "date" cols -> name <> "date" ->
         ~ In 1 (kept_rows (add_total (lib := Demo.lib3)
                              (normalize (lib := Demo.lib3) Demo.messy_raw)
                              cols name)
                           start stop)).
Proof.
  apply (unparsed_date_is_filtered_out (lib := Demo.lib3) Demo.messy_raw 1);
    [reflexivity | by_evaluation | vm_compute; reflexivity | vm_compute; lia
     | vm_compute; reflexivity].
Defined.

(** With a library that prints the missing period (pandas 2), the month
    of that row is the text "NaT", and the date is missing all the same. *)
Lemma printed_month_of_unparsed_date :
  at_ (normalize Demo.messy_raw) "date" 1 = NA
  /\ at_ (normalize Demo.messy_raw) "month" 1 = Str "NaT".
Proof. split; vm_compute; reflexivity. Qed.

(* ================================================================== *)
(** * Frames built from rows *)
(* ================================================================== *)

Module Rows.
Import Frames.

Lemma at_of_rows (labels : list string) (rows : list row) (c : string)
      (i : nat) :
  at_ (of_rows labels rows) c i = cell_at labels (nth i rows []) c.
Proof.
  unfold at_, col, getitem, of_rows. cbn [data].
  revert rows; induction labels as [|c0 ls IH]; intros rows; simpl.
  - now destruct i.
  - destruct (String.eqb c0 c).
    + exact (map_nth (hd NA) rows [] i).
    + rewrite IH. f_equal. exact (map_nth (@tl cell) rows [] i).
Qed.

Lemma rows_of_of_rows (labels sub : list string) (rows : list row) :
  rows_of (of_rows labels rows) sub
  = map (fun r => map (cell_at labels r) sub) rows.
Proof.
  unfold rows_of. cbn [index of_rows].
  rewrite <- (Lists.map_seq_nth (fun r => map (cell_at labels r) sub) rows []).
  apply map_ext. intros i. apply map_ext. intros c. apply at_of_rows.
Qed.

Lemma columns_of_labels (labels : list string) (rows : list row) :
  map fst (columns_of labels rows) = labels.
Proof.
  revert rows; induction labels as [|c ls IH]; intros rows; simpl;
    [reflexivity | now rewrite IH].
Qed.

Lemma columns_of_rows (labels : list string) (rows : list row) :
  columns (of_rows labels rows) = labels.
Proof. apply columns_of_labels. Qed.

Lemma missing_label_none (df : DataFrame) (labels : list string) :
  (forall c, In c labels -> contains df c = true) ->
  missing_label df labels = None.
Proof.
  unfold missing_label. induction labels as [|c ls IH]; intros H; simpl;
    [reflexivity|].
  rewrite (H c) by now left. simpl. apply IH. intros c' Hc. apply H. now right.
Qed.

Lemma missing_label_first (df : DataFrame) (c : string) (ls : list string) :
  contains df c = false -> missing_label df (c :: ls) = Some c.
Proof. intros H. unfold missing_label. simpl. now rewrite H. Qed.

(** In a row made of a key and values, the key labels read the key. *)
Lemma cell_at_prefix (ks vs : list string) (k v : row) :
  NoDup ks -> List.length k = List.length ks ->
  map (cell_at (ks ++ vs) (k ++ v)) ks = k.
Proof.
  revert k; induction ks as [|c0 ks IH]; intros k N L.
  - now destruct k.
  - destruct k as [|x k]; [discriminate|]. simpl in L.
    inversion N as [|? ? N1 N2]; subst. simpl.
    rewrite String.eqb_refl. f_equal.
    transitivity (map (cell_at (ks ++ vs) (k ++ v)) ks); [|apply IH; auto].
    apply map_ext_in. intros c Hc.
    destruct (String.eqb c0 c) eqn:E; [|reflexivity].
    apply String.eqb_eq in E. subst c. contradiction.
Qed.

(** ... and the value labels read the values. *)
Lemma cell_at_suffix (ks vs : list string) (k v : row) :
  NoDup (ks ++ vs) -> List.length k = List.length ks ->
  List.length v = List.length vs ->
  map (cell_at (ks ++ vs) (k ++ v)) vs = v.
Proof.
  revert k; induction ks as [|c0 ks IH]; intros k N L Lv.
  - destruct k; [|discriminate]. simpl in *.
    rewrite <- (app_nil_r vs) at 1. rewrite <- (app_nil_r v) at 1.
    now apply cell_at_prefix.
  - destruct k as [|x k]; [discriminate|]. simpl in L.
    simpl in N. inversion N as [|? ? N1 N2]; subst.
    transitivity (map (cell_at (ks ++ vs) (k ++ v)) vs); [|apply IH; auto].
    apply map_ext_in. intros c Hc. simpl.
    destruct (String.eqb c0 c) eqn:E; [|reflexivity].
    apply String.eqb_eq in E. subst c. elim N1. apply in_or_app. now right.
Qed.

Lemma keyed_rows_on (on vs : list string) (K : list row) (f : row -> row) :
  NoDup on -> (forall k, In k K -> List.length k = List.length on) ->
  rows_of (keyed_frame on vs K f) on = K.
Proof.
  intros N L. unfold keyed_frame. rewrite rows_of_of_rows, map_map.
  rewrite <- (map_id K) at 2. apply map_ext_in. intros k Hk.
  apply cell_at_prefix; auto.
Qed.

Lemma keyed_rows_values (on vs : list string) (K : list row) (f : row -> row) :
  NoDup (on ++ vs) ->
  (forall k, In k K -> List.length k = List.length on
                       /\ List.length (f k) = List.length vs) ->
  rows_of (keyed_frame on vs K f) vs = map f K.
Proof.
  intros N L. unfold keyed_frame. rewrite rows_of_of_rows, map_map.
  apply map_ext_in. intros k Hk. destruct (L k Hk).
  apply cell_at_suffix; auto.
Qed.

Lemma others_keyed (on vs : list string) (K : list row) (f : row -> row) :
  NoDup (on ++ vs) -> others (keyed_frame on vs K f) on = vs.
Proof.
  intros N. unfold others, keyed_frame. rewrite columns_of_rows, filter_app.
  assert (A : filter (fun c => negb (existsb (String.eqb c) on)) on = []).
  { clear N. assert (G : forall l, incl l on ->
        filter (fun c => negb (existsb (String.eqb c) on)) l = []).
    { induction l as [|c l IH]; intros I; simpl; [reflexivity|].
      assert (E : existsb (String.eqb c) on = true).
      { apply existsb_exists. exists c. split; [|apply String.eqb_refl].
        apply I. now left. }
      rewrite E. simpl. apply IH. intros x Hx. apply I. now right. }
    apply G, incl_refl. }
  rewrite A. simpl.
  assert (D : forall c, In c vs -> ~ In c on).
  { intros c Hv Ho. apply NoDup_app_remove_l in N as N'.
    clear N'. revert N. clear -Hv Ho. induction on as [|a on IH]; [easy|].
    simpl. intros N. inversion N as [|? ? N1 N2]; subst.
    destruct Ho as [->|Ho]; [|now apply IH].
    apply N1. apply in_or_app. now right. }
  clear A N. induction vs as [|c vs IH]; simpl; [reflexivity|].
  assert (E : existsb (String.eqb c) on = false).
  { destruct (existsb (String.eqb c) on) eqn:E; [|reflexivity].
    apply existsb_exists in E as [x [Hx E]]. apply String.eqb_eq in E.
    subst x. elim (D c); [now left | exact Hx]. }
  rewrite E. simpl. f_equal. apply IH. intros x Hx. apply D. now right.
Qed.

Lemma keyed_contains (on vs : list string) (K : list row) (f : row -> row)
      (c : string) :
  In c on -> contains (keyed_frame on vs K f) c = true.
Proof.
  intros H. apply contains_in. unfold keyed_frame. rewrite columns_of_rows.
  apply in_or_app. now left.
Qed.

End Rows.

(* ================================================================== *)
(** * Grouping *)
(* ================================================================== *)

Module Grouping.
Import Frames Rows.

Lemma map_fst_filter {A B : Type} (f : A -> bool) (l : list (A * B)) :
  map fst (filter (fun p => f (fst p)) l) = filter f (map fst l).
Proof.
  induction l as [|[a b] l IH]; simpl; [reflexivity|].
  destruct (f a); simpl; now rewrite IH.
Qed.

Lemma filter_implied {A : Type} (f g : A -> bool) (l : list A) :
  (forall x, f x = true -> g x = true) ->
  filter f (filter g l) = filter f l.
Proof.
  intros H. induction l as [|x l IH]; simpl; [reflexivity|].
  destruct (g x) eqn:G; simpl; rewrite IH; [reflexivity|].
  destruct (f x) eqn:F; [|reflexivity].
  rewrite (H x F) in G. discriminate.
Qed.

Lemma filter_map_comm {A B : Type} (f : B -> bool) (g : A -> B) (l : list A) :
  filter f (map g l) = map g (filter (fun x => f (g x)) l).
Proof.
  induction l as [|x l IH]; simpl; [reflexivity|].
  destruct (f (g x)); simpl; now rewrite IH.
Qed.

Lemma combine_seq {A B : Type} (f : nat -> A) (C : list B) (d : B)
      (a n : nat) :
  List.length C = n ->
  combine (map f (seq a n)) C
  = map (fun i => (f i, nth (i - a) C d)) (seq a n).
Proof.
  revert a C; induction n as [|n IH]; intros a [|x C] H; simpl in *;
    try discriminate; [reflexivity|].
  rewrite Nat.sub_diag. f_equal. rewrite (IH (S a) C) by lia.
  apply map_ext_in. intros i Hi. apply in_seq in Hi.
  replace (i - a) with (S (i - S a)) by lia. reflexivity.
Qed.

Lemma length_rows_of (df : DataFrame) (on : list string) :
  List.length (rows_of df on) = index df.
Proof. unfold rows_of. now rewrite length_map, length_seq. Qed.

Lemma rows_of_length (df : DataFrame) (on : list string) (k : row) :
  In k (rows_of df on) -> List.length k = List.length on.
Proof.
  unfold rows_of. intros H. apply in_map_iff in H as [i [<- _]].
  apply length_map.
Qed.

Lemma key_at_rows (df : DataFrame) (j : nat) :
  j < index df -> key_at df j = nth j (rows_of df key) [].
Proof.
  intros Hj. unfold rows_of, key_at.
  rewrite Lists.nth_map_default with (d := 0)
    by (rewrite length_seq; exact Hj).
  now rewrite seq_nth.
Qed.

Lemma groups_in (df : DataFrame) (on : list string) (k : row) :
  In k (groups df on) <-> complete k = true /\ In k (rows_of df on).
Proof.
  unfold groups. rewrite Sorting.sort_rows_in.
  rewrite (Lists.distinct_in row_eqb Sorting.row_eqb_eq).
  rewrite filter_In. tauto.
Qed.

Lemma groups_NoDup (df : DataFrame) (on : list string) : NoDup (groups df on).
Proof.
  apply Sorting.sort_rows_NoDup, Lists.distinct_NoDup, Sorting.row_eqb_eq.
Qed.

Lemma groups_length (df : DataFrame) (on : list string) (k : row) :
  In k (groups df on) -> List.length k = List.length on.
Proof. intros H. apply groups_in in H as [_ H]. now apply rows_of_length in H. Qed.

(** [groupby_sum] succeeds on a frame that has the labels, and returns the
    frame of its groups. *)
Lemma groupby_sum_keyed (df : DataFrame) (on : list string) (metric : string) :
  (forall c, In c on -> contains df c = true) ->
  contains df metric = true ->
  List.length (col df metric) = index df ->
  groupby_sum df on metric
  = Ok (keyed_frame on [metric] (groups df on)
          (fun k => [agg_sum (group_cells df on metric k)])).
Proof.
  intros Hk Hm L. unfold groupby_sum.
  rewrite (missing_label_none df on Hk), Hm.
  unfold keyed_frame, groups, group_cells.
  rewrite (map_fst_filter complete), Lists.map_fst_combine;
    [reflexivity | now rewrite length_rows_of].
Qed.

(** The metric cells of a group are those of the rows with its key. *)
Lemma group_cells_rows (df : DataFrame) (metric : string) (k : row) :
  List.length (col df metric) = index df ->
  complete k = true ->
  group_cells df key metric k
  = map (fun i => at_ df metric i) (rows_with_key df k).
Proof.
  intros L Ck. unfold group_cells, with_key.
  rewrite filter_implied.
  2:{ intros [k' v] E. simpl in *. apply Sorting.row_eqb_eq in E. now subst. }
  unfold rows_of.
  rewrite combine_seq with (d := NA) by exact L.
  rewrite filter_map_comm, map_map. unfold rows_with_key, key_at. simpl.
  apply map_ext. intros i. unfold at_. now rewrite Nat.sub_0_r.
Qed.

Lemma rows_with_key_in (df : DataFrame) (k : row) (i : nat) :
  In i (rows_with_key df k) -> i < index df /\ key_at df i = k.
Proof.
  unfold rows_with_key. rewrite filter_In, in_seq, Sorting.row_eqb_eq.
  intros [H1 H2]. split; [lia | exact H2].
Qed.

(** The sum of a group of integers is the integer [group_total]. *)
Lemma group_sum_total (df : DataFrame) (metric : string) (k : row) :
  List.length (col df metric) = index df ->
  Forall (fun c => is_int c = true) (col df metric) ->
  complete k = true ->
  agg_sum (group_cells df key metric k) = Int (group_total df metric k).
Proof.
  intros L I Ck. rewrite (group_cells_rows df metric k L Ck).
  unfold agg_sum, group_total.
  assert (A : forallb is_int (map (fun i => at_ df metric i)
                                  (rows_with_key df k)) = true).
  { apply forallb_forall. intros c Hc. apply in_map_iff in Hc as [i [<- Hi]].
    apply rows_with_key_in in Hi as [Hi _].
    rewrite Forall_forall in I. apply I. unfold at_. apply nth_In. lia. }
  rewrite A, map_map. reflexivity.
Qed.

(** A key that no row has gets the total 0. *)
Lemma group_total_absent (df : DataFrame) (metric : string) (k : row) :
  ~ In k (rows_of df key) -> group_total df metric k = 0%Z.
Proof.
  intros N. unfold group_total.
  assert (E : rows_with_key df k = []).
  { destruct (rows_with_key df k) as [|i l] eqn:E; [reflexivity|].
    assert (Hi : In i (rows_with_key df k)) by (rewrite E; now left).
    apply rows_with_key_in in Hi as [Hi <-]. elim N.
    unfold rows_of, key_at. apply in_map_iff. exists i. split; [reflexivity|].
    apply in_seq. lia. }
  now rewrite E.
Qed.

Lemma ready_keys (df : DataFrame) (metric : string) :
  ready df metric -> forall c, In c key -> contains df c = true.
Proof. intros (_ & H & _). now apply Forall_forall. Qed.

Lemma ready_length (df : DataFrame) (metric : string) :
  ready df metric -> List.length (col df metric) = index df.
Proof.
  intros ([_ W] & _ & Hm & _). unfold col, contains in *.
  destruct (getitem df metric) as [s|] eqn:E; [|discriminate].
  apply lookup_in in E. rewrite Forall_forall in W. exact (W _ E).
Qed.

Lemma zsum_filter_bounded {A : Type} (f : A -> Z) (p : A -> bool)
      (l : list A) :
  (Z.abs (zsum (map f (filter p l)))
   <= zsum (map (fun x => Z.abs (f x)) l))%Z.
Proof.
  induction l as [|x l IH]; [reflexivity|].
  cbn [filter map]. destruct (p x); cbn [map]; rewrite ?Numbers.zsum_cons; lia.
Qed.

(** A sum over rows of a column is bounded by the magnitude of the
    column. *)
Lemma sum_of_rows_bounded (df : DataFrame) (metric : string)
      (p : nat -> bool) :
  List.length (col df metric) = index df ->
  (Z.abs (zsum (map (fun i => int_value (at_ df metric i))
                    (filter p (seq 0 (index df)))))
   <= magnitude df metric)%Z.
Proof.
  intros L. etransitivity; [apply zsum_filter_bounded|].
  unfold magnitude, at_. rewrite <- L.
  rewrite (Lists.map_seq_nth (fun c => Z.abs (int_value c))
                             (col df metric) NA).
  reflexivity.
Qed.

Lemma key_NoDup : NoDup key.
Proof. repeat constructor; simpl; intuition discriminate. Qed.

Lemma key_metric_NoDup (metric : string) :
  ~ In metric key -> NoDup (key ++ [metric]).
Proof.
  intros N. apply NoDup_app; [apply key_NoDup | repeat constructor; easy |].
  intros c Hc [<-|[]]. contradiction.
Qed.

(** The frame of the groups, read back. *)
Lemma grouped_metric (df : DataFrame) (metric : string) (j : nat) :
  ~ In metric key -> j < List.length (groups df key) ->
  at_ (keyed_frame key [metric] (groups df key)
         (fun k => [agg_sum (group_cells df key metric k)])) metric j
  = agg_sum (group_cells df key metric (nth j (groups df key) [])).
Proof.
  intros N Hj. unfold keyed_frame. rewrite at_of_rows.
  rewrite Lists.nth_map_default with (d := []) by exact Hj.
  set (k := nth j (groups df key) []).
  assert (Hk : In k (groups df key)) by now apply nth_In.
  pose proof (cell_at_suffix key [metric] k
                [agg_sum (group_cells df key metric k)]
                (key_metric_NoDup metric N)
                (groups_length df key k Hk) eq_refl) as E.
  simpl in E. now injection E.
Qed.

End Grouping.

Section GroupBy.
Import Rows Grouping.

(** C9, as the code has it: grouping a category by the composite key
    gives one row for every key of the table none of whose fields is
    missing, and no other row; the metric of that row is the sum of the
    metrics of the rows with that key, for a metric whose absolute values
    add up to less than 2^63: no sum of a group leaves the range of int64
    then.  The rows whose key has a missing field belong to no group. *)
Theorem groupby_sums_rows_with_complete_key (df : DataFrame) (metric : string) :
  ready df metric ->
  (magnitude df metric < 2 ^ 63)%Z ->
  exists g : DataFrame,
    groupby_sum df key metric = Ok g
    /\ NoDup (rows_of g key)
    /\ (forall k, In k (rows_of g key)
                  <-> complete k = true /\ In k (rows_of df key))
    /\ (forall j, j < index g ->
                  at_ g metric j = Int (group_total df metric (key_at g j)))
    /\ (forall k, Machine.wrap64 (group_total df metric k)
                  = group_total df metric k).
Proof.
  intros R B. pose proof R as (_ & _ & Hm & Nm & _ & I).
  exists (keyed_frame key [metric] (groups df key)
            (fun k => [agg_sum (group_cells df key metric k)])).
  assert (K : rows_of (keyed_frame key [metric] (groups df key)
                (fun k => [agg_sum (group_cells df key metric k)])) key
              = groups df key).
  { apply keyed_rows_on; [apply key_NoDup | apply groups_length]. }
  split.
  - apply groupby_sum_keyed;
      [now apply ready_keys with metric | exact Hm | now apply ready_length].
  - rewrite K. split; [apply groups_NoDup|]. split; [apply groups_in|].
    split.
    2:{ intros k. apply Numbers.wrap64_small.
        pose proof (sum_of_rows_bounded df metric
                      (fun i => row_eqb (key_at df i) k)
                      (ready_length df metric R)) as S.
        unfold group_total, rows_with_key. lia. }
    intros j Hj. unfold keyed_frame in Hj. cbn [index of_rows] in Hj.
    rewrite length_map in Hj.
    rewrite grouped_metric by assumption.
    assert (E : key_at (keyed_frame key [metric] (groups df key)
                  (fun k => [agg_sum (group_cells df key metric k)])) j
                = nth j (groups df key) []).
    { rewrite key_at_rows; [now rewrite K|].
      unfold keyed_frame. cbn [index of_rows]. now rewrite length_map. }
    rewrite E. apply group_sum_total; [now apply ready_length | exact I |].
    assert (Hk : In (nth j (groups df key) []) (groups df key))
      by now apply nth_In.
    now apply groups_in in Hk.
Qed.

End GroupBy.

(** The two rows of [Demo.enr_t] with the same key, 3 and 5, are one row
    with 8 after the grouping. *)
Lemma groupby_witness :
  exists g : DataFrame,
    groupby_sum Demo.enr_t key "enrol" = Ok g
    /\ index g = 2
    /\ key_at g 0 = key_at Demo.enr_t 0
    /\ key_at g 0 = key_at Demo.enr_t 1
    /\ at_ g "enrol" 0 = Int 8.
Proof.
  destruct (groupby_sums_rows_with_complete_key Demo.enr_t "enrol")
    as (g & Hg & _ & _ & Hm & _).
  - by_evaluation.
  - vm_compute. reflexivity.
  - exists g. split; [exact Hg|].
    assert (E : groupby_sum Demo.enr_t key "enrol"
                = Ok (of_rows (key ++ ["enrol"])
                        [[Demo.day1; Str "X"; Str "A"; Str "110001";
                          Str "2024-01"; Int 8];
                         [Demo.day2; Str "Y"; Str "C"; Str "560001";
                          Str "2024-02"; Int 6]]))
      by (vm_compute; reflexivity).
    rewrite E in Hg. injection Hg as <-.
    split; [reflexivity|]. split; [vm_compute; reflexivity|].
    split; [vm_compute; reflexivity|].
    rewrite (Hm 0) by (vm_compute; lia). vm_compute. reflexivity.
Defined.

(** C9 as the spec words it fails when the date of the key is missing:
    the first two rows of [Demo.undated_t] have the same key, with metrics
    3 and 5, and the grouping returns one row only, that of the dated row:
    no row has the key of the two. *)
Lemma undated_rows_form_no_group :
  key_at Demo.undated_t 0 = key_at Demo.undated_t 1
  /\ at_ Demo.undated_t "enrol" 0 = Int 3
  /\ at_ Demo.undated_t "enrol" 1 = Int 5
  /\ exists g : DataFrame,
       groupby_sum Demo.undated_t key "enrol" = Ok g
       /\ rows_of g key = [key_at Demo.undated_t 2]
       /\ ~ In (key_at Demo.undated_t 0) (rows_of g key).
Proof.
  repeat split; try (vm_compute; reflexivity).
  eexists. split; [vm_compute; reflexivity|].
  split; [vm_compute; reflexivity|].
  vm_compute. intuition discriminate.
Qed.

(* ================================================================== *)
(** * Merging *)
(* ================================================================== *)

Module Merging.
Import Frames Rows Grouping.

Lemma combine_map {A B : Type} (f : A -> B) (l : list A) :
  combine l (map f l) = map (fun x => (x, f x)) l.
Proof. induction l as [|x l IH]; simpl; [reflexivity | now rewrite IH]. Qed.

Lemma with_key_absent {A : Type} (f : row -> A) (K : list row) (k : row) :
  ~ In k K -> with_key k (map (fun x => (x, f x)) K) = [].
Proof.
  unfold with_key. induction K as [|x K IH]; intros N; simpl; [reflexivity|].
  destruct (row_eqb x k) eqn:E.
  - apply Sorting.row_eqb_eq in E. elim N. now left.
  - apply IH. intros H. apply N. now right.
Qed.

Lemma with_key_present {A : Type} (f : row -> A) (K : list row) (k : row) :
  NoDup K -> In k K -> with_key k (map (fun x => (x, f x)) K) = [(k, f k)].
Proof.
  induction K as [|x K IH]; intros N H; [destruct H|].
  inversion N as [|? ? N1 N2]; subst.
  unfold with_key. simpl. destruct (row_eqb x k) eqn:E.
  - apply Sorting.row_eqb_eq in E. subst x. f_equal.
    now apply with_key_absent.
  - destruct H as [->|H]; [now rewrite Sorting.row_eqb_refl in E|].
    now apply IH.
Qed.

Lemma merged_keys_in (KL KR : list row) (k : row) :
  In k (sort_rows (distinct row_eqb (KL ++ KR))) <-> In k KL \/ In k KR.
Proof.
  rewrite Sorting.sort_rows_in.
  rewrite (Lists.distinct_in row_eqb Sorting.row_eqb_eq).
  apply in_app_iff.
Qed.

(** The outer merge of two frames with one row per key. *)
Lemma merge_outer_keyed (on lv rv : list string) (KL KR : list row)
      (fl fr : row -> row) :
  NoDup (on ++ lv) -> NoDup (on ++ rv) -> NoDup on ->
  NoDup KL -> NoDup KR ->
  (forall k, In k KL -> List.length k = List.length on
                        /\ List.length (fl k) = List.length lv) ->
  (forall k, In k KR -> List.length k = List.length on
                        /\ List.length (fr k) = List.length rv) ->
  merge_outer (keyed_frame on lv KL fl) (keyed_frame on rv KR fr) on
  = Ok (keyed_frame on (lv ++ rv)
          (sort_rows (distinct row_eqb (KL ++ KR)))
          (fun k => side KL fl (List.length lv) k
                    ++ side KR fr (List.length rv) k)).
Proof.
  intros Nl Nr No NKL NKR LL LR. unfold merge_outer.
  rewrite !missing_label_none by (intros c Hc; now apply keyed_contains).
  rewrite !others_keyed by assumption.
  rewrite !keyed_rows_on by (try assumption; intros k Hk;
                             first [now apply LL | now apply LR]).
  rewrite !keyed_rows_values by assumption.
  rewrite !combine_map, !map_map. cbn [fst]. rewrite !map_id.
  unfold keyed_frame. do 2 f_equal.
  apply Lists.flat_map_singleton. intros k Hk.
  apply (proj1 (merged_keys_in KL KR k)) in Hk.
  unfold join_key, side.
  destruct (in_dec row_eq_dec k KL) as [HL|HL];
    destruct (in_dec row_eq_dec k KR) as [HR|HR].
  - rewrite (with_key_present fl KL k NKL HL), (with_key_present fr KR k NKR HR).
    reflexivity.
  - rewrite (with_key_present fl KL k NKL HL), (with_key_absent fr KR k HR).
    reflexivity.
  - rewrite (with_key_absent fl KL k HL), (with_key_present fr KR k NKR HR).
    reflexivity.
  - tauto.
Qed.

Lemma merged_keys_NoDup (KL KR : list row) :
  NoDup (sort_rows (distinct row_eqb (KL ++ KR))).
Proof.
  apply Sorting.sort_rows_NoDup, Lists.distinct_NoDup, Sorting.row_eqb_eq.
Qed.

(** Filling the missing values of a frame built from rows. *)
Lemma fillna0_of_rows (labels : list string) (rows : list row) :
  (forall r, In r rows -> List.length r = List.length labels) ->
  fillna0_frame (of_rows labels rows)
  = of_rows labels (map (map fillna0_cell) rows).
Proof.
  unfold fillna0_frame, of_rows. cbn [index data]. rewrite length_map.
  intros H. f_equal.
  revert rows H; induction labels as [|c ls IH]; intros rows H; simpl;
    [reflexivity|].
  f_equal.
  - f_equal. unfold fillna0. rewrite !map_map. apply map_ext_in.
    intros r Hr. specialize (H r Hr). destruct r; [discriminate | reflexivity].
  - rewrite IH.
    + f_equal. rewrite !map_map. apply map_ext. intros r. now destruct r.
    + intros r Hr. apply in_map_iff in Hr as [r0 [<- Hr0]].
      specialize (H r0 Hr0). destruct r0; [discriminate|]. simpl in *. lia.
Qed.

Lemma fillna0_complete (k : row) :
  complete k = true -> map fillna0_cell k = k.
Proof.
  unfold complete. induction k as [|c k IH]; simpl; [reflexivity|].
  intros H. apply andb_true_iff in H as [H1 H2].
  rewrite (IH H2). now destruct c.
Qed.

End Merging.

(* ================================================================== *)
(** * The combined view, key by key *)
(* ================================================================== *)

Module CombinedFacts.
Import Frames Rows Grouping Merging.

Lemma groupby_ready (df : DataFrame) (metric : string) :
  ready df metric ->
  groupby_sum df key metric
  = Ok (keyed_frame key [metric] (groups df key) (metric_cell df metric)).
Proof.
  intros R. pose proof R as (_ & _ & Hm & _).
  apply groupby_sum_keyed;
    [now apply ready_keys with metric | exact Hm | now apply ready_length].
Qed.

Lemma length_side (K : list row) (f : row -> row) (n : nat) (k : row) :
  (forall x, List.length (f x) = n) -> List.length (side K f n k) = n.
Proof.
  intros H. unfold side. destruct (in_dec row_eq_dec k K);
    [apply H | apply repeat_length].
Qed.

Lemma length_values2 (enr dem : DataFrame) (k : row) :
  List.length (values2 enr dem k) = 2.
Proof.
  unfold values2. rewrite length_app, !length_side; reflexivity.
Qed.

Lemma keys2_in (enr dem : DataFrame) (k : row) :
  In k (keys2 enr dem) <-> In k (groups enr key) \/ In k (groups dem key).
Proof. apply merged_keys_in. Qed.

Lemma keys3_in (enr dem bio : DataFrame) (k : row) :
  In k (keys3 enr dem bio)
  <-> In k (groups enr key) \/ In k (groups dem key) \/ In k (groups bio key).
Proof. unfold keys3. rewrite merged_keys_in, keys2_in. tauto. Qed.

Lemma keys3_complete (enr dem bio : DataFrame) (k : row) :
  In k (keys3 enr dem bio) -> complete k = true /\ List.length k = List.length key.
Proof.
  intros H. apply keys3_in in H as [H|[H|H]];
    (split; [now apply groups_in in H | now apply groups_length in H]).
Qed.

Lemma first_merge (enr dem : DataFrame) :
  merge_outer (keyed_frame key ["enrol"] (groups enr key) (metric_cell enr "enrol"))
              (keyed_frame key ["demo"] (groups dem key) (metric_cell dem "demo"))
              key
  = Ok (keyed_frame key ["enrol"; "demo"] (keys2 enr dem) (values2 enr dem)).
Proof.
  apply (merge_outer_keyed key ["enrol"] ["demo"]);
    try apply groups_NoDup; try distinct_labels;
    intros k Hk; (split; [now apply groups_length in Hk | reflexivity]).
Qed.

Lemma second_merge (enr dem bio : DataFrame) :
  merge_outer (keyed_frame key ["enrol"; "demo"] (keys2 enr dem) (values2 enr dem))
              (keyed_frame key ["bio"] (groups bio key) (metric_cell bio "bio"))
              key
  = Ok (keyed_frame key ["enrol"; "demo"; "bio"]
          (keys3 enr dem bio) (values3 enr dem bio)).
Proof.
  apply (merge_outer_keyed key ["enrol"; "demo"] ["bio"]);
    try apply groups_NoDup; try apply merged_keys_NoDup; try distinct_labels.
  - intros k Hk. split; [|apply length_values2].
    apply keys2_in in Hk as [Hk|Hk]; now apply groups_length in Hk.
  - intros k Hk. split; [now apply groups_length in Hk | reflexivity].
Qed.

(** One side of a merge after [fillna(0)]: the total of the key in that
    category, which is 0 when the category has no row with the key. *)
Lemma side_filled (df : DataFrame) (metric : string) (k : row) :
  ready df metric -> complete k = true ->
  map fillna0_cell (side (groups df key) (metric_cell df metric) 1 k)
  = [Int (group_total df metric k)].
Proof.
  intros R Ck. pose proof R as (_ & _ & _ & _ & _ & I).
  unfold side, metric_cell.
  destruct (in_dec row_eq_dec k (groups df key)) as [H|H]; simpl.
  - rewrite group_sum_total; [reflexivity | now apply ready_length | | ];
      assumption.
  - rewrite group_total_absent; [reflexivity|].
    intros Hk. apply H. apply groups_in. now split.
Qed.

Lemma values2_side (enr dem : DataFrame) (k : row) :
  side (keys2 enr dem) (values2 enr dem) 2 k = values2 enr dem k.
Proof.
  unfold side at 1. destruct (in_dec row_eq_dec k (keys2 enr dem)) as [H|H];
    [reflexivity|].
  unfold values2, side.
  destruct (in_dec row_eq_dec k (groups enr key)) as [H1|H1];
    [elim H; apply keys2_in; now left|].
  destruct (in_dec row_eq_dec k (groups dem key)) as [H2|H2];
    [elim H; apply keys2_in; now right|].
  reflexivity.
Qed.

Lemma values3_filled (enr dem bio : DataFrame) (k : row) :
  ready enr "enrol" -> ready dem "demo" -> ready bio "bio" ->
  complete k = true ->
  map fillna0_cell (values3 enr dem bio k) = totals enr dem bio k.
Proof.
  intros R1 R2 R3 Ck. unfold values3. rewrite values2_side. unfold values2.
  rewrite !map_app, !side_filled by assumption. reflexivity.
Qed.

(** The frame of the combined view. *)
Lemma combined_frame (enr dem bio : DataFrame) :
  ready enr "enrol" -> ready dem "demo" -> ready bio "bio" ->
  combined enr dem bio
  = Ok (set_total ["enrol"; "demo"; "bio"] "total"
          (keyed_frame key ["enrol"; "demo"; "bio"]
             (keys3 enr dem bio) (totals enr dem bio))).
Proof.
  intros R1 R2 R3. unfold combined.
  rewrite (groupby_ready enr "enrol" R1), (groupby_ready dem "demo" R2),
    (groupby_ready bio "bio" R3).
  cbn [rbind]. rewrite first_merge. cbn [rbind].
  rewrite second_merge. cbn [rbind]. do 2 f_equal.
  unfold keyed_frame. rewrite fillna0_of_rows.
  - f_equal. rewrite map_map. apply map_ext_in. intros k Hk.
    apply keys3_complete in Hk as [Ck _].
    rewrite map_app, fillna0_complete by exact Ck.
    now rewrite values3_filled.
  - intros r Hr. apply in_map_iff in Hr as [k [<- Hk]].
    apply keys3_complete in Hk as [_ Lk].
    rewrite !length_app, Lk. unfold values3.
    rewrite length_app, !length_side; try reflexivity.
    apply length_values2.
Qed.

Lemma at_set_total_other (df : DataFrame) (cols : list string)
      (name c : string) (i : nat) :
  c <> name -> at_ (set_total cols name df) c i = at_ df c i.
Proof.
  intros N. unfold at_, set_total. now rewrite col_setitem_other by congruence.
Qed.

Lemma rows_of_set_total (df : DataFrame) (cols on : list string)
      (name : string) :
  ~ In name on -> rows_of (set_total cols name df) on = rows_of df on.
Proof.
  intros N. unfold rows_of. cbn [index set_total setitem].
  apply map_ext. intros i. apply map_ext_in. intros c Hc.
  apply at_set_total_other. intros ->. contradiction.
Qed.

(** The three metrics and the key of row [i] of the filled frame. *)
Lemma filled_row (enr dem bio : DataFrame) (i : nat) :
  i < List.length (keys3 enr dem bio) ->
  let F := keyed_frame key ["enrol"; "demo"; "bio"]
             (keys3 enr dem bio) (totals enr dem bio) in
  let k := nth i (keys3 enr dem bio) [] in
  map (fun c => at_ F c i) ["enrol"; "demo"; "bio"] = totals enr dem bio k.
Proof.
  intros Hi F k. unfold F, keyed_frame.
  assert (Hk : In k (keys3 enr dem bio)) by now apply nth_In.
  apply keys3_complete in Hk as [_ Lk].
  transitivity (map (cell_at (key ++ ["enrol"; "demo"; "bio"])
                             (k ++ totals enr dem bio k))
                    ["enrol"; "demo"; "bio"]).
  - apply map_ext. intros c. rewrite at_of_rows.
    now rewrite Lists.nth_map_default with (d := []) by exact Hi.
  - apply cell_at_suffix; [distinct_labels | exact Lk | reflexivity].
Qed.

End CombinedFacts.

(* ================================================================== *)
(** * What the combined view is given *)
(* ================================================================== *)

Section PipelineOutput.
Context {lib : Pandas}.
Import Frames.

Lemma wf_parse_dates (df : DataFrame) : wf df -> wf (parse_dates df).
Proof.
  intros W. unfold parse_dates. destruct (contains df "date") eqn:E;
    [|exact W].
  assert (L : List.length (col df "date") = index df)
    by now apply wf_col_length.
  apply wf_setitem.
  - apply wf_setitem; [exact W|]. unfold to_datetime. now rewrite length_map.
  - rewrite col_setitem_same. unfold to_datetime. now rewrite !length_map.
Qed.

Lemma wf_normalize (df : DataFrame) :
  empty df = false -> wf (renamed df) -> wf (normalize df).
Proof.
  intros E W. rewrite (normalize_steps df E).
  unfold after_district, after_state, after_dates.
  repeat apply wf_update_col; try (intros s; apply length_map).
  now apply wf_parse_dates.
Qed.

Lemma wf_step (df : DataFrame) (c : string) : wf df -> wf (add_total_step df c).
Proof.
  intros W. unfold add_total_step.
  assert (W' : wf (if contains df c then df else setitem_scalar df c (Int 0))).
  { destruct (contains df c); [exact W|].
    apply wf_setitem; [exact W | apply repeat_length]. }
  assert (C : contains (if contains df c then df
                        else setitem_scalar df c (Int 0)) c = true).
  { destruct (contains df c) eqn:E; [exact E|].
    unfold contains, setitem_scalar. now rewrite getitem_setitem_same. }
  apply wf_setitem; [exact W'|].
  unfold fillna0, to_numeric. rewrite !length_map.
  now apply wf_col_length.
Qed.

Lemma wf_loop (cols : list string) (df : DataFrame) :
  wf df -> wf (fold_left add_total_step cols df).
Proof.
  revert df; induction cols as [|c r IH]; intros df W; simpl; [exact W|].
  now apply IH, wf_step.
Qed.

Lemma wf_add_total (df : DataFrame) (cols : list string) (name : string) :
  wf df -> wf (add_total df cols name).
Proof.
  intros W. unfold add_total, set_total. apply wf_setitem.
  - now apply wf_loop.
  - apply length_row_sums.
Qed.

Lemma getitem_add_total_other (df : DataFrame) (cols : list string)
      (name c : string) :
  ~ In c cols -> c <> name ->
  getitem (add_total df cols name) c = getitem df c.
Proof.
  intros Hc Hn. unfold add_total, set_total.
  rewrite getitem_setitem_other by congruence. now apply loop_other.
Qed.

Lemma Forall_map_cells (P : cell -> bool) (f : cell -> cell) (s : Series) :
  (forall c, P (f c) = true) -> Forall (fun c => P c = true) (map f s).
Proof.
  intros H. apply Forall_forall. intros x Hx.
  apply in_map_iff in Hx as [y [<- _]]. apply H.
Qed.

(** The output of [add_total (normalize _)] is what the combined view
    expects, for a table that is not empty, whose labels are different
    after the renaming and include the four source columns of the key:
    first for any column of integers as the output column. *)
Lemma with_totals_is_ready (raw : DataFrame) (cols : list string)
      (metric : string) (totals : Series) :
  List.length totals = index (normalize raw) ->
  Forall (fun c => is_int c = true) totals ->
  empty raw = false ->
  wf (renamed raw) ->
  Forall (fun c => contains (renamed raw) c = true)
         ["date"; "state"; "district"; "pincode"] ->
  ~ In metric key ->
  (forall c, In c cols -> ~ In c key) ->
  ready (with_totals (normalize raw) cols metric totals) metric.
Proof.
  intros Lt It E W C Nm Nc.
  assert (G : forall c, In c key ->
                        getitem (with_totals (normalize raw) cols metric totals) c
                        = getitem (normalize raw) c).
  { intros c Hc. unfold with_totals.
    rewrite getitem_setitem_other by (intros ->; contradiction).
    apply loop_other. intros H. now apply (Nc c H). }
  inversion C as [|? ? C1 Ca]; subst. inversion Ca as [|? ? C2 Cb]; subst.
  inversion Cb as [|? ? C3 Cc]; subst.
  inversion Cc as [|? ? C4 _]; subst.
  unfold contains in C1, C2, C3, C4.
  destruct (getitem (renamed raw) "date") as [sd|] eqn:Ed; [|discriminate].
  destruct (getitem (renamed raw) "state") as [ss|] eqn:Es; [|discriminate].
  destruct (getitem (renamed raw) "district") as [st|] eqn:Et; [|discriminate].
  destruct (getitem (renamed raw) "pincode") as [sp|] eqn:Ep; [|discriminate].
  assert (Gd : getitem (with_totals (normalize raw) cols metric totals) "date"
               = Some (to_datetime sd)).
  { rewrite G by (simpl; tauto). rewrite normalized_date by exact E.
    now rewrite Ed. }
  assert (Gm : getitem (with_totals (normalize raw) cols metric totals) "month"
               = Some (map month_cell (to_datetime sd))).
  { rewrite G by (simpl; tauto). now apply normalized_month. }
  assert (Gs : getitem (with_totals (normalize raw) cols metric totals) "state"
               = Some (strip_text ss)).
  { rewrite G by (simpl; tauto). rewrite normalized_state by exact E.
    now rewrite Es. }
  assert (Gt : getitem (with_totals (normalize raw) cols metric totals) "district"
               = Some (strip_text st)).
  { rewrite G by (simpl; tauto). rewrite normalized_district by exact E.
    now rewrite Et. }
  assert (Gp : getitem (with_totals (normalize raw) cols metric totals) "pincode"
               = Some (clean_pincode sp)).
  { rewrite G by (simpl; tauto). rewrite normalized_pincode by exact E.
    now rewrite Ep. }
  split.
  { unfold with_totals. apply wf_setitem.
    - now apply wf_loop, wf_normalize.
    - now rewrite index_loop. }
  split.
  { unfold key, contains. repeat constructor;
      now rewrite ?Gd, ?Gm, ?Gs, ?Gt, ?Gp. }
  split.
  { unfold contains, with_totals. now rewrite getitem_setitem_same. }
  split; [exact Nm|]. split.
  - unfold typed_keys. split.
    + unfold col. rewrite Gd.
      apply Forall_map_cells. intros [|z|q|s|t]; simpl; try reflexivity.
      now destruct (parse_datetime s).
    + repeat (apply Forall_cons;
              [unfold col; rewrite ?Gm, ?Gs, ?Gt, ?Gp;
               apply Forall_map_cells; intros []; simpl;
               try reflexivity; now destruct prints_missing|]).
      apply Forall_nil.
  - unfold col, with_totals. now rewrite getitem_setitem_same.
Qed.

Lemma totalised_is_ready (raw : DataFrame) (cols : list string)
      (metric : string) :
  empty raw = false ->
  wf (renamed raw) ->
  Forall (fun c => contains (renamed raw) c = true)
         ["date"; "state"; "district"; "pincode"] ->
  ~ In metric key ->
  (forall c, In c cols -> ~ In c key) ->
  ready (add_total (normalize raw) cols metric) metric.
Proof.
  intros E W C Nm Nc. unfold add_total, set_total.
  apply (with_totals_is_ready raw cols metric); try assumption.
  - now rewrite length_row_sums, index_loop.
  - unfold astype_int. apply Forall_forall. intros x Hx.
    apply in_map_iff in Hx as [q [<- _]]. reflexivity.
Qed.

End PipelineOutput.

Section CombinedView.
Import Frames Rows Grouping Merging CombinedFacts.

(** C1, as the code has it: for three category tables that carry the five
    key columns and an integer metric, the absolute values of the three
    metrics adding up to 2^53 at most (so that no sum wraps around or is
    rounded), the combined view has exactly one row for every composite
    key that occurs in one of the tables and has no missing field (the
    date that did not parse is one), and no other row: no such key is lost
    and none is repeated.  In that row the metric of each category holds
    the sum over its rows with that key, 0 when it has none, and the grand
    total is the sum of the three; the three sums of a key are whole
    numbers that float64 holds and adds without rounding.  Keys with a
    missing field are left out by the grouping. *)
Theorem combined_has_one_row_per_complete_key (enr dem bio : DataFrame) :
  ready enr "enrol" -> ready dem "demo" -> ready bio "bio" ->
  (magnitude enr "enrol" + magnitude dem "demo" + magnitude bio "bio"
   <= 2 ^ 53)%Z ->
  exists out : DataFrame,
    combined enr dem bio = Ok out
    /\ NoDup (rows_of out key)
    /\ (forall k, In k (rows_of out key)
                  <-> complete k = true
                      /\ (In k (rows_of enr key) \/ In k (rows_of dem key)
                          \/ In k (rows_of bio key)))
    /\ (forall i, i < index out ->
                  let k := key_at out i in
                  holds (at_ out "enrol" i) (group_total enr "enrol" k)
                  /\ holds (at_ out "demo" i) (group_total dem "demo" k)
                  /\ holds (at_ out "bio" i) (group_total bio "bio" k)
                  /\ at_ out "total" i
                     = Int (group_total enr "enrol" k
                            + group_total dem "demo" k
                            + group_total bio "bio" k))
    /\ (forall df metric k, ~ In k (rows_of df key) ->
                            group_total df metric k = 0%Z)
    /\ (forall k, (Z.abs (group_total enr "enrol" k)
                   + Z.abs (group_total dem "demo" k)
                   + Z.abs (group_total bio "bio" k) <= 2 ^ 53)%Z).
Proof.
  intros R1 R2 R3 B.
  set (F := keyed_frame key ["enrol"; "demo"; "bio"]
              (keys3 enr dem bio) (totals enr dem bio)).
  exists (set_total ["enrol"; "demo"; "bio"] "total" F).
  assert (K : rows_of (set_total ["enrol"; "demo"; "bio"] "total" F) key
              = keys3 enr dem bio).
  { rewrite rows_of_set_total by (simpl; intuition discriminate).
    apply keyed_rows_on; [apply key_NoDup|].
    intros k Hk. now apply keys3_complete in Hk. }
  assert (N : index F = List.length (keys3 enr dem bio)).
  { unfold F, keyed_frame. cbn [index of_rows]. apply length_map. }
  split; [now apply combined_frame|]. rewrite K.
  split; [apply merged_keys_NoDup|]. split.
  - intros k. rewrite keys3_in, !groups_in. tauto.
  - split.
    2:{ split; [intros df metric k; apply group_total_absent|].
        intros k.
        pose proof (sum_of_rows_bounded enr "enrol"
                      (fun i => row_eqb (key_at enr i) k)
                      (ready_length enr "enrol" R1)) as S1.
        pose proof (sum_of_rows_bounded dem "demo"
                      (fun i => row_eqb (key_at dem i) k)
                      (ready_length dem "demo" R2)) as S2.
        pose proof (sum_of_rows_bounded bio "bio"
                      (fun i => row_eqb (key_at bio i) k)
                      (ready_length bio "bio" R3)) as S3.
        unfold group_total, rows_with_key. lia. }
    intros i Hi. cbn [index set_total setitem] in Hi. rewrite N in Hi.
    assert (E : key_at (set_total ["enrol"; "demo"; "bio"] "total" F) i
                = nth i (keys3 enr dem bio) []).
    { rewrite key_at_rows; [now rewrite K|].
      cbn [index set_total setitem]. now rewrite N. }
    rewrite E. cbn zeta.
    pose proof (filled_row enr dem bio i Hi) as T. cbn zeta in T. fold F in T.
    rewrite !at_set_total_other by discriminate.
    unfold totals in T. injection T as T1 T2 T3.
    split; [now rewrite T1|]. split; [now rewrite T2|].
    split; [now rewrite T3|].
    unfold at_, set_total. rewrite col_setitem_same.
    rewrite nth_row_sums by (rewrite N; exact Hi).
    cbn [map]. rewrite T1, T2, T3. cbn [value].
    change (qsum [Z2Qc ?a; Z2Qc ?b; Z2Qc ?c])
      with (qsum (map Z2Qc [a; b; c])).
    rewrite Numbers.qsum_whole, Numbers.trunc_Z2Qc.
    reflexivity.
Qed.

End CombinedView.

(** The three sample tables: the key (15-02-2024, Y, C, 560001) has
    enrol = 6 and demo = 4 and no biometric row, so its row reads
    6, 4, 0 and 10; the view has three rows for the three keys. *)
Lemma combined_witness :
  exists out : DataFrame,
    combined Demo.enr_t Demo.dem_t Demo.bio_t = Ok out
    /\ NoDup (rows_of out key)
    /\ index out = 3
    /\ key_at out 2 = key_at Demo.dem_t 0
    /\ holds (at_ out "enrol" 2) 6
    /\ holds (at_ out "demo" 2) 4
    /\ holds (at_ out "bio" 2) 0
    /\ at_ out "total" 2 = Int 10.
Proof.
  destruct (combined_has_one_row_per_complete_key
              Demo.enr_t Demo.dem_t Demo.bio_t)
    as (out & Ho & Hn & _ & Hm & _).
  - by_evaluation.
  - by_evaluation.
  - by_evaluation.
  - apply Z.leb_le. vm_compute. reflexivity.
  - exists out. split; [exact Ho|]. split; [exact Hn|].
    assert (E : exists o, combined Demo.enr_t Demo.dem_t Demo.bio_t = Ok o
                          /\ index o = 3
                          /\ key_at o 2 = key_at Demo.dem_t 0
                          /\ group_total Demo.enr_t "enrol" (key_at o 2) = 6%Z
                          /\ group_total Demo.dem_t "demo" (key_at o 2) = 4%Z
                          /\ group_total Demo.bio_t "bio" (key_at o 2) = 0%Z).
    { eexists. split; [vm_compute; reflexivity|].
      repeat split; vm_compute; reflexivity. }
    destruct E as (o & Eo & E1 & E2 & E3 & E4 & E5).
    rewrite Ho in Eo. injection Eo as <-.
    split; [exact E1|]. split; [exact E2|].
    destruct (Hm 2 ltac:(rewrite E1; lia)) as (M1 & M2 & M3 & M4).
    cbn zeta in *. rewrite E3 in M1, M4. rewrite E4 in M2, M4.
    rewrite E5 in M3, M4.
    split; [exact M1|]. split; [exact M2|]. split; [exact M3|]. exact M4.
Defined.

(** C1 as the spec words it fails for a key with a missing field: the key
    of the undated enrolment rows is a key of the union of the three
    tables, and the combined view has no row for it. *)
Lemma undated_key_is_lost :
  In (key_at Demo.undated_t 0) (rows_of Demo.undated_t key)
  /\ exists out : DataFrame,
       combined Demo.undated_t Demo.dem_t Demo.bio_t = Ok out
       /\ ~ In (key_at Demo.undated_t 0) (rows_of out key).
Proof.
  split; [vm_compute; now left|].
  eexists. split; [vm_compute; reflexivity|].
  vm_compute. intuition discriminate.
Qed.

(* ================================================================== *)
(** * Empty tables *)
(* ================================================================== *)

Section EmptyTables.
Context {lib : Pandas}.

(** [normalize] hands an empty frame back as it is... *)
Lemma normalize_empty (df : DataFrame) : empty df = true -> normalize df = df.
Proof. intros E. unfold normalize. now rewrite E. Qed.

(** ... and as the same object. *)
Lemma normalize_obj_empty (h : heap) (l : loc) :
  empty (deref h l) = true -> normalize_obj l h = (l, h).
Proof. intros E. unfold normalize_obj, bind, read. now rewrite E. Qed.

(** [add_total] on a frame with no row: every expected column and the
    output column are there, with no cell. *)
Lemma add_total_empty (df : DataFrame) (cols : list string) (name c : string) :
  wf df -> index df = 0 -> In c (name :: cols) ->
  index (add_total df cols name) = 0
  /\ getitem (add_total df cols name) c = Some [].
Proof.
  intros W Z Hc. unfold add_total, set_total. cbn [index setitem].
  rewrite index_loop. split; [exact Z|].
  destruct (string_dec name c) as [->|N].
  - rewrite Frames.getitem_setitem_same.
    unfold astype_int, row_sums. now rewrite index_loop, Z.
  - destruct Hc as [Hc|Hc]; [contradiction|].
    rewrite Frames.getitem_setitem_other by exact N.
    rewrite (loop_same cols df c Hc).
    pose proof (length_source df c W) as L. rewrite Z in L.
    now destruct (source df c).
Qed.

Lemma load_files_none (fs : filesystem) (files : list string) :
  (forall f, In f files -> fs f = None) -> load_files fs files = empty_frame.
Proof.
  intros H. unfold load_files.
  assert (E : flat_map (fun f => match fs f with
                                 | Some df => [df]
                                 | None => []
                                 end) files = []).
  { induction files as [|f r IH]; simpl; [reflexivity|].
    rewrite (H f) by now left. simpl. apply IH. intros g Hg. apply H.
    now right. }
  now rewrite E.
Qed.

(** The grouping raises [KeyError] on a frame without the first key
    column, whatever its rows. *)
Lemma groupby_sum_without_date (df : DataFrame) (metric : string) :
  contains df "date" = false ->
  groupby_sum df key metric = Raise (KeyError "date").
Proof.
  intros H. unfold groupby_sum, key.
  now rewrite (Rows.missing_label_first df "date" _ H).
Qed.

(** C3, where the code departs from the spec: when none of the files
    exists, the three loaders return empty tables and the combined branch
    raises [KeyError] in its first [groupby], before the empty check is
    reached; each single-category branch reaches the check and stops on
    "No data loaded". *)
Theorem combined_page_raises_without_files
        (fs : filesystem) (start stop : Z) :
  (forall f, In f (ENROLMENT_FILES ++ DEMOGRAPHIC_FILES ++ BIOMETRIC_FILES) ->
             fs f = None) ->
  page fs Combined start stop = Raise (KeyError "date")
  /\ page fs Enrolment start stop = Ok NoData
  /\ page fs Demographic start stop = Ok NoData
  /\ page fs Biometric start stop = Ok NoData.
Proof.
  intros H.
  assert (E1 : load_files fs ENROLMENT_FILES = empty_frame).
  { apply load_files_none. intros f Hf. apply H. apply in_or_app. now left. }
  assert (E2 : load_files fs DEMOGRAPHIC_FILES = empty_frame).
  { apply load_files_none. intros f Hf. apply H.
    apply in_or_app. right. apply in_or_app. now left. }
  assert (E3 : load_files fs BIOMETRIC_FILES = empty_frame).
  { apply load_files_none. intros f Hf. apply H.
    apply in_or_app. right. apply in_or_app. now right. }
  unfold page, load_data. rewrite E1, E2, E3.
  repeat split; reflexivity.
Qed.

(** C8, where the code departs from the spec: [normalize] and [add_total]
    take the empty table of the loader and return an empty table, the
    second with its columns materialised; the aggregation of three such
    tables raises [KeyError], since they have no key column. *)
Theorem empty_tables_stop_at_the_aggregation :
  let enr := add_total (normalize empty_frame)
                       ["age_0_5"; "age_5_17"; "age_18_greater"] "enrol" in
  let dem := add_total (normalize empty_frame)
                       ["demo_age_5_17"; "demo_age_17_"] "demo" in
  let bio := add_total (normalize empty_frame)
                       ["bio_age_5_17"; "bio_age_17_"] "bio" in
  normalize empty_frame = empty_frame
  /\ enr = mkFrame 0 [("age_0_5", []); ("age_5_17", []);
                      ("age_18_greater", []); ("enrol", [])]
  /\ dem = mkFrame 0 [("demo_age_5_17", []); ("demo_age_17_", []);
                      ("demo", [])]
  /\ bio = mkFrame 0 [("bio_age_5_17", []); ("bio_age_17_", []); ("bio", [])]
  /\ combined enr dem bio = Raise (KeyError "date").
Proof. repeat split; reflexivity. Qed.

End EmptyTables.

(** No file on disk. *)
Lemma combined_page_witness :
  page Demo.no_files Combined 0 0 = Raise (KeyError "date")
  /\ page Demo.no_files Enrolment 0 0 = Ok NoData
  /\ page Demo.no_files Demographic 0 0 = Ok NoData
  /\ page Demo.no_files Biometric 0 0 = Ok NoData.
Proof.
  apply (combined_page_raises_without_files Demo.no_files 0 0).
  intros f _. reflexivity.
Defined.

(* ================================================================== *)
(** * The scenarios of the spec *)
(* ================================================================== *)

(** Scenario A: one enrolment row with pin code "110001.0". *)
Example scenario_A :
  let out := add_total (normalize Demo.enrolment_raw)
                       ["age_0_5"; "age_5_17"; "age_18_greater"] "total" in
  index out = 1
  /\ at_ out "pincode" 0 = Str "110001"
  /\ at_ out "month" 0 = Str "2024-01"
  /\ at_ out "total" 0 = Int 10.
Proof. repeat split; vm_compute; reflexivity. Qed.

(** Scenario C: the dates 2024-01-01, 2024-02-15 and 2024-03-01 filtered to
    the range from 2024-01-01 to 2024-02-28: the first two rows are kept. *)
Example scenario_C :
  kept_rows (mkFrame 3 [("date", [Date (Demo.midnight 2024 1 1);
                                  Date (Demo.midnight 2024 2 15);
                                  Date (Demo.midnight 2024 3 1)])])
            (Calendar.days_from_civil 2024 1 1)
            (Calendar.days_from_civil 2024 2 28)
  = [0; 1].
Proof. vm_compute. reflexivity. Qed.

(* ================================================================== *)
(** * Further facts on lists *)
(* ================================================================== *)

Module ListFacts.

Lemma filter_filter {A : Type} (f g : A -> bool) (l : list A) :
  filter f (filter g l) = filter (fun x => f x && g x) l.
Proof.
  induction l as [|x l IH]; simpl; [reflexivity|].
  destruct (g x); simpl; [destruct (f x); now rewrite IH | now rewrite andb_false_r].
Qed.

End ListFacts.

(* ================================================================== *)
(** * The labels after the cleaning *)
(* ================================================================== *)

Module LabelFacts.
Import Text.

Lemma chars_map_chars (f : ascii -> ascii) (s : string) :
  list_ascii_of_string (map_chars f s) = map f (list_ascii_of_string s).
Proof. induction s as [|c s IH]; simpl; [reflexivity | now rewrite IH]. Qed.

Lemma label_char_clean (c : ascii) :
  label_char c <> " "%char /\ label_char c <> "-"%char
  /\ lower_char (label_char c) = label_char c.
Proof.
  destruct c as [b0 b1 b2 b3 b4 b5 b6 b7].
  destruct b0, b1, b2, b3, b4, b5, b6, b7; vm_compute;
    (split; [discriminate | split; [discriminate | reflexivity]]).
Qed.

End LabelFacts.

Section Labels.
Context {lib : Pandas}.

(** X1: a cleaned label holds no space, no hyphen and no upper-case ASCII
    letter, has no white space at either end, and cleaning it again
    changes nothing. *)
Theorem clean_label_is_canonical (c : string) :
  Forall (fun ch => ch <> " "%char /\ ch <> "-"%char
                    /\ Text.lower_char ch = ch)
         (list_ascii_of_string (clean_label c))
  /\ Text.strip (clean_label c) = clean_label c
  /\ clean_label (clean_label c) = clean_label c.
Proof.
  split; [|split].
  - rewrite clean_label_chars, LabelFacts.chars_map_chars.
    apply Forall_forall. intros ch H. apply in_map_iff in H as [x [<- _]].
    apply LabelFacts.label_char_clean.
  - rewrite clean_label_chars. apply TextFacts.strip_fixed.
    + apply TextFacts.map_chars_head_ok, TextFacts.strip_head_ok.
    + apply TextFacts.map_chars_rstrip, TextFacts.strip_rstrip.
  - apply clean_label_idem.
Qed.

End Labels.

(* ================================================================== *)
(** * The shape of a normalised frame *)
(* ================================================================== *)

Section Shape.
Context {lib : Pandas}.
Import Frames.

Lemma contains_setitem_other (df : DataFrame) (c c' : string) (s : Series) :
  c <> c' -> contains (setitem df c s) c' = contains df c'.
Proof. intros N. unfold contains. now rewrite getitem_setitem_other. Qed.

Lemma columns_parse_dates_exact (df : DataFrame) :
  columns (parse_dates df)
  = columns df ++ (if contains df "date" && negb (contains df "month")
                   then ["month"] else []).
Proof.
  unfold parse_dates. destruct (contains df "date") eqn:D; simpl.
  - rewrite columns_setitem, contains_setitem_other by discriminate.
    rewrite columns_setitem, D.
    destruct (contains df "month"); simpl; [now rewrite app_nil_r | reflexivity].
  - now rewrite app_nil_r.
Qed.

(** X2: on a frame whose cleaned labels are different, [normalize] keeps
    the number of rows.  An empty frame keeps its labels as they are; any
    other frame has its labels cleaned, in the same order, and gets one
    more column, "month", last, when it has a "date" column and no "month"
    column. *)
Theorem normalize_keeps_rows_and_labels (df : DataFrame) :
  wf (renamed df) ->
  index (normalize df) = index df
  /\ columns (normalize df)
     = if empty df then columns df
       else map clean_label (columns df)
            ++ (if contains (renamed df) "date"
                   && negb (contains (renamed df) "month")
                then ["month"] else []).
Proof.
  intros _. split; [apply index_normalize|].
  destruct (empty df) eqn:E.
  - now rewrite normalize_empty.
  - rewrite (normalize_steps df E).
    unfold after_district, after_state, after_dates.
    rewrite !columns_update_col, columns_parse_dates_exact.
    now rewrite columns_renamed.
Qed.

Lemma lookup_renamed (f : string -> string) (d : list (string * Series))
      (c : string) :
  NoDup (map f (map fst d)) -> In c (map fst d) ->
  lookup (f c) (map (fun cs => (f (fst cs), snd cs)) d) = lookup c d.
Proof.
  induction d as [|[c' s] d IH]; simpl; intros N H; [destruct H|].
  inversion N as [|? ? N1 N2]; subst.
  destruct (String.eqb_spec c' c) as [->|Ne].
  - now rewrite String.eqb_refl.
  - destruct H as [H|H]; [congruence|].
    destruct (String.eqb_spec (f c') (f c)) as [E|_]; [|now apply IH].
    elim N1. rewrite E. now apply in_map.
Qed.

(** X3: in a frame that is not empty and whose cleaned labels are
    different, a column whose cleaned label is none of "date", "month",
    "state", "district" and "pincode" is found under its cleaned label with
    the cells it had. *)
Theorem normalize_leaves_other_columns (df : DataFrame) (c : string) :
  empty df = false ->
  wf (renamed df) ->
  In c (columns df) ->
  ~ In (clean_label c) ["date"; "month"; "state"; "district"; "pincode"] ->
  getitem (normalize df) (clean_label c) = getitem df c.
Proof.
  intros E [N _] H X. rewrite (normalize_steps df E).
  unfold after_district, after_state, after_dates.
  simpl in X.
  rewrite !getitem_update_col_other by intuition.
  rewrite getitem_parse_dates_other by intuition.
  unfold renamed, set_columns, getitem. simpl.
  apply lookup_renamed; [|exact H].
  rewrite columns_renamed in N. exact N.
Qed.

(** X4: a cell of "state" or of "district" that is not missing and is
    printed in ASCII becomes a text with no white space at either end: the
    cell printed and stripped. *)
Theorem normalize_strips_state_and_district
        (df : DataFrame) (c : string) (i : nat) :
  wf (renamed df) ->
  In c ["state"; "district"] ->
  contains (renamed df) c = true ->
  i < index df ->
  at_ (renamed df) c i <> NA ->
  is_ascii (astype_str (at_ (renamed df) c i)) = true ->
  let text := Text.strip (astype_str (at_ (renamed df) c i)) in
  at_ (normalize df) c i = Str text
  /\ Text.strip text = text.
Proof.
  intros W Hc C Hi _ _ text.
  destruct (row_of_column df c i W C Hi) as [E L].
  split.
  - assert (G : getitem (normalize df) c
                = option_map strip_text (getitem (renamed df) c)).
    { destruct Hc as [<-|[<-|[]]];
        [now apply normalized_state | now apply normalized_district]. }
    unfold text, at_, col in *. rewrite G.
    destruct (getitem (renamed df) c) as [s|]; simpl in *; [|lia].
    unfold strip_text.
    now rewrite (Lists.nth_map_default _ s NA NA i L).
  - apply TextFacts.strip_idem.
Qed.

End Shape.

(** The row of [Demo.enrolment_raw]: four labels are cleaned and the month
    comes last. *)
Lemma normalize_shape_witness :
  index (normalize Demo.enrolment_raw) = 1
  /\ columns (normalize Demo.enrolment_raw)
     = ["date"; "state"; "district"; "pincode"; "age_0_5"; "age_5_17";
        "age_18_greater"; "month"].
Proof.
  assert (W : wf (renamed Demo.enrolment_raw)) by by_evaluation.
  destruct (normalize_keeps_rows_and_labels Demo.enrolment_raw W) as [I C].
  split; [rewrite I | rewrite C]; reflexivity.
Defined.

(** A count column labelled " Age 0-5 " is found under "age_0_5". *)
Lemma normalize_leaves_other_columns_witness :
  clean_label " Age 0-5 " = "age_0_5"
  /\ getitem (normalize Demo.labelled_raw) (clean_label " Age 0-5 ")
     = getitem Demo.labelled_raw " Age 0-5 ".
Proof.
  assert (W : wf (renamed Demo.labelled_raw)) by by_evaluation.
  split; [reflexivity|].
  apply (normalize_leaves_other_columns Demo.labelled_raw " Age 0-5 ");
    [reflexivity | exact W | simpl; auto | vm_compute; intuition discriminate].
Defined.

(** The state " X " of [Demo.enrolment_raw] becomes "X". *)
Lemma normalize_strips_state_witness :
  at_ (normalize Demo.enrolment_raw) "state" 0 = Str "X".
Proof.
  assert (W : wf (renamed Demo.enrolment_raw)) by by_evaluation.
  assert (I : In "state" ["state"; "district"]) by (simpl; auto).
  assert (C : contains (renamed Demo.enrolment_raw) "state" = true)
    by reflexivity.
  assert (L : 0 < index Demo.enrolment_raw) by (simpl; lia).
  assert (N : at_ (renamed Demo.enrolment_raw) "state" 0 <> NA)
    by (vm_compute; discriminate).
  assert (A : is_ascii (astype_str (at_ (renamed Demo.enrolment_raw) "state" 0))
              = true) by (vm_compute; reflexivity).
  pose proof (normalize_strips_state_and_district Demo.enrolment_raw "state" 0
                W I C L N A) as H.
  cbv zeta in H. destruct H as (H & _).
  rewrite H. vm_compute. reflexivity.
Defined.

Section NormaliserObjects.
Context {lib : Pandas}.

(** X5: called on a frame whose cleaned labels are different, [normalize]
    changes no frame of its caller.  Its result has the value [normalize]
    computes; it is the argument itself when the argument is empty, and a
    new object otherwise. *)
Theorem normalize_leaves_its_argument (h : heap) (l : loc) :
  wf (renamed (deref h l)) ->
  let res := normalize_obj l h in
  (forall l0, l0 < List.length h -> deref (snd res) l0 = deref h l0)
  /\ deref (snd res) (fst res) = normalize (deref h l)
  /\ (if empty (deref h l) then fst res = l /\ snd res = h
      else fst res = List.length h).
Proof.
  intros _ res. unfold res. rewrite normalize_obj_run.
  destruct (empty (deref h l)) eqn:E; simpl.
  - split; [reflexivity|]. split; [|now split].
    now rewrite normalize_empty.
  - split; [|split; [apply Heap.deref_last | reflexivity]].
    intros l0 H0. now apply Heap.deref_old.
Qed.

End NormaliserObjects.

(** [Demo.enrolment_raw] is copied; the empty frame is handed back. *)
Lemma normalize_leaves_its_argument_witness :
  let h := [Demo.enrolment_raw; empty_frame] in
  deref (snd (normalize_obj 0 h)) 0 = Demo.enrolment_raw
  /\ fst (normalize_obj 0 h) = 2
  /\ normalize_obj 1 h = (1, h).
Proof.
  intros h.
  assert (W0 : wf (renamed (deref h 0))) by by_evaluation.
  assert (W1 : wf (renamed (deref h 1))) by by_evaluation.
  pose proof (normalize_leaves_its_argument h 0 W0) as H0.
  pose proof (normalize_leaves_its_argument h 1 W1) as H1.
  cbv zeta in H0, H1.
  destruct H0 as (A0 & _ & C0). destruct H1 as (_ & _ & C1).
  split; [apply A0; simpl; lia|].
  split; [exact C0|].
  change (empty (deref h 1)) with true in C1. destruct C1 as [E1 E2].
  rewrite (surjective_pairing (normalize_obj 1 h)). now rewrite E1, E2.
Defined.

(* ================================================================== *)
(** * Laws of the totaliser *)
(* ================================================================== *)

Section TotaliserLaws.
Context {lib : Pandas}.
Import Frames.

Lemma step_fixed (df : DataFrame) (c : string) (s : Series) :
  getitem df c = Some s -> map coerce s = s -> add_total_step df c = df.
Proof.
  intros G F. unfold add_total_step.
  assert (C : contains df c = true) by (unfold contains; now rewrite G).
  rewrite C. cbv zeta. unfold col. rewrite G, coerce_series, F.
  now apply setitem_fixed.
Qed.

Lemma loop_fixed (cols : list string) (df : DataFrame) :
  (forall c, In c cols ->
             exists s, getitem df c = Some s /\ map coerce s = s) ->
  fold_left add_total_step cols df = df.
Proof.
  induction cols as [|c cols IH]; simpl; intros H; [reflexivity|].
  destruct (H c (or_introl eq_refl)) as [s [G F]].
  rewrite (step_fixed df c s G F). apply IH. intros c' Hc'. apply H. now right.
Qed.

Lemma row_sums_ext (df df' : DataFrame) (cols : list string) :
  index df = index df' ->
  (forall c, In c cols -> getitem df c = getitem df' c) ->
  row_sums df cols = row_sums df' cols.
Proof.
  intros I H. unfold row_sums. rewrite I. apply map_ext. intros i. f_equal.
  apply map_ext_in. intros c Hc. unfold at_, col. now rewrite (H c Hc).
Qed.

(** X6: on a well-formed frame, totalising twice is totalising once,
    when the name of the total is none of the summed columns. *)
Theorem add_total_idempotent (df : DataFrame) (cols : list string)
        (name : string) :
  wf df ->
  ~ In name cols ->
  add_total (add_total df cols name) cols name = add_total df cols name.
Proof.
  intros _ N. unfold add_total at 1.
  assert (F : fold_left add_total_step cols (add_total df cols name)
              = add_total df cols name).
  { apply loop_fixed. intros c Hc.
    exists (map coerce (source df c)). split.
    - unfold add_total, set_total.
      rewrite getitem_setitem_other by (intros ->; contradiction).
      now apply loop_same.
    - rewrite map_map. apply map_ext. intros x. apply coerce_idem. }
  rewrite F. unfold add_total, set_total.
  apply setitem_fixed. rewrite getitem_setitem_same. do 2 f_equal.
  apply row_sums_ext; [reflexivity|].
  intros c Hc. symmetry. apply getitem_setitem_other. intros ->. contradiction.
Qed.

End TotaliserLaws.

(** The table of [Demo.messy_raw], totalised twice. *)
Lemma add_total_idempotent_witness :
  add_total (add_total Demo.messy_raw ["age_0_5"; "age_5_17"] "total")
            ["age_0_5"; "age_5_17"] "total"
  = add_total Demo.messy_raw ["age_0_5"; "age_5_17"] "total".
Proof.
  assert (W : wf Demo.messy_raw) by by_evaluation.
  apply (add_total_idempotent Demo.messy_raw ["age_0_5"; "age_5_17"] "total" W).
  simpl. intuition discriminate.
Defined.

Section TotaliserColumns.
Context {lib : Pandas}.
Import Frames.

Lemma contains_step (df : DataFrame) (c x : string) :
  contains (add_total_step df c) x = contains df x || String.eqb c x.
Proof.
  unfold contains at 1. destruct (String.eqb_spec c x) as [<-|N].
  - rewrite step_same. now rewrite orb_true_r.
  - rewrite step_other by exact N. fold (contains df x). now rewrite orb_false_r.
Qed.

Lemma contains_loop (cols : list string) (df : DataFrame) (x : string) :
  contains (fold_left add_total_step cols df) x
  = contains df x || existsb (fun c => String.eqb c x) cols.
Proof.
  revert df. induction cols as [|c cols IH]; simpl; intros df.
  - now rewrite orb_false_r.
  - now rewrite IH, contains_step, orb_assoc.
Qed.

Lemma columns_step (df : DataFrame) (c : string) :
  columns (add_total_step df c)
  = if contains df c then columns df else columns df ++ [c].
Proof.
  unfold add_total_step. destruct (contains df c) eqn:C; cbv zeta.
  - now rewrite columns_setitem, C.
  - unfold setitem_scalar. rewrite columns_setitem.
    unfold contains at 1. rewrite getitem_setitem_same.
    now rewrite columns_setitem, C.
Qed.

Lemma columns_loop (cols : list string) (df : DataFrame) :
  columns (fold_left add_total_step cols df)
  = columns df
    ++ filter (fun c => negb (contains df c)) (distinct String.eqb cols).
Proof.
  revert df. induction cols as [|c cols IH]; simpl; intros df.
  - now rewrite app_nil_r.
  - rewrite IH, columns_step. destruct (contains df c) eqn:C; simpl.
    + f_equal. rewrite ListFacts.filter_filter. apply filter_ext. intros x.
      rewrite contains_step. destruct (String.eqb_spec c x) as [<-|N]; simpl.
      * now rewrite C.
      * now rewrite orb_false_r, andb_true_r.
    + rewrite <- app_assoc. simpl. do 2 f_equal.
      rewrite ListFacts.filter_filter. apply filter_ext. intros x.
      rewrite contains_step. now rewrite negb_orb.
Qed.

(** X7: [add_total] keeps the columns of a well-formed frame in their
    place, then come the expected columns that the frame lacked, each once
    and in the order of [cols], then the total, unless a column of the
    frame or an expected column has its name. *)
Theorem add_total_appends_missing_columns
        (df : DataFrame) (cols : list string) (name : string) :
  wf df ->
  columns (add_total df cols name)
  = columns df
    ++ filter (fun c => negb (contains df c)) (distinct String.eqb cols)
    ++ (if contains df name || existsb (fun c => String.eqb c name) cols
        then [] else [name]).
Proof.
  intros _. unfold add_total, set_total.
  rewrite columns_setitem, contains_loop, columns_loop.
  destruct (contains df name || existsb (fun c => String.eqb c name) cols).
  - now rewrite app_nil_r.
  - now rewrite app_assoc.
Qed.

End TotaliserColumns.

(** [Demo.messy_raw] lacks the third count column: it comes after the six
    columns of the table, and the total last. *)
Lemma add_total_columns_witness :
  columns (add_total Demo.messy_raw
                     ["age_0_5"; "age_5_17"; "age_18_greater"] "total")
  = ["date"; "state"; "district"; "pincode"; "age_0_5"; "age_5_17";
     "age_18_greater"; "total"].
Proof.
  assert (W : wf Demo.messy_raw) by by_evaluation.
  rewrite (add_total_appends_missing_columns
             Demo.messy_raw ["age_0_5"; "age_5_17"; "age_18_greater"]
             "total" W).
  reflexivity.
Defined.

(* ================================================================== *)
(** * The loader *)
(* ================================================================== *)

Module Loading.
Import Frames.

Lemma lookup_tabulate (g : string -> Series) (labels : list string) (c : string) :
  lookup c (map (fun x => (x, g x)) labels)
  = if in_dec string_dec c labels then Some (g c) else None.
Proof.
  induction labels as [|x labels IH]; simpl; [reflexivity|].
  destruct (String.eqb_spec x c) as [->|N].
  - destruct (string_dec c c); [reflexivity | congruence].
  - rewrite IH. destruct (string_dec x c); [congruence|].
    destruct (in_dec string_dec c labels); reflexivity.
Qed.

Lemma column_or_na_cells (c : string) (df : DataFrame) :
  wf df -> column_or_na c df = cells c df.
Proof.
  intros W. unfold column_or_na, cells, at_, col.
  destruct (getitem df c) as [s|] eqn:G.
  - rewrite <- (wf_column_length df c s W G).
    pose proof (Lists.map_seq_nth (fun x : cell => x) s NA) as M.
    rewrite map_id in M. now rewrite M.
  - induction (index df) as [|n IH]; [reflexivity|].
    rewrite seq_S, map_app, <- IH. simpl.
    clear. induction n; simpl; [reflexivity | now f_equal; destruct n].
Qed.

Lemma flat_map_ext_in {A B : Type} (f g : A -> list B) (l : list A) :
  (forall x, In x l -> f x = g x) -> flat_map f l = flat_map g l.
Proof.
  induction l as [|x l IH]; simpl; intros H; [reflexivity|].
  rewrite (H x (or_introl eq_refl)), IH; [reflexivity|].
  intros y Hy. apply H. now right.
Qed.

Lemma length_cells (c : string) (df : DataFrame) :
  List.length (cells c df) = index df.
Proof. unfold cells. now rewrite length_map, length_seq. Qed.

Lemma length_stacked (c : string) (dfs : list DataFrame) :
  List.length (flat_map (cells c) dfs) = list_sum (map index dfs).
Proof.
  induction dfs as [|d dfs IH]; simpl; [reflexivity|].
  now rewrite length_app, length_cells, IH.
Qed.

Lemma cells_absent (c : string) (df : DataFrame) (x : cell) :
  contains df c = false -> In x (cells c df) -> x = NA.
Proof.
  unfold contains, cells, at_, col. destruct (getitem df c); [discriminate|].
  intros _ H. apply in_map_iff in H as [i [<- _]]. now destruct i.
Qed.

Lemma nth_all_na (l : Series) (i : nat) :
  (forall x, In x l -> x = NA) -> nth i l NA = NA.
Proof.
  intros H. destruct (Nat.lt_ge_cases i (List.length l)) as [L|L].
  - apply H. now apply nth_In.
  - now apply nth_overflow.
Qed.

Lemma at_concat (dfs : list DataFrame) (c : string) (i : nat) :
  Forall wf dfs ->
  at_ (concat dfs) c i = nth i (flat_map (cells c) dfs) NA.
Proof.
  intros W. unfold at_ at 1, col, getitem, concat. cbn [data].
  rewrite lookup_tabulate.
  destruct (in_dec string_dec c (distinct String.eqb (flat_map columns dfs)))
    as [I|I].
  - f_equal. apply flat_map_ext_in. intros d Hd.
    apply column_or_na_cells. rewrite Forall_forall in W. now apply W.
  - symmetry. rewrite nth_all_na; [now destruct i|].
    intros x Hx. apply in_flat_map in Hx as [d [Hd Hx]].
    apply (cells_absent c d); [|exact Hx].
    destruct (contains d c) eqn:C; [|reflexivity].
    elim I. apply Lists.distinct_in; [apply String.eqb_eq|].
    apply in_flat_map. exists d. split; [exact Hd|].
    now apply contains_in.
Qed.

Lemma rows_of_ext (df : DataFrame) (n : nat) (g : string -> nat -> cell)
      (labels : list string) :
  index df = n -> (forall c i, at_ df c i = g c i) ->
  rows_of df labels = map (fun i => map (fun c => g c i) labels) (seq 0 n).
Proof.
  intros <- H. unfold rows_of. apply map_ext. intros i.
  apply map_ext. intros c. apply H.
Qed.

Lemma seq_from (a n : nat) : seq a n = map (fun i => i + a) (seq 0 n).
Proof.
  revert a. induction n as [|n IH]; intros a; simpl; [reflexivity|].
  f_equal. rewrite <- (seq_shift n 0), map_map, (IH (S a)).
  apply map_ext. intros i. lia.
Qed.

Lemma rows_of_stacked (dfs : list DataFrame) (labels : list string) :
  map (fun i => map (fun c => nth i (flat_map (cells c) dfs) NA) labels)
      (seq 0 (list_sum (map index dfs)))
  = flat_map (fun df => rows_of df labels) dfs.
Proof.
  induction dfs as [|d dfs IH]; simpl; [reflexivity|].
  rewrite seq_app, map_app. apply (f_equal2 (@app row)).
  - unfold rows_of. apply map_ext_in. intros i Hi. apply in_seq in Hi.
    apply map_ext. intros c.
    rewrite app_nth1 by (rewrite length_cells; lia).
    unfold cells.
    rewrite (Lists.nth_map_default _ (seq 0 (index d)) 0 NA i)
      by (rewrite length_seq; lia).
    rewrite seq_nth by lia. reflexivity.
  - rewrite <- IH. simpl.
    rewrite (seq_from (index d)), map_map.
    apply map_ext. intros i. apply map_ext. intros c.
    rewrite app_nth2 by (rewrite length_cells; lia).
    rewrite length_cells. f_equal. lia.
Qed.

Lemma wf_concat (dfs : list DataFrame) : Forall wf dfs -> wf (concat dfs).
Proof.
  intros W. split.
  - unfold concat, columns. cbn [data]. rewrite map_map. simpl. rewrite map_id.
    apply Lists.distinct_NoDup. apply String.eqb_eq.
  - unfold concat. cbn [data index]. apply Forall_forall.
    intros [c s] H. apply in_map_iff in H as [x [E _]].
    inversion E; subst. simpl.
    rewrite (flat_map_ext_in (column_or_na c) (cells c)).
    + apply length_stacked.
    + intros d Hd. apply column_or_na_cells.
      rewrite Forall_forall in W. now apply W.
Qed.

End Loading.

(** X8: the loaded table stacks the files that exist, in the order of
    the list, and skips the others: its rows are the rows of those files
    one after the other, a column that a file lacks being filled with
    missing values; its labels are those of the files, each once, in the
    order of first appearance; it is well formed. *)
Theorem load_files_stacks_the_existing_files
        (fs : filesystem) (files labels : list string) :
  Forall wf (existing fs files) ->
  let df := load_files fs files in
  wf df
  /\ index df = list_sum (map index (existing fs files))
  /\ columns df = distinct String.eqb (flat_map columns (existing fs files))
  /\ rows_of df labels
     = flat_map (fun d => rows_of d labels) (existing fs files).
Proof.
  intros W df. unfold df, load_files. fold (existing fs files).
  destruct (existing fs files) as [|d ds] eqn:E.
  - repeat split; constructor.
  - rewrite <- E in *. clear E d ds.
    split; [now apply Loading.wf_concat|]. split; [reflexivity|].
    split.
    + unfold concat, columns. cbn [data]. rewrite map_map. simpl.
      now rewrite map_id.
    + rewrite <- Loading.rows_of_stacked.
      apply Loading.rows_of_ext; [reflexivity|].
      intros c i. now apply Loading.at_concat.
Qed.

(** Two of the three enrolment files exist; the second has one row and
    the column "pincode" only. *)
Lemma load_files_witness :
  let df := load_files Demo.two_files ENROLMENT_FILES in
  wf df
  /\ index df = 4
  /\ columns df = ["date"; "state"; "district"; "pincode"; "age_0_5";
                   "age_5_17"; "age_18_greater"]
  /\ rows_of df ["state"; "pincode"]
     = [[Str "X"; Int 110001]; [Str "X"; Int 110001]; [Str "Y"; Int 560001];
        [NA; Str "110..001"]].
Proof.
  assert (W : Forall wf (existing Demo.two_files ENROLMENT_FILES)).
  { vm_compute. repeat constructor; simpl; intuition discriminate. }
  pose proof (load_files_stacks_the_existing_files
                Demo.two_files ENROLMENT_FILES ["state"; "pincode"] W) as H.
  cbv zeta in H. destruct H as (H1 & H2 & H3 & H4).
  cbv zeta. split; [exact H1|]. split; [rewrite H2; reflexivity|].
  split; [rewrite H3; reflexivity | rewrite H4; reflexivity].
Defined.

Module OneFile.

Lemma distinct_fixed (l : list string) :
  NoDup l -> distinct String.eqb l = l.
Proof.
  induction l as [|x l IH]; simpl; intros N; [reflexivity|].
  inversion N as [|? ? N1 N2]; subst. rewrite (IH N2). f_equal.
  clear IH N N2. induction l as [|y l IH]; simpl; [reflexivity|].
  destruct (String.eqb_spec x y) as [->|_]; simpl.
  - elim N1. now left.
  - f_equal. apply IH. intros H. apply N1. now right.
Qed.

Lemma lookup_of_in (d : list (string * Series)) (c : string) (s : Series) :
  NoDup (map fst d) -> In (c, s) d -> lookup c d = Some s.
Proof.
  induction d as [|[c' s'] d IH]; simpl; intros N H; [destruct H|].
  inversion N as [|? ? N1 N2]; subst.
  destruct H as [H|H].
  - inversion H; subst. now rewrite String.eqb_refl.
  - destruct (String.eqb_spec c' c) as [->|_]; [|now apply IH].
    elim N1. apply in_map_iff. now exists (c, s).
Qed.

Lemma concat_one (df : DataFrame) : wf df -> concat [df] = df.
Proof.
  destruct df as [n d]. intros [N _]. unfold concat, columns in *.
  simpl in *. rewrite Nat.add_0_r, app_nil_r, (distinct_fixed _ N). f_equal.
  rewrite map_map. rewrite <- (map_id d) at 2.
  apply map_ext_in. intros [c s] H. simpl. rewrite app_nil_r.
  unfold column_or_na, getitem. simpl.
  now rewrite (lookup_of_in d c s N H).
Qed.

End OneFile.

(** X9: when one file of the list exists, the loaded table is the table
    of that file, as it is. *)
Theorem load_files_of_one_file
        (fs : filesystem) (files : list string) (df : DataFrame) :
  existing fs files = [df] -> wf df -> load_files fs files = df.
Proof.
  intros E W. unfold load_files. fold (existing fs files). rewrite E.
  now apply OneFile.concat_one.
Qed.

(** The one enrolment file of [Demo.all_files]. *)
Lemma load_files_of_one_file_witness :
  load_files Demo.all_files ENROLMENT_FILES = Demo.enrolment_rows.
Proof.
  assert (W : wf Demo.enrolment_rows) by by_evaluation.
  apply (load_files_of_one_file Demo.all_files ENROLMENT_FILES
           Demo.enrolment_rows); [reflexivity | exact W].
Defined.

(* ================================================================== *)
(** * The date filter and the data tab *)
(* ================================================================== *)

Module Filtering.
Import Frames.

Lemma lookup_map_values (g : Series -> Series) (d : list (string * Series))
      (c : string) :
  lookup c (map (fun cs => (fst cs, g (snd cs))) d) = option_map g (lookup c d).
Proof.
  induction d as [|[x s] d IH]; simpl; [reflexivity|].
  destruct (String.eqb x c); [reflexivity | exact IH].
Qed.

Lemma contains_take_rows (df : DataFrame) (rows : list nat) (c : string) :
  contains (take_rows df rows) c = contains df c.
Proof.
  unfold contains, getitem, take_rows. cbn [data].
  rewrite (lookup_map_values (fun s => map (fun i => nth i s NA) rows)). now destruct (lookup c (data df)).
Qed.

Lemma columns_take_rows (df : DataFrame) (rows : list nat) :
  columns (take_rows df rows) = columns df.
Proof. unfold columns, take_rows. cbn [data]. now rewrite map_map. Qed.

Lemma at_take_rows (df : DataFrame) (rows : list nat) (c : string) (j : nat) :
  j < List.length rows ->
  at_ (take_rows df rows) c j = at_ df c (nth j rows 0).
Proof.
  intros L. unfold at_, col, getitem, take_rows. cbn [data].
  rewrite (lookup_map_values (fun s => map (fun i => nth i s NA) rows)). destruct (lookup c (data df)) as [s|]; simpl.
  - now rewrite (Lists.nth_map_default _ rows 0 NA j L).
  - destruct j; now destruct (nth _ rows 0).
Qed.

Lemma rows_of_take_rows (df : DataFrame) (rows : list nat)
      (labels : list string) :
  rows_of (take_rows df rows) labels
  = map (fun i => map (fun c => at_ df c i) labels) rows.
Proof.
  unfold rows_of. cbn [index take_rows].
  rewrite <- (Lists.map_seq_nth
                (fun i => map (fun c => at_ df c i) labels) rows 0).
  apply map_ext_in. intros j Hj. apply in_seq in Hj.
  apply map_ext. intros c. apply at_take_rows. lia.
Qed.

Lemma wf_take_rows (df : DataFrame) (rows : list nat) :
  wf df -> wf (take_rows df rows).
Proof.
  intros [N _]. split; [now rewrite columns_take_rows|].
  unfold take_rows. cbn [data index]. apply Forall_forall.
  intros cs H. apply in_map_iff in H as [x [<- _]]. simpl.
  now rewrite length_map.
Qed.

Lemma take_all_rows (df : DataFrame) :
  wf df -> take_rows df (seq 0 (index df)) = df.
Proof.
  destruct df as [n d]. intros [_ W]. unfold take_rows. cbn [index data] in *.
  rewrite length_seq. f_equal.
  induction d as [|[c s] d IH]; simpl; [reflexivity|].
  inversion W as [|x l W1 W2 E]. simpl in W1. rewrite IH by exact W2.
  rewrite <- W1.
  pose proof (Lists.map_seq_nth (fun x : cell => x) s NA) as M.
  rewrite map_id in M. now rewrite M.
Qed.

Lemma in_range_both (a b a' b' : Z) (c : cell) :
  in_range a' b' c && in_range a b c
  = in_range (Z.max a a') (Z.min b b') c.
Proof.
  destruct c; try reflexivity. unfold in_range.
  repeat match goal with
         | |- context [(?x <=? ?y)%Z] => destruct (Z.leb_spec x y)
         end; simpl; try reflexivity; lia.
Qed.

Lemma filter_positions {A : Type} (p : A -> bool) (l : list A) (d : A) :
  map (fun j => nth j l d)
      (filter (fun j => p (nth j l d)) (seq 0 (List.length l)))
  = filter p l.
Proof.
  rewrite <- (Grouping.filter_map_comm p (fun j => nth j l d)).
  f_equal. pose proof (Lists.map_seq_nth (fun x : A => x) l d) as M.
  now rewrite map_id in M.
Qed.

Lemma take_rows_twice (df : DataFrame) (r1 r2 : list nat) :
  Forall (fun j => j < List.length r1) r2 ->
  take_rows (take_rows df r1) r2
  = take_rows df (map (fun j => nth j r1 0) r2).
Proof.
  intros B. unfold take_rows. cbn [data index]. rewrite length_map.
  f_equal. rewrite map_map. apply map_ext. intros [c s]. simpl. f_equal.
  rewrite map_map. apply map_ext_in. intros j Hj.
  rewrite Forall_forall in B.
  now rewrite (Lists.nth_map_default _ r1 0 NA j (B j Hj)).
Qed.

Lemma kept_rows_twice (df : DataFrame) (a b a' b' : Z) :
  map (fun j => nth j (kept_rows df a b) 0)
      (kept_rows (take_rows df (kept_rows df a b)) a' b')
  = kept_rows df (Z.max a a') (Z.min b b').
Proof.
  unfold kept_rows at 2. cbn [index take_rows].
  rewrite (filter_ext_in _
             (fun j => in_range a' b'
                         (at_ df "date" (nth j (kept_rows df a b) 0)))).
  2:{ intros j Hj. apply in_seq in Hj. f_equal. apply at_take_rows. lia. }
  rewrite (filter_positions (fun i => in_range a' b' (at_ df "date" i))).
  unfold kept_rows. rewrite ListFacts.filter_filter.
  apply filter_ext. intros i. apply in_range_both.
Qed.

End Filtering.

(** X10: on a frame whose "date" column is a datetime column (every
    cell is a timestamp or the missing one) the date filter raises nothing,
    keeps the labels and the invariant of the frame, and returns the rows
    whose date is in the range, in their order, and no other row; on a
    "date" column with a cell of another kind it raises
    [AttributeError]. *)
Theorem date_filter_keeps_the_rows_in_range
        (df : DataFrame) (start stop : Z) (labels : list string) :
  wf df ->
  contains df "date" = true ->
  if forallb is_date (col df "date") then
    exists out : DataFrame,
      Run.date_filter df start stop = Ok out
      /\ wf out
      /\ columns out = columns df
      /\ rows_of out ("date" :: labels)
         = filter (fun r => in_range start stop (hd NA r))
                  (rows_of df ("date" :: labels))
  else Run.date_filter df start stop = Raise AttributeError.
Proof.
  intros W C. unfold Run.date_filter. rewrite C.
  destruct (forallb is_date (col df "date")); [|reflexivity].
  exists (take_rows df (kept_rows df start stop)).
  split; [reflexivity|]. split; [now apply Filtering.wf_take_rows|].
  split; [apply Filtering.columns_take_rows|].
  rewrite Filtering.rows_of_take_rows. unfold rows_of, kept_rows.
  now rewrite Grouping.filter_map_comm.
Qed.

(** X11: on a well-formed frame, filtering the result of a filter is
    filtering once on the intersection of the two ranges; in particular
    filtering twice on the same range changes nothing more. *)
Theorem date_filter_twice_is_the_intersection
        (df out : DataFrame) (a b a' b' : Z) :
  wf df ->
  date_filter df a b = Ok out ->
  date_filter out a' b' = date_filter df (Z.max a a') (Z.min b b').
Proof.
  intros _. unfold date_filter.
  destruct (contains df "date") eqn:C; [|discriminate].
  intros E. inversion E; subst. clear E.
  rewrite Filtering.contains_take_rows, C. f_equal.
  rewrite Filtering.take_rows_twice.
  - now rewrite Filtering.kept_rows_twice.
  - apply Forall_forall. intros j Hj. unfold kept_rows in Hj at 1.
    apply filter_In in Hj as [Hj _]. apply in_seq in Hj.
    cbn [index take_rows] in Hj. lia.
Qed.

Module Bounds.

Lemma fold_min_le (r : list Z) (t x : Z) :
  In x (t :: r) -> (fold_left Z.min r t <= x)%Z.
Proof.
  revert t x. induction r as [|y r IH]; simpl; intros t x H.
  - destruct H as [<-|[]]. lia.
  - destruct H as [<-|[<-|H]].
    + specialize (IH (Z.min t y) (Z.min t y) (or_introl eq_refl)). lia.
    + specialize (IH (Z.min t y) (Z.min t y) (or_introl eq_refl)). lia.
    + apply IH. now right.
Qed.

Lemma fold_max_ge (r : list Z) (t x : Z) :
  In x (t :: r) -> (x <= fold_left Z.max r t)%Z.
Proof.
  revert t x. induction r as [|y r IH]; simpl; intros t x H.
  - destruct H as [<-|[]]. lia.
  - destruct H as [<-|[<-|H]].
    + specialize (IH (Z.max t y) (Z.max t y) (or_introl eq_refl)). lia.
    + specialize (IH (Z.max t y) (Z.max t y) (or_introl eq_refl)). lia.
    + apply IH. now right.
Qed.

Lemma day_of_mono (s t : Z) :
  (s <= t)%Z -> (Calendar.day_of s <= Calendar.day_of t)%Z.
Proof.
  intros H. unfold Calendar.day_of.
  apply Z.div_le_mono; [reflexivity | exact H].
Qed.

Lemma in_timestamps (s : Series) (t : Z) :
  In (Date t) s -> In t (timestamps s).
Proof.
  intros H. unfold timestamps. apply in_flat_map.
  exists (Date t). split; [exact H | now left].
Qed.

End Bounds.

(** X12: with the range that the date widget starts with, from the
    earliest to the latest day of a well-formed table, the filter keeps
    every row that has a date and drops the others; a table in which every
    row has a date comes back unchanged. *)
Theorem default_range_keeps_every_dated_row (df : DataFrame) (a b : Z) :
  wf df ->
  date_bounds df = Some (a, b) ->
  kept_rows df a b
  = filter (fun i => is_timestamp (at_ df "date" i)) (seq 0 (index df))
  /\ (Forall (fun c => is_timestamp c = true) (col df "date") ->
      date_filter df a b = Ok df).
Proof.
  intros W B.
  assert (K : forall i, in_range a b (at_ df "date" i)
                        = is_timestamp (at_ df "date" i)).
  { intros i. destruct (at_ df "date" i) as [| | | |t] eqn:E; try reflexivity.
    assert (I : In t (timestamps (col df "date"))).
    { apply Bounds.in_timestamps. rewrite <- E. unfold at_.
      destruct (Nat.lt_ge_cases i (List.length (col df "date"))) as [L|L].
      - now apply nth_In.
      - unfold at_ in E. rewrite nth_overflow in E by exact L. discriminate. }
    unfold date_bounds in B.
    destruct (timestamps (col df "date")) as [|t0 r]; [discriminate|].
    inversion B; subst. clear B. simpl.
    pose proof (Bounds.day_of_mono _ _ (Bounds.fold_min_le r t0 t I)).
    pose proof (Bounds.day_of_mono _ _ (Bounds.fold_max_ge r t0 t I)).
    apply andb_true_iff. split; apply Z.leb_le; assumption. }
  split.
  - unfold kept_rows. apply filter_ext. exact K.
  - intros F. unfold date_filter.
    assert (C : contains df "date" = true).
    { unfold date_bounds, col, contains in *.
      destruct (getitem df "date"); [reflexivity | discriminate]. }
    rewrite C. f_equal.
    assert (E : kept_rows df a b = seq 0 (index df)).
    { unfold kept_rows.
      rewrite (filter_ext_in _ (fun _ => true)).
      - clear. induction (seq 0 (index df)); simpl; [reflexivity | now f_equal].
      - intros i Hi. apply in_seq in Hi. rewrite K.
        rewrite Forall_forall in F. apply F. unfold at_. apply nth_In.
        rewrite (Frames.wf_col_length df "date" W C). lia. }
    rewrite E. now apply Filtering.take_all_rows.
Qed.

Lemma firstn_seq (n a m : nat) : firstn n (seq a m) = seq a (Nat.min n m).
Proof.
  revert a m. induction n as [|n IH]; intros a [|m]; simpl; try reflexivity.
  now rewrite IH.
Qed.

(** X13: the data tab shows the first [n] rows of the table under the
    same labels, and the whole table when it has at most [n] rows. *)
Theorem head_shows_the_first_rows (df : DataFrame) (n : nat)
        (labels : list string) :
  rows_of (head n df) labels = firstn n (rows_of df labels)
  /\ columns (head n df) = columns df
  /\ (wf df -> index df <= n -> head n df = df).
Proof.
  split; [|split].
  - unfold head. rewrite Filtering.rows_of_take_rows. unfold rows_of.
    rewrite firstn_map. f_equal. rewrite firstn_seq. reflexivity.
  - apply Filtering.columns_take_rows.
  - intros W L. unfold head. rewrite Nat.min_r by exact L.
    now apply Filtering.take_all_rows.
Qed.

(** January 2024 in [Demo.enr_t]: the two rows of 01-01-2024 are kept. *)
Lemma date_filter_witness :
  exists out : DataFrame,
    Run.date_filter Demo.enr_t (Calendar.days_from_civil 2024 1 1)
                    (Calendar.days_from_civil 2024 1 31) = Ok out
    /\ wf out
    /\ columns out = columns Demo.enr_t
    /\ rows_of out ["date"; "enrol"]
       = [[Demo.day1; Int 3]; [Demo.day1; Int 5]].
Proof.
  assert (W : wf Demo.enr_t) by by_evaluation.
  assert (C : contains Demo.enr_t "date" = true) by reflexivity.
  pose proof (date_filter_keeps_the_rows_in_range
                Demo.enr_t (Calendar.days_from_civil 2024 1 1)
                (Calendar.days_from_civil 2024 1 31) ["enrol"] W C) as H.
  assert (D : forallb is_date (col Demo.enr_t "date") = true) by reflexivity.
  rewrite D in H. destruct H as (out & H1 & H2 & H3 & H4).
  exists out. split; [exact H1|]. split; [exact H2|]. split; [exact H3|].
  rewrite H4. reflexivity.
Defined.

(** January to March, then February to April: February and March. *)
Lemma date_filter_twice_witness :
  date_filter (take_rows Demo.enr_t
                 (kept_rows Demo.enr_t (Calendar.days_from_civil 2024 1 1)
                            (Calendar.days_from_civil 2024 3 31)))
              (Calendar.days_from_civil 2024 2 1)
              (Calendar.days_from_civil 2024 4 30)
  = date_filter Demo.enr_t (Calendar.days_from_civil 2024 2 1)
                (Calendar.days_from_civil 2024 3 31).
Proof.
  assert (W : wf Demo.enr_t) by by_evaluation.
  apply (date_filter_twice_is_the_intersection
           Demo.enr_t _ (Calendar.days_from_civil 2024 1 1)
           (Calendar.days_from_civil 2024 3 31)
           (Calendar.days_from_civil 2024 2 1)
           (Calendar.days_from_civil 2024 4 30) W).
  reflexivity.
Defined.

(** [Demo.undated_t] has one dated row out of three: the range of the
    widget is that day, and the filter keeps that row. *)
Lemma default_range_witness :
  date_bounds Demo.undated_t
  = Some (Calendar.days_from_civil 2024 1 1, Calendar.days_from_civil 2024 1 1)
  /\ kept_rows Demo.undated_t (Calendar.days_from_civil 2024 1 1)
               (Calendar.days_from_civil 2024 1 1) = [2].
Proof.
  assert (W : wf Demo.undated_t) by by_evaluation.
  assert (B : date_bounds Demo.undated_t
              = Some (Calendar.days_from_civil 2024 1 1,
                      Calendar.days_from_civil 2024 1 1))
    by (vm_compute; reflexivity).
  split; [exact B|].
  destruct (default_range_keeps_every_dated_row Demo.undated_t _ _ W B)
    as [K _].
  rewrite K. reflexivity.
Defined.

(* ================================================================== *)
(** * Where the page raises *)
(* ================================================================== *)

Module Raising.
Import Frames Rows.

Lemma missing_label_none_iff (df : DataFrame) (labels : list string) :
  missing_label df labels = None
  <-> forall c, In c labels -> contains df c = true.
Proof.
  split; [|apply missing_label_none].
  unfold missing_label. intros H c Hc.
  pose proof (find_none _ _ H c Hc) as N. simpl in N.
  now apply negb_false_iff in N.
Qed.

Lemma missing_label_some (df : DataFrame) (labels : list string) (c : string) :
  missing_label df labels = Some c -> In c labels /\ contains df c = false.
Proof.
  unfold missing_label. intros H. apply find_some in H as [H1 H2].
  split; [exact H1 | now apply negb_true_iff in H2].
Qed.

Lemma contains_of_rows (labels : list string) (rows : list row) (c : string) :
  In c labels -> contains (of_rows labels rows) c = true.
Proof. intros H. apply contains_in. now rewrite columns_of_rows. Qed.

(** What [groupby_sum] returns, or the label it raises on. *)
Lemma groupby_sum_cases (df : DataFrame) (on : list string) (metric : string) :
  (exists rows, groupby_sum df on metric = Ok (of_rows (on ++ [metric]) rows)
                /\ (forall c, In c on -> contains df c = true)
                /\ contains df metric = true)
  \/ (exists c, groupby_sum df on metric = Raise (KeyError c)
                /\ In c (on ++ [metric]) /\ contains df c = false).
Proof.
  unfold groupby_sum. destruct (missing_label df on) as [c|] eqn:M.
  - right. exists c. apply missing_label_some in M as [M1 M2].
    split; [reflexivity|]. split; [apply in_or_app; now left | exact M2].
  - destruct (contains df metric) eqn:C.
    + left. eexists. split; [reflexivity|].
      split; [now apply missing_label_none_iff | reflexivity].
    + right. exists metric. split; [reflexivity|].
      split; [apply in_or_app; right; now left | exact C].
Qed.

Lemma merge_outer_of_rows (l1 l2 : list string) (r1 r2 : list row)
      (on : list string) :
  (forall c, In c on -> In c l1) -> (forall c, In c on -> In c l2) ->
  exists rows,
    merge_outer (of_rows l1 r1) (of_rows l2 r2) on
    = Ok (of_rows (on ++ others (of_rows l1 r1) on ++ others (of_rows l2 r2) on)
                  rows).
Proof.
  intros H1 H2. unfold merge_outer.
  rewrite (missing_label_none (of_rows l1 r1) on)
    by (intros c Hc; apply contains_of_rows; auto).
  rewrite (missing_label_none (of_rows l2 r2) on)
    by (intros c Hc; apply contains_of_rows; auto).
  eexists. reflexivity.
Qed.

End Raising.


Section Raises.
Context {lib : Pandas}.
Import Frames.

Lemma contains_add_total_name (df : DataFrame) (cols : list string)
      (name : string) :
  contains (add_total df cols name) name = true.
Proof. unfold contains, add_total, set_total. now rewrite getitem_setitem_same. Qed.

Lemma contains_add_total_other (df : DataFrame) (cols : list string)
      (name c : string) :
  ~ In c cols -> c <> name ->
  contains (add_total df cols name) c = contains df c.
Proof.
  intros H1 H2. unfold contains. now rewrite getitem_add_total_other.
Qed.

Lemma index_add_total (df : DataFrame) (cols : list string) (name : string) :
  index (add_total df cols name) = index df.
Proof. unfold add_total, set_total. cbn [index setitem]. apply index_loop. Qed.

Lemma add_total_not_empty (df : DataFrame) (cols : list string)
      (name : string) :
  index df <> 0 -> empty (add_total df cols name) = false.
Proof.
  intros H. apply empty_false. rewrite index_add_total. split; [exact H|].
  pose proof (contains_add_total_name df cols name) as C.
  apply contains_in in C. intros E. rewrite E in C. destruct C.
Qed.

Lemma normalized_without_date (raw : DataFrame) :
  empty raw = false -> contains (renamed raw) "date" = false ->
  contains (normalize raw) "date" = false.
Proof.
  intros E C. unfold contains in *. rewrite normalized_date by exact E.
  now destruct (getitem (renamed raw) "date").
Qed.

End Raises.

Section MachineTotals.
Context {lib : Pandas}.
Import Frames.

Lemma collect_length {A : Type} (l : list (result A)) (xs : list A) :
  Machine.collect l = Ok xs -> List.length xs = List.length l.
Proof.
  revert xs; induction l as [|r l IH]; intros xs; simpl.
  - intros H. now inversion H.
  - destruct r as [x|e]; cbn [rbind]; [|discriminate].
    destruct (Machine.collect l) as [ys|e]; cbn [rbind]; [|discriminate].
    intros H. inversion H. simpl. now rewrite (IH ys).
Qed.

Lemma collect_forall {A : Type} (P : A -> Prop) (l : list (result A))
      (xs : list A) :
  Machine.collect l = Ok xs -> (forall x, In (Ok x) l -> P x) -> Forall P xs.
Proof.
  revert xs; induction l as [|r l IH]; intros xs; simpl.
  - intros H _. inversion H. constructor.
  - destruct r as [x|e]; cbn [rbind]; [|discriminate].
    destruct (Machine.collect l) as [ys|e]; cbn [rbind]; [|discriminate].
    intros H F. inversion H. constructor; [apply F; now left|].
    apply IH; [reflexivity|]. intros y Hy. apply F. now right.
Qed.

Lemma collect_raises {A : Type} (P : exn -> Prop) (l : list (result A))
      (e : exn) :
  Machine.collect l = Raise e -> (forall e', In (Raise e') l -> P e') -> P e.
Proof.
  induction l as [|r l IH]; simpl; [discriminate|].
  destruct r as [x|e0]; cbn [rbind].
  - destruct (Machine.collect l) as [ys|e1]; cbn [rbind]; [discriminate|].
    intros H F. inversion H; subst. apply IH; [reflexivity|].
    intros e' He'. apply F. now right.
  - intros H F. inversion H; subst. apply F. now left.
Qed.

Lemma total_of_row_cases (df after : DataFrame) (cols : list string) (i : nat) :
  (exists z, Machine.total_of_row df after cols i = Ok (Int z))
  \/ Machine.total_of_row df after cols i = Raise IntCastingNaNError.
Proof.
  unfold Machine.total_of_row.
  destruct (forallb _ cols); [left; eexists; reflexivity|].
  destruct (existsb _ cols); [now right|].
  destruct (sum_as_int64 _); [left; eexists; reflexivity | now right].
Qed.

(** What [Machine.add_total] returns when it raises nothing: the frame of
    the loop with a column of integers under [name]. *)
Lemma machine_shape (df : DataFrame) (cols : list string) (name : string)
      (t : DataFrame) :
  Machine.add_total df cols name = Ok t ->
  exists totals,
    t = with_totals df cols name totals
    /\ List.length totals = index df
    /\ Forall (fun c => is_int c = true) totals.
Proof.
  unfold Machine.add_total.
  destruct (Machine.collect _) as [totals|e] eqn:E; cbn [rbind]; [|discriminate].
  intros H. inversion H. exists totals. split; [reflexivity|]. split.
  - apply collect_length in E. now rewrite E, length_map, length_seq.
  - apply (collect_forall _ _ _ E). intros x Hx.
    apply in_map_iff in Hx as [i [Hx _]].
    destruct (total_of_row_cases df (fold_left add_total_step cols df) cols i)
      as [[z Hz]|Hz]; rewrite Hz in Hx; [|discriminate].
    now inversion Hx.
Qed.

(** [Machine.add_total] raises nothing but [IntCastingNaNError]. *)
Lemma machine_raises (df : DataFrame) (cols : list string) (name : string)
      (e : exn) :
  Machine.add_total df cols name = Raise e -> e = IntCastingNaNError.
Proof.
  unfold Machine.add_total.
  destruct (Machine.collect _) as [totals|e'] eqn:E; cbn [rbind]; [discriminate|].
  intros H. inversion H; subst.
  apply (collect_raises (fun x => x = IntCastingNaNError) _ _ E).
  intros x Hx. apply in_map_iff in Hx as [i [Hx _]].
  destruct (total_of_row_cases df (fold_left add_total_step cols df) cols i)
    as [[z Hz]|Hz]; rewrite Hz in Hx; [discriminate|].
  now inversion Hx.
Qed.

Lemma contains_with_totals_name (df : DataFrame) (cols : list string)
      (name : string) (totals : Series) :
  contains (with_totals df cols name totals) name = true.
Proof. unfold contains, with_totals. now rewrite getitem_setitem_same. Qed.

Lemma getitem_with_totals_other (df : DataFrame) (cols : list string)
      (name c : string) (totals : Series) :
  ~ In c cols -> c <> name ->
  getitem (with_totals df cols name totals) c = getitem df c.
Proof.
  intros H1 H2. unfold with_totals.
  rewrite getitem_setitem_other by congruence. now apply loop_other.
Qed.

Lemma contains_with_totals_other (df : DataFrame) (cols : list string)
      (name c : string) (totals : Series) :
  ~ In c cols -> c <> name ->
  contains (with_totals df cols name totals) c = contains df c.
Proof.
  intros H1 H2. unfold contains. now rewrite getitem_with_totals_other.
Qed.

Lemma index_with_totals (df : DataFrame) (cols : list string) (name : string)
      (totals : Series) :
  index (with_totals df cols name totals) = index df.
Proof. unfold with_totals. cbn [index setitem]. apply index_loop. Qed.

Lemma at_with_totals_other (df : DataFrame) (cols : list string)
      (name c : string) (totals : Series) (i : nat) :
  ~ In c cols -> c <> name ->
  at_ (with_totals df cols name totals) c i = at_ df c i.
Proof.
  intros H1 H2. unfold at_, col. now rewrite getitem_with_totals_other.
Qed.

Lemma with_totals_not_empty (df : DataFrame) (cols : list string)
      (name : string) (totals : Series) :
  index df <> 0 -> empty (with_totals df cols name totals) = false.
Proof.
  intros H. apply empty_false. rewrite index_with_totals. split; [exact H|].
  pose proof (contains_with_totals_name df cols name totals) as C.
  apply contains_in in C. intros E. rewrite E in C. destruct C.
Qed.

(** X14: on a single-category page, a table that is not empty and has
    no "date" column after the cleaning of its labels passes the empty
    check, and the page raises [KeyError] on "date", unless [add_total] has
    raised before (on a count that is not finite). *)
Theorem page_raises_without_a_date_column
        (fs : filesystem) (sel : dataset) (picked : list Z) :
  sel <> Combined ->
  wf (renamed (load_files fs (files_of sel))) ->
  empty (load_files fs (files_of sel)) = false ->
  contains (renamed (load_files fs (files_of sel))) "date" = false ->
  Run.page fs sel picked
  = (t <-- Run.load_data fs sel ;; Raise (KeyError "date")).
Proof.
  intros S _ E C.
  assert (P : forall cols, ~ In "date" cols ->
                (df <-- Machine.add_total
                          (normalize (load_files fs (files_of sel)))
                          cols "total" ;;
                 Run.filtered df picked)
                = (t <-- Machine.add_total
                           (normalize (load_files fs (files_of sel)))
                           cols "total" ;;
                   Raise (KeyError "date"))).
  { intros cols N.
    destruct (Machine.add_total _ cols "total") as [t|e] eqn:M; cbn [rbind];
      [|reflexivity].
    apply machine_shape in M as (totals & -> & _ & _).
    unfold Run.filtered. rewrite with_totals_not_empty.
    - unfold Run.bounds.
      rewrite contains_with_totals_other by (exact N || discriminate).
      now rewrite (normalized_without_date _ E C).
    - rewrite index_normalize. now apply empty_false in E. }
  destruct sel; [| | |contradiction]; unfold Run.page, Run.load_data;
    apply P; simpl; intuition discriminate.
Qed.

End MachineTotals.


Section CombinedPage.
Context {lib : Pandas}.
Import Frames.

Lemma combined_cases (enr dem bio : DataFrame) :
  contains enr "enrol" = true -> contains dem "demo" = true ->
  contains bio "bio" = true ->
  (exists out, combined enr dem bio = Ok out
               /\ forall c, In c key ->
                            contains enr c = true /\ contains dem c = true
                            /\ contains bio c = true)
  \/ (exists c, In c key /\ combined enr dem bio = Raise (KeyError c)).
Proof.
  intros M1 M2 M3. unfold combined.
  assert (inkey : forall (df : DataFrame) (m c : string),
             contains df m = true -> In c (key ++ [m]) ->
             contains df c = false -> In c key).
  { intros df m c Hm Hc Hf. apply in_app_or in Hc as [Hc|[<-|[]]];
      [exact Hc | congruence]. }
  destruct (Raising.groupby_sum_cases enr key "enrol")
    as [(r1 & E1 & K1 & _)|(c & E1 & I1 & C1)]; rewrite E1; cbn [rbind].
  2:{ right. exists c. split; [now apply (inkey enr "enrol")|reflexivity]. }
  destruct (Raising.groupby_sum_cases dem key "demo")
    as [(r2 & E2 & K2 & _)|(c & E2 & I2 & C2)]; rewrite E2; cbn [rbind].
  2:{ right. exists c. split; [now apply (inkey dem "demo")|reflexivity]. }
  destruct (Raising.merge_outer_of_rows (key ++ ["enrol"]) (key ++ ["demo"])
              r1 r2 key) as [m1 Em1];
    [intros c Hc; apply in_or_app; now left
    |intros c Hc; apply in_or_app; now left|].
  rewrite Em1. cbn [rbind].
  destruct (Raising.groupby_sum_cases bio key "bio")
    as [(r3 & E3 & K3 & _)|(c & E3 & I3 & C3)]; rewrite E3; cbn [rbind].
  2:{ right. exists c. split; [now apply (inkey bio "bio")|reflexivity]. }
  match goal with
  | |- context [merge_outer (of_rows ?l1 ?r) _ _] =>
      destruct (Raising.merge_outer_of_rows l1 (key ++ ["bio"]) r r3 key)
        as [m2 Em2];
      [intros c Hc; apply in_or_app; now left
      |intros c Hc; apply in_or_app; now left|]
  end.
  rewrite Em2. cbn [rbind]. left. eexists. split; [reflexivity|].
  intros c Hc. auto.
Qed.

(** The three tables of the combined branch, when no totaliser raises. *)
Lemma categories_shape (fs : filesystem) (enr dem bio : DataFrame) :
  Run.categories fs = Ok (enr, dem, bio) ->
  (exists t, enr = with_totals (normalize (load_files fs ENROLMENT_FILES))
                     ["age_0_5"; "age_5_17"; "age_18_greater"] "enrol" t
             /\ List.length t = index (normalize (load_files fs ENROLMENT_FILES))
             /\ Forall (fun c => is_int c = true) t)
  /\ (exists t, dem = with_totals (normalize (load_files fs DEMOGRAPHIC_FILES))
                       ["demo_age_5_17"; "demo_age_17_"] "demo" t
               /\ List.length t
                  = index (normalize (load_files fs DEMOGRAPHIC_FILES))
               /\ Forall (fun c => is_int c = true) t)
  /\ (exists t, bio = with_totals (normalize (load_files fs BIOMETRIC_FILES))
                       ["bio_age_5_17"; "bio_age_17_"] "bio" t
               /\ List.length t
                  = index (normalize (load_files fs BIOMETRIC_FILES))
               /\ Forall (fun c => is_int c = true) t).
Proof.
  unfold Run.categories.
  destruct (Machine.add_total _ _ "enrol") as [t1|e] eqn:M1; cbn [rbind];
    [|discriminate].
  destruct (Machine.add_total _ _ "demo") as [t2|e] eqn:M2; cbn [rbind];
    [|discriminate].
  destruct (Machine.add_total _ _ "bio") as [t3|e] eqn:M3; cbn [rbind];
    [|discriminate].
  intros H. inversion H; subst.
  split; [now apply machine_shape|]. split; now apply machine_shape.
Qed.

(** X15: the combined page raises as soon as the normalised table of one
    category lacks a key column (no files for a category is such a case):
    [KeyError] on a key label, unless [add_total] has raised before. *)
Theorem combined_page_raises_on_a_missing_key_column
        (fs : filesystem) (picked : list Z) (files : list string) (c : string) :
  Forall (fun fl => wf (renamed (load_files fs fl))) CATEGORY_FILES ->
  In files CATEGORY_FILES ->
  In c key ->
  contains (normalize (load_files fs files)) c = false ->
  match Run.categories fs with
  | Ok _ => exists c', In c' key
                       /\ Run.page fs Combined picked = Raise (KeyError c')
  | Raise e => Run.page fs Combined picked = Raise e
  end.
Proof.
  intros _ Hf Hc C. unfold Run.page, Run.load_data.
  destruct (Run.categories fs) as [[[enr dem] bio]|e] eqn:Cs; cbn [rbind];
    [|reflexivity].
  apply categories_shape in Cs
    as ((t1 & -> & _ & _) & (t2 & -> & _ & _) & (t3 & -> & _ & _)).
  match goal with
  | |- context [combined ?e ?d ?b] =>
      destruct (combined_cases e d b) as [(out & _ & K)|(c' & I & E)];
      try apply contains_with_totals_name
  end.
  - exfalso. destruct (K c Hc) as (K1 & K2 & K3).
    assert (N : forall cols name t,
               (forall x, In x cols -> ~ In x key) -> ~ In name key ->
               contains (with_totals (normalize (load_files fs files))
                                     cols name t) c
               = false).
    { intros cols name t H1 H2.
      rewrite contains_with_totals_other; [exact C| |].
      - intros H. now apply (H1 c H).
      - intros ->. contradiction. }
    destruct Hf as [<-|[<-|[<-|[]]]].
    + rewrite N in K1; [discriminate| |]; simpl; intuition congruence.
    + rewrite N in K2; [discriminate| |]; simpl; intuition congruence.
    + rewrite N in K3; [discriminate| |]; simpl; intuition congruence.
  - exists c'. split; [exact I|]. rewrite E. reflexivity.
Qed.

End CombinedPage.

(** An enrolment file with the column "pincode" only. *)
Lemma page_without_date_witness :
  Run.page Demo.dateless_files Enrolment [0; 0]%Z = Raise (KeyError "date").
Proof.
  assert (W : wf (renamed (load_files Demo.dateless_files
                                      (files_of Enrolment))))
    by by_evaluation.
  assert (S : Enrolment <> Combined) by discriminate.
  rewrite (page_raises_without_a_date_column
             Demo.dateless_files Enrolment [0; 0]%Z S W eq_refl eq_refl).
  vm_compute. reflexivity.
Defined.

(** Enrolment files and no demographic file. *)
Lemma combined_page_missing_column_witness :
  exists c, In c key
            /\ Run.page Demo.two_files Combined [0; 0]%Z = Raise (KeyError c).
Proof.
  assert (W : Forall (fun fl => wf (renamed (load_files Demo.two_files fl)))
                     CATEGORY_FILES).
  { repeat constructor; by_evaluation. }
  assert (I1 : In DEMOGRAPHIC_FILES CATEGORY_FILES) by (simpl; auto).
  assert (I2 : In "date" key) by (simpl; auto).
  pose proof (combined_page_raises_on_a_missing_key_column
                Demo.two_files [0; 0]%Z DEMOGRAPHIC_FILES "date" W I1 I2
                eq_refl) as H.
  destruct (Run.categories Demo.two_files) as [t|e] eqn:E; [exact H|].
  vm_compute in E. discriminate E.
Defined.

Section NoRows.
Context {lib : Pandas}.

(** X16: a single-category page whose loaded table has no row, for want
    of files or of rows in them, stops on "No data loaded". *)
Theorem page_stops_on_a_table_without_rows
        (fs : filesystem) (sel : dataset) (start stop : Z) :
  sel <> Combined ->
  wf (load_files fs (files_of sel)) ->
  index (load_files fs (files_of sel)) = 0 ->
  page fs sel start stop = Ok NoData.
Proof.
  intros S _ Z.
  assert (P : forall cols,
             empty (add_total (normalize (load_files fs (files_of sel)))
                              cols "total") = true).
  { intros cols. unfold empty.
    now rewrite index_add_total, index_normalize, Z. }
  destruct sel; [| | |contradiction]; unfold page, load_data; cbn [rbind];
    now rewrite P.
Qed.

End NoRows.

(** A demographic file with its header only. *)
Lemma page_without_rows_witness :
  page Demo.header_files Demographic 0 0 = Ok NoData.
Proof.
  assert (W : wf (load_files Demo.header_files (files_of Demographic)))
    by by_evaluation.
  apply (page_stops_on_a_table_without_rows Demo.header_files Demographic 0 0);
    [discriminate | exact W | reflexivity].
Defined.

(* ================================================================== *)
(** * The key of a row *)
(* ================================================================== *)

Section KeyColumns.
Context {lib : Pandas}.
Import Frames.

Lemma at_normalized_text (df : DataFrame) (c : string) (i : nat) :
  In c ["state"; "district"] ->
  empty df = false ->
  i < List.length (col (renamed df) c) ->
  at_ (normalize df) c i
  = Str (Text.strip (astype_str (at_ (renamed df) c i))).
Proof.
  intros Hc E L.
  assert (G : getitem (normalize df) c
              = option_map strip_text (getitem (renamed df) c)).
  { destruct Hc as [<-|[<-|[]]];
      [now apply normalized_state | now apply normalized_district]. }
  unfold at_, col in *. rewrite G.
  destruct (getitem (renamed df) c) as [s|]; simpl in *; [|lia].
  unfold strip_text. now rewrite (Lists.nth_map_default _ s NA NA i L).
Qed.

(** X18: after [normalize], on a table with the four source columns of
    the key, the key of a row whose state, district and pin code are not
    missing is complete exactly when the row has a date, that is when its
    date has parsed: the month is the text of a year and month then, and
    the date is missing otherwise.  (A missing state, district or pin code
    is printed by pandas 2 and kept missing by pandas 3, where it makes
    the key incomplete.) *)
Theorem key_is_complete_when_the_date_parses (raw : DataFrame) (i : nat) :
  wf (renamed raw) ->
  Forall (fun c => contains (renamed raw) c = true) SOURCE_KEY ->
  i < index raw ->
  (forall c, In c ["state"; "district"; "pincode"] ->
             at_ (renamed raw) c i <> NA) ->
  complete (key_at (normalize raw) i)
  = is_timestamp (at_ (normalize raw) "date" i).
Proof.
  intros W C Hi _.
  inversion C as [|? ? C1 Ca]; subst. inversion Ca as [|? ? C2 Cb]; subst.
  inversion Cb as [|? ? C3 Cc]; subst.
  inversion Cc as [|? ? C4 _]; subst.
  destruct (row_of_column raw "date" i W C1 Hi) as [E L1].
  destruct (row_of_column raw "state" i W C2 Hi) as [_ L2].
  destruct (row_of_column raw "district" i W C3 Hi) as [_ L3].
  destruct (row_of_column raw "pincode" i W C4 Hi) as [_ L4].
  rewrite (at_normalized_date raw i E L1).
  unfold key_at, key, complete. cbn [map forallb].
  rewrite (at_normalized_date raw i E L1), (at_normalized_month raw i E L1).
  rewrite (at_normalized_text raw "state" i) by (simpl; auto).
  rewrite (at_normalized_text raw "district" i) by (simpl; auto).
  rewrite (at_normalized_pincode raw i E L4).
  unfold to_datetime_cell.
  destruct (at_ (renamed raw) "date" i) as [|z|q|s|t]; try reflexivity.
  now destruct (parse_datetime s).
Qed.

End KeyColumns.

(** The first row of [Demo.undated_rows] has the date "n/a", the third
    has 01-01-2024. *)
Lemma key_is_complete_witness :
  complete (key_at (normalize Demo.undated_rows) 0) = false
  /\ complete (key_at (normalize Demo.undated_rows) 2) = true.
Proof.
  assert (W : wf (renamed Demo.undated_rows)) by by_evaluation.
  assert (C : Forall (fun c => contains (renamed Demo.undated_rows) c = true)
                     SOURCE_KEY) by (repeat constructor).
  assert (N : forall i, i < 3 ->
                forall c, In c ["state"; "district"; "pincode"] ->
                          at_ (renamed Demo.undated_rows) c i <> NA).
  { intros [|[|[|i]]] Hi c Hc; [..|lia];
      destruct Hc as [<-|[<-|[<-|[]]]]; vm_compute; discriminate. }
  split.
  - rewrite (key_is_complete_when_the_date_parses
               Demo.undated_rows 0 W C) by (simpl; lia || (apply N; lia)).
    reflexivity.
  - rewrite (key_is_complete_when_the_date_parses
               Demo.undated_rows 2 W C) by (simpl; lia || (apply N; lia)).
    reflexivity.
Defined.

(* ================================================================== *)
(** * The combined table and its cards *)
(* ================================================================== *)

Module Sums.
Import Numbers.

Lemma zsum_app (a b : list Z) : zsum (a ++ b) = (zsum a + zsum b)%Z.
Proof.
  induction a as [|x a IH]; simpl; [reflexivity|].
  rewrite !zsum_cons, IH. lia.
Qed.

Lemma zsum_map_add {A : Type} (f g : A -> Z) (l : list A) :
  zsum (map (fun x => f x + g x)%Z l) = (zsum (map f l) + zsum (map g l))%Z.
Proof.
  induction l as [|x l IH]; simpl; [reflexivity|].
  rewrite !zsum_cons, IH. lia.
Qed.

Lemma zsum_filter_split {A : Type} (f : A -> Z) (p q : A -> bool) (l : list A) :
  (forall x, In x l -> p x = true -> q x = false) ->
  zsum (map f (filter (fun x => p x || q x) l))
  = (zsum (map f (filter p l)) + zsum (map f (filter q l)))%Z.
Proof.
  induction l as [|x l IH]; simpl; intros D; [reflexivity|].
  assert (IH' := IH (fun y Hy => D y (or_intror Hy))).
  destruct (p x) eqn:P; simpl.
  - rewrite (D x (or_introl eq_refl) P). rewrite !zsum_cons, IH'. lia.
  - destruct (q x); simpl; rewrite ?zsum_cons, IH'; lia.
Qed.

Lemma filter_none {A : Type} (l : list A) : filter (fun _ => false) l = [].
Proof. induction l; simpl; auto. Qed.

(** A sum over the rows whose key is one of [K] is the sum, over [K], of
    the sums of the rows with that key. *)
Lemma zsum_by_key (key_of : nat -> row) (f : nat -> Z) (l : list nat)
      (K : list row) :
  NoDup K ->
  zsum (map (fun k => zsum (map f (filter (fun i => row_eqb (key_of i) k) l))) K)
  = zsum (map f (filter (fun i => existsb (row_eqb (key_of i)) K) l)).
Proof.
  induction K as [|k K IH]; intros N; simpl.
  - now rewrite filter_none.
  - inversion N as [|? ? N1 N2]; subst. rewrite zsum_cons, (IH N2).
    symmetry. apply zsum_filter_split.
    intros i _ E. apply Sorting.row_eqb_eq in E. subst k.
    destruct (existsb (row_eqb (key_of i)) K) eqn:X; [|reflexivity].
    apply existsb_exists in X as [k' [Hk' E]].
    apply Sorting.row_eqb_eq in E. subst k'. contradiction.
Qed.

End Sums.

Module Schema.
Import Frames Rows.

Lemma lengths_columns_of (labels : list string) (rows : list row) :
  Forall (fun cs => List.length (snd cs) = List.length rows)
         (columns_of labels rows).
Proof.
  revert rows. induction labels as [|c labels IH]; intros rows; simpl.
  - constructor.
  - constructor; [simpl; apply length_map|].
    specialize (IH (map (@tl cell) rows)). now rewrite length_map in IH.
Qed.

Lemma wf_of_rows (labels : list string) (rows : list row) :
  NoDup labels -> wf (of_rows labels rows).
Proof.
  intros N. split; [now rewrite columns_of_rows|].
  apply lengths_columns_of.
Qed.

End Schema.

Section CombinedTable.
Import Frames Rows Grouping Merging CombinedFacts.

Lemma combined_total_column (enr dem bio : DataFrame) :
  let F := keyed_frame key ["enrol"; "demo"; "bio"]
             (keys3 enr dem bio) (totals enr dem bio) in
  col (set_total ["enrol"; "demo"; "bio"] "total" F) "total"
  = map (fun k => Int (group_total enr "enrol" k + group_total dem "demo" k
                       + group_total bio "bio" k))
        (keys3 enr dem bio).
Proof.
  intros F. unfold set_total. rewrite col_setitem_same.
  assert (N : index F = List.length (keys3 enr dem bio)).
  { unfold F, keyed_frame. cbn [index of_rows]. apply length_map. }
  rewrite <- (Lists.map_seq_nth
                (fun k => Int (group_total enr "enrol" k
                               + group_total dem "demo" k
                               + group_total bio "bio" k))
                (keys3 enr dem bio) []).
  unfold astype_int, row_sums. rewrite map_map, N.
  apply map_ext_in. intros i Hi. apply in_seq in Hi.
  assert (Hi' : i < List.length (keys3 enr dem bio)) by lia.
  pose proof (filled_row enr dem bio i Hi') as T. cbn zeta in T. fold F in T.
  unfold totals in T. injection T as T1 T2 T3.
  cbn [map]. rewrite T1, T2, T3. cbn [value].
  change (qsum [Z2Qc ?a; Z2Qc ?b; Z2Qc ?c]) with (qsum (map Z2Qc [a; b; c])).
  rewrite Numbers.qsum_whole, Numbers.trunc_Z2Qc. reflexivity.
Qed.

Lemma group_totals_add_up (df : DataFrame) (metric : string)
      (K : list row) :
  NoDup K ->
  (forall k, In k K -> complete k = true) ->
  (forall k, In k (groups df key) -> In k K) ->
  zsum (map (group_total df metric) K) = complete_total df metric.
Proof.
  intros N C G. unfold group_total, rows_with_key, complete_total.
  rewrite (Sums.zsum_by_key (key_at df)
             (fun i => int_value (at_ df metric i)) (seq 0 (index df)) K N).
  do 2 f_equal. apply filter_ext_in. intros i Hi. apply in_seq in Hi.
  destruct (complete (key_at df i)) eqn:E.
  - apply existsb_exists. exists (key_at df i).
    split; [|apply Sorting.row_eqb_refl].
    apply G, groups_in. split; [exact E|].
    unfold rows_of, key_at. apply in_map_iff. exists i.
    split; [reflexivity | apply in_seq; lia].
  - destruct (existsb (row_eqb (key_at df i)) K) eqn:X; [|reflexivity].
    apply existsb_exists in X as [k [Hk Ek]].
    apply Sorting.row_eqb_eq in Ek. subst k. rewrite (C _ Hk) in E.
    discriminate.
Qed.

(** X19: for metrics whose absolute values add up to 2^53 at most, the
    Total Count card of the combined table is the sum of the three metrics
    over the rows with a complete key: grouping and merging lose and add
    nothing else, and the sum is within the range of int64. *)
Theorem combined_total_count_is_conserved (enr dem bio : DataFrame) :
  ready enr "enrol" -> ready dem "demo" -> ready bio "bio" ->
  (magnitude enr "enrol" + magnitude dem "demo" + magnitude bio "bio"
   <= 2 ^ 53)%Z ->
  exists (out : DataFrame) (k : cards),
    combined enr dem bio = Ok out
    /\ kpi_cards out = Ok k
    /\ total_count k
       = Int (complete_total enr "enrol" + complete_total dem "demo"
              + complete_total bio "bio")
    /\ Machine.wrap64 (complete_total enr "enrol" + complete_total dem "demo"
                       + complete_total bio "bio")
       = (complete_total enr "enrol" + complete_total dem "demo"
          + complete_total bio "bio")%Z.
Proof.
  intros R1 R2 R3 B.
  set (F := keyed_frame key ["enrol"; "demo"; "bio"]
              (keys3 enr dem bio) (totals enr dem bio)).
  set (out := set_total ["enrol"; "demo"; "bio"] "total" F).
  assert (Ct : contains out "total" = true).
  { unfold contains, out, set_total. now rewrite getitem_setitem_same. }
  assert (Cs : contains out "state" = true).
  { unfold contains, out, set_total.
    rewrite getitem_setitem_other by discriminate.
    fold (contains F "state"). apply keyed_contains. simpl. tauto. }
  exists out. eexists. split; [now apply combined_frame|].
  unfold kpi_cards. rewrite Ct, Cs. split; [reflexivity|].
  split.
  2:{ apply Numbers.wrap64_small.
      pose proof (sum_of_rows_bounded enr "enrol"
                    (fun i => complete (key_at enr i))
                    (ready_length enr "enrol" R1)) as S1.
      pose proof (sum_of_rows_bounded dem "demo"
                    (fun i => complete (key_at dem i))
                    (ready_length dem "demo" R2)) as S2.
      pose proof (sum_of_rows_bounded bio "bio"
                    (fun i => complete (key_at bio i))
                    (ready_length bio "bio" R3)) as S3.
      unfold complete_total. lia. }
  cbn [total_count]. unfold out, F. rewrite combined_total_column.
  unfold agg_sum.
  rewrite (proj2 (forallb_forall _ _)).
  2:{ intros c Hc. apply in_map_iff in Hc as [k [<- _]]. reflexivity. }
  rewrite map_map. cbn [int_value]. f_equal.
  rewrite !Sums.zsum_map_add.
  assert (N : NoDup (keys3 enr dem bio)) by apply merged_keys_NoDup.
  assert (C : forall k, In k (keys3 enr dem bio) -> complete k = true).
  { intros k Hk. now apply keys3_complete in Hk. }
  rewrite (group_totals_add_up enr "enrol" _ N C),
    (group_totals_add_up dem "demo" _ N C),
    (group_totals_add_up bio "bio" _ N C);
    [reflexivity | | |]; intros k Hk; apply keys3_in; tauto.
Qed.

End CombinedTable.

Section CombinedSchema.
Import Frames Rows Grouping Merging CombinedFacts.

Lemma complete_date (df : DataFrame) (metric : string) (k : row) :
  ready df metric -> complete k = true -> In k (rows_of df key) ->
  is_timestamp (hd NA k) = true.
Proof.
  intros (_ & C & _ & _ & (T & _) & _) Ck Hk.
  unfold rows_of in Hk. apply in_map_iff in Hk as [i [<- Hi]].
  apply in_seq in Hi. simpl in *.
  apply andb_true_iff in Ck as [Ck _].
  destruct (at_ df "date" i) eqn:E; try discriminate; try reflexivity;
    exfalso.
  all: assert (I : In (at_ df "date" i) (col df "date"))
    by (unfold at_ in *; apply nth_In;
        destruct (Nat.lt_ge_cases i (List.length (col df "date")));
        [assumption | rewrite nth_overflow in E by assumption; discriminate]).
  all: rewrite Forall_forall in T; specialize (T _ I); rewrite E in T;
    discriminate.
Qed.

Lemma combined_out_wf (enr dem bio : DataFrame) :
  wf (combined_out enr dem bio).
Proof.
  unfold combined_out, set_total.
  apply wf_setitem; [|apply length_row_sums].
  unfold keyed_frame. apply Schema.wf_of_rows. distinct_labels.
Qed.

Lemma combined_out_columns (enr dem bio : DataFrame) :
  columns (combined_out enr dem bio)
  = key ++ ["enrol"; "demo"; "bio"; "total"].
Proof.
  unfold combined_out, set_total. rewrite columns_setitem.
  set (F := keyed_frame key ["enrol"; "demo"; "bio"]
              (keys3 enr dem bio) (totals enr dem bio)).
  assert (C : contains F "total" = false).
  { destruct (contains F "total") eqn:C; [|reflexivity].
    apply contains_in in C. unfold F, keyed_frame in C.
    rewrite columns_of_rows in C. simpl in C. intuition discriminate. }
  rewrite C. unfold F, keyed_frame. now rewrite columns_of_rows.
Qed.

Lemma combined_out_dates (enr dem bio : DataFrame) :
  ready enr "enrol" -> ready dem "demo" -> ready bio "bio" ->
  Forall (fun c => is_timestamp c = true) (col (combined_out enr dem bio) "date").
Proof.
  intros R1 R2 R3.
  unfold combined_out, set_total. rewrite col_setitem_other by discriminate.
  unfold keyed_frame, col, getitem, of_rows, key. cbn [data app columns_of].
  cbn [lookup String.eqb Ascii.eqb Bool.eqb]. rewrite map_map.
  apply Forall_forall. intros c Hc. apply in_map_iff in Hc as [k [<- Hk]].
  assert (Ck : complete k = true) by now apply keys3_complete in Hk.
  assert (H : is_timestamp (hd NA k) = true).
  { apply keys3_in in Hk as [Hk|[Hk|Hk]]; apply groups_in in Hk as [_ Hk].
    - now apply (complete_date enr "enrol").
    - now apply (complete_date dem "demo").
    - now apply (complete_date bio "bio"). }
  destruct k; [discriminate H | exact H].
Qed.

(** X20: the combined table is well formed, has the five key columns
    followed by "enrol", "demo", "bio" and "total", and every row of it
    has a date.  It has no row exactly when no row of the three tables has
    a complete key. *)
Theorem combined_table_has_nine_columns_and_dated_rows
        (enr dem bio : DataFrame) :
  ready enr "enrol" -> ready dem "demo" -> ready bio "bio" ->
  exists out : DataFrame,
    combined enr dem bio = Ok out
    /\ wf out
    /\ columns out = key ++ ["enrol"; "demo"; "bio"; "total"]
    /\ Forall (fun c => is_timestamp c = true) (col out "date")
    /\ (index out = 0
        <-> forall k, In k (rows_of enr key ++ rows_of dem key
                            ++ rows_of bio key) ->
                      complete k = false).
Proof.
  intros R1 R2 R3. exists (combined_out enr dem bio).
  split; [now apply combined_frame|].
  split; [apply combined_out_wf|].
  split; [apply combined_out_columns|].
  split; [now apply combined_out_dates|].
  assert (N : index (combined_out enr dem bio)
              = List.length (keys3 enr dem bio)).
  { unfold combined_out, keyed_frame. cbn [index set_total setitem of_rows].
    apply length_map. }
  rewrite N. split.
  - intros Z k Hk. destruct (complete k) eqn:Ck; [|reflexivity].
    assert (I : In k (keys3 enr dem bio)).
    { apply keys3_in. rewrite !groups_in.
      apply in_app_or in Hk as [Hk|Hk]; [tauto|].
      apply in_app_or in Hk as [Hk|Hk]; tauto. }
    destruct (keys3 enr dem bio); [destruct I | discriminate].
  - intros H. destruct (keys3 enr dem bio) as [|k K] eqn:E; [reflexivity|].
    assert (I : In k (keys3 enr dem bio)) by (rewrite E; now left).
    pose proof (keys3_complete _ _ _ _ I) as [Ck _].
    apply keys3_in in I. rewrite !groups_in in I.
    rewrite (H k) in Ck; [discriminate|].
    rewrite !in_app_iff. tauto.
Qed.

End CombinedSchema.

(** The three sample tables: three keys, nine columns. *)
Lemma combined_table_witness :
  exists out : DataFrame,
    combined Demo.enr_t Demo.dem_t Demo.bio_t = Ok out
    /\ wf out
    /\ columns out = ["date"; "state"; "district"; "pincode"; "month";
                      "enrol"; "demo"; "bio"; "total"]
    /\ col out "date" = [Demo.day1; Demo.day1; Demo.day2]
    /\ index out = 3.
Proof.
  assert (R1 : ready Demo.enr_t "enrol") by by_evaluation.
  assert (R2 : ready Demo.dem_t "demo") by by_evaluation.
  assert (R3 : ready Demo.bio_t "bio") by by_evaluation.
  destruct (combined_table_has_nine_columns_and_dated_rows
              Demo.enr_t Demo.dem_t Demo.bio_t R1 R2 R3)
    as (out & H1 & H2 & H3 & _).
  exists out. split; [exact H1|]. split; [exact H2|]. split; [exact H3|].
  assert (E : exists o, combined Demo.enr_t Demo.dem_t Demo.bio_t = Ok o
                        /\ col o "date" = [Demo.day1; Demo.day1; Demo.day2]
                        /\ index o = 3).
  { eexists. split; [vm_compute; reflexivity|].
    split; vm_compute; reflexivity. }
  destruct E as (o & Eo & E1 & E2).
  rewrite H1 in Eo. injection Eo as <-. split; [exact E1 | exact E2].
Defined.

(** The three sample tables: 14 enrolments, 4 demographic and 7
    biometric updates, 25 in all. *)
Lemma combined_total_count_witness :
  exists (out : DataFrame) (k : cards),
    combined Demo.enr_t Demo.dem_t Demo.bio_t = Ok out
    /\ kpi_cards out = Ok k
    /\ total_count k = Int 25.
Proof.
  assert (R1 : ready Demo.enr_t "enrol") by by_evaluation.
  assert (R2 : ready Demo.dem_t "demo") by by_evaluation.
  assert (R3 : ready Demo.bio_t "bio") by by_evaluation.
  assert (B : (magnitude Demo.enr_t "enrol" + magnitude Demo.dem_t "demo"
               + magnitude Demo.bio_t "bio" <= 2 ^ 53)%Z)
    by (apply Z.leb_le; vm_compute; reflexivity).
  destruct (combined_total_count_is_conserved
              Demo.enr_t Demo.dem_t Demo.bio_t R1 R2 R3 B)
    as (out & k & H1 & H2 & H3 & _).
  exists out, k. split; [exact H1|]. split; [exact H2|].
  rewrite H3. reflexivity.
Defined.

(* ================================================================== *)
(** * The trend chart *)
(* ================================================================== *)

Section Trend.
Import Frames Rows Grouping.

Lemma group_cells_on (df : DataFrame) (on : list string) (metric : string)
      (k : row) :
  List.length (col df metric) = index df ->
  complete k = true ->
  group_cells df on metric k
  = map (fun i => at_ df metric i)
        (filter (fun i => row_eqb (map (fun c => at_ df c i) on) k)
                (seq 0 (index df))).
Proof.
  intros L Ck. unfold group_cells, with_key.
  rewrite filter_implied.
  2:{ intros [k' v] E. simpl in *. apply Sorting.row_eqb_eq in E. now subst. }
  unfold rows_of.
  rewrite combine_seq with (d := NA) by exact L.
  rewrite filter_map_comm, map_map. simpl.
  apply map_ext. intros i. unfold at_. now rewrite Nat.sub_0_r.
Qed.

Lemma combine_maps {A B C : Type} (f : A -> B) (g : A -> C) (l : list A) :
  combine (map f l) (map g l) = map (fun x => (f x, g x)) l.
Proof. induction l as [|x l IH]; simpl; [reflexivity | now rewrite IH]. Qed.

Lemma row_eqb_single (a b : cell) : row_eqb [a] [b] = cell_eqb a b.
Proof.
  unfold row_eqb, cell_eqb.
  destruct (row_eq_dec [a] [b]) as [E|N], (cell_eq_dec a b) as [E'|N'];
    try reflexivity.
  - inversion E. contradiction.
  - subst. contradiction.
Qed.

Lemma date_cells (df : DataFrame) (d : cell) :
  wf df -> contains df "date" = true ->
  In [d] (rows_of df ["date"]) <-> In d (col df "date").
Proof.
  intros W C. pose proof (wf_col_length df "date" W C) as L.
  unfold rows_of. rewrite in_map_iff. split.
  - intros [i [E Hi]]. apply in_seq in Hi. inversion E. unfold at_.
    apply nth_In. lia.
  - intros H. apply (In_nth _ _ NA) in H as [i [Hi E]].
    exists i. split; [simpl; unfold at_; now rewrite E | apply in_seq; lia].
Qed.

Lemma NoDup_heads (G : list row) :
  NoDup G -> (forall k, In k G -> exists d, k = [d]) ->
  NoDup (map (hd NA) G).
Proof.
  induction G as [|k G IH]; simpl; intros N S1; constructor.
  - inversion N as [|? ? N1 N2]; subst. intros H.
    apply in_map_iff in H as [k' [E Hk']].
    destruct (S1 k (or_introl eq_refl)) as [d ->].
    destruct (S1 k' (or_intror Hk')) as [d' ->].
    simpl in E. subst. contradiction.
  - inversion N; subst. apply IH; [assumption|].
    intros k' Hk'. apply S1. now right.
Qed.

(** X21: the trend chart has one point for each date of the table, the
    missing one aside, no date twice; for totals whose absolute values add
    up to less than 2^63, the value of a point is the sum of the totals of
    the rows with that date, which is within the range of int64, and the
    values add up to the sum of the totals of the rows that have a
    date. *)
Theorem trend_sums_the_totals_per_date (df : DataFrame) :
  wf df ->
  contains df "date" = true ->
  contains df "total" = true ->
  Forall (fun c => is_int c = true) (col df "total") ->
  (magnitude df "total" < 2 ^ 63)%Z ->
  exists pts : list (cell * cell),
    trend df = Ok pts
    /\ NoDup (map fst pts)
    /\ (forall d, In d (map fst pts)
                  <-> is_na d = false /\ In d (col df "date"))
    /\ (forall d v, In (d, v) pts -> v = Int (date_total df d))
    /\ (forall d, Machine.wrap64 (date_total df d) = date_total df d)
    /\ zsum (map (fun p => int_value (snd p)) pts)
       = zsum (map (fun i => int_value (at_ df "total" i))
                   (filter (fun i => negb (is_na (at_ df "date" i)))
                           (seq 0 (index df)))).
Proof.
  intros W Cd Ct I B.
  pose proof (wf_col_length df "total" W Ct) as L.
  set (G := groups df ["date"]).
  assert (S1 : forall k, In k G -> exists d, k = [d] /\ is_na d = false).
  { intros k Hk. pose proof (groups_length _ _ _ Hk) as Lk.
    apply groups_in in Hk as [Ck _].
    destruct k as [|d [|]]; try discriminate. exists d. split; [reflexivity|].
    simpl in Ck. rewrite andb_true_r in Ck. now apply negb_true_iff. }
  assert (V : forall d, is_na d = false ->
                agg_sum (group_cells df ["date"] "total" [d])
                = Int (date_total df d)).
  { intros d Hd. rewrite group_cells_on; [|exact L|].
    2:{ simpl. now rewrite Hd. }
    unfold agg_sum, date_total.
    rewrite (proj2 (forallb_forall _ _)).
    - rewrite map_map. do 3 f_equal. apply filter_ext. intros i.
      apply row_eqb_single.
    - intros c Hc. apply in_map_iff in Hc as [i [<- Hi]].
      apply filter_In in Hi as [Hi _]. apply in_seq in Hi.
      rewrite Forall_forall in I. apply I. unfold at_. apply nth_In. lia. }
  exists (map (fun k => (hd NA k, Int (date_total df (hd NA k)))) G).
  split.
  { unfold trend. rewrite groupby_sum_keyed; [|simpl; intuition (subst; auto)|exact Ct|exact L].
    cbn [rbind]. f_equal. fold G.
    unfold keyed_frame, col, getitem, of_rows.
    cbn [data app columns_of lookup String.eqb Ascii.eqb Bool.eqb].
    rewrite !map_map, combine_maps. apply map_ext_in. intros k Hk.
    destruct (S1 k Hk) as [d [-> Hd]]. simpl. now rewrite V. }
  assert (F1 : map fst (map (fun k => (hd NA k, Int (date_total df (hd NA k)))) G)
               = map (hd NA) G).
  { rewrite map_map. reflexivity. }
  split.
  { rewrite F1. apply NoDup_heads; [apply groups_NoDup|].
    intros k Hk. destruct (S1 k Hk) as [d [E _]]. now exists d. }
  split.
  { intros d. rewrite F1, in_map_iff. split.
    - intros [k [E Hk]]. destruct (S1 k Hk) as [d' [-> Hd]]. simpl in E. subst.
      split; [exact Hd|]. apply groups_in in Hk as [_ Hk].
      now apply date_cells in Hk.
    - intros [Hd H]. exists [d]. split; [reflexivity|].
      apply groups_in. split; [simpl; now rewrite Hd|].
      now apply date_cells. }
  split.
  { intros d v H. apply in_map_iff in H as [k [E _]]. now inversion E. }
  split.
  { intros d. apply Numbers.wrap64_small.
    pose proof (sum_of_rows_bounded df "total"
                  (fun i => cell_eqb (at_ df "date" i) d) L) as S.
    unfold date_total. lia. }
  rewrite map_map. cbn [snd int_value].
  transitivity (zsum (map (fun k => zsum (map (fun i => int_value (at_ df "total" i))
                  (filter (fun i => row_eqb [at_ df "date" i] k)
                          (seq 0 (index df))))) G)).
  { f_equal. apply map_ext_in. intros k Hk.
    destruct (S1 k Hk) as [d [-> _]]. simpl. unfold date_total.
    do 2 f_equal. apply filter_ext. intros i. symmetry. apply row_eqb_single. }
  rewrite (Sums.zsum_by_key (fun i => [at_ df "date" i])
             (fun i => int_value (at_ df "total" i)) (seq 0 (index df)) G)
    by apply groups_NoDup.
  do 2 f_equal. apply filter_ext_in. intros i Hi. apply in_seq in Hi.
  destruct (is_na (at_ df "date" i)) eqn:E; simpl.
  - destruct (existsb (row_eqb [at_ df "date" i]) G) eqn:X; [|reflexivity].
    apply existsb_exists in X as [k [Hk Ek]].
    apply Sorting.row_eqb_eq in Ek. subst k.
    destruct (S1 _ Hk) as [d [Ed Hd]]. inversion Ed; subst. congruence.
  - apply existsb_exists. exists [at_ df "date" i].
    split; [|apply Sorting.row_eqb_refl].
    apply groups_in. split; [simpl; now rewrite E|].
    unfold rows_of. apply in_map_iff. exists i.
    split; [reflexivity | apply in_seq; lia].
Qed.

End Trend.

(** The enrolment table: 8 on 01-01-2024 and 6 on 15-02-2024. *)
Lemma trend_witness :
  exists pts : list (cell * cell),
    trend Demo.enr_view = Ok pts
    /\ NoDup (map fst pts)
    /\ In (Demo.day1, Int 8) pts
    /\ zsum (map (fun p => int_value (snd p)) pts) = 14%Z.
Proof.
  assert (W : wf Demo.enr_view) by by_evaluation.
  assert (Cd : contains Demo.enr_view "date" = true) by reflexivity.
  assert (Ct : contains Demo.enr_view "total" = true) by reflexivity.
  assert (I : Forall (fun c => is_int c = true) (col Demo.enr_view "total"))
    by (vm_compute; repeat constructor).
  assert (B : (magnitude Demo.enr_view "total" < 2 ^ 63)%Z)
    by (vm_compute; reflexivity).
  destruct (trend_sums_the_totals_per_date Demo.enr_view W Cd Ct I B)
    as (pts & H1 & H2 & _ & _ & _ & H5).
  exists pts. split; [exact H1|]. split; [exact H2|].
  split; [|rewrite H5; reflexivity].
  assert (E : trend Demo.enr_view
              = Ok [(Demo.day1, Int 8); (Demo.day2, Int 6)])
    by (vm_compute; reflexivity).
  rewrite H1 in E. injection E as ->. now left.
Defined.

(* ================================================================== *)
(** * The page as a whole *)
(* ================================================================== *)

Section NoDates.
Context {lib : Pandas}.
Import Frames Rows Grouping Merging CombinedFacts.

Lemma normalized_dates (raw : DataFrame) :
  empty raw = false ->
  col (normalize raw) "date" = to_datetime (col (renamed raw) "date").
Proof.
  intros E. unfold col. rewrite normalized_date by exact E.
  now destruct (getitem (renamed raw) "date").
Qed.

Lemma to_datetime_typed (s : Series) : forallb is_date (to_datetime s) = true.
Proof.
  unfold to_datetime. apply forallb_forall. intros x Hx.
  apply in_map_iff in Hx as [c [<- _]].
  destruct c as [|z|q|t|d]; try reflexivity. simpl.
  now destruct (parse_datetime t).
Qed.

Lemma undated_has_no_group (raw : DataFrame) (cols : list string)
      (metric : string) (totals : Series) :
  empty raw = false ->
  Forall (fun c => is_timestamp c = false) (col (normalize raw) "date") ->
  ~ In "date" cols -> metric <> "date" ->
  groups (with_totals (normalize raw) cols metric totals) key = [].
Proof.
  intros E U N1 N2.
  destruct (groups (with_totals (normalize raw) cols metric totals) key)
    as [|k G] eqn:Eg; [reflexivity|exfalso].
  assert (I : In k (groups (with_totals (normalize raw) cols metric totals)
                           key))
    by (rewrite Eg; now left).
  apply groups_in in I as [Ck Hk].
  unfold rows_of in Hk. apply in_map_iff in Hk as [i [<- Hi]].
  simpl in Ck. apply andb_true_iff in Ck as [Ck _].
  rewrite at_with_totals_other in Ck by (assumption || congruence).
  unfold at_ in Ck.
  destruct (Nat.lt_ge_cases i (List.length (col (normalize raw) "date")))
    as [L|L]; [|rewrite nth_overflow in Ck by exact L; discriminate Ck].
  assert (X : In (nth i (col (normalize raw) "date") NA)
                 (col (normalize raw) "date")) by now apply nth_In.
  rewrite Forall_forall in U. pose proof (U _ X) as T.
  pose proof (to_datetime_typed (col (renamed raw) "date")) as D.
  rewrite <- normalized_dates in D by exact E.
  rewrite forallb_forall in D. specialize (D _ X).
  destruct (nth i (col (normalize raw) "date") NA); discriminate.
Qed.

Lemma keys3_nil (enr dem bio : DataFrame) :
  groups enr key = [] -> groups dem key = [] -> groups bio key = [] ->
  keys3 enr dem bio = [].
Proof.
  intros H1 H2 H3. destruct (keys3 enr dem bio) as [|k K] eqn:E; [reflexivity|].
  assert (I : In k (keys3 enr dem bio)) by (rewrite E; now left).
  apply keys3_in in I. rewrite H1, H2, H3 in I. simpl in I. tauto.
Qed.

(** X22: when every category has rows and the four source columns of
    the key and no row has a date after [normalize] (none has parsed), the
    combined table is empty and the page stops on "No data loaded", unless
    [add_total] has raised before. *)
Theorem combined_page_reports_no_data_when_no_date_parses
        (fs : filesystem) (picked : list Z) :
  (forall files, In files CATEGORY_FILES ->
     let raw := load_files fs files in
     empty raw = false
     /\ wf (renamed raw)
     /\ Forall (fun c => contains (renamed raw) c = true) SOURCE_KEY
     /\ Forall (fun c => is_timestamp c = false)
               (col (normalize raw) "date")) ->
  Run.page fs Combined picked = (t <-- Run.categories fs ;; Ok NoData).
Proof.
  intros H.
  assert (R : forall files cols metric totals,
             In files CATEGORY_FILES ->
             ~ In metric key -> (forall c, In c cols -> ~ In c key) ->
             List.length totals = index (normalize (load_files fs files)) ->
             Forall (fun c => is_int c = true) totals ->
             ready (with_totals (normalize (load_files fs files)) cols metric
                                totals) metric
             /\ groups (with_totals (normalize (load_files fs files)) cols
                                    metric totals) key = []).
  { intros files cols metric totals Hf Nm Nc Lt It.
    destruct (H files Hf) as (E & W & C & U). split.
    - now apply with_totals_is_ready.
    - apply undated_has_no_group; try assumption.
      + intros X. apply (Nc _ X). now left.
      + intros ->. apply Nm. now left. }
  unfold Run.page, Run.load_data.
  destruct (Run.categories fs) as [[[enr dem] bio]|e] eqn:Cs; cbn [rbind];
    [|reflexivity].
  apply categories_shape in Cs
    as ((t1 & -> & L1 & I1) & (t2 & -> & L2 & I2) & (t3 & -> & L3 & I3)).
  match goal with
  | |- context [combined ?e ?d ?b] =>
      destruct (R ENROLMENT_FILES ["age_0_5"; "age_5_17"; "age_18_greater"]
                  "enrol" t1) as [R1 G1];
      [simpl; tauto | simpl; intuition discriminate
      | simpl; intuition congruence | assumption | assumption |];
      destruct (R DEMOGRAPHIC_FILES ["demo_age_5_17"; "demo_age_17_"] "demo"
                  t2) as [R2 G2];
      [simpl; tauto | simpl; intuition discriminate
      | simpl; intuition congruence | assumption | assumption |];
      destruct (R BIOMETRIC_FILES ["bio_age_5_17"; "bio_age_17_"] "bio" t3)
        as [R3 G3];
      [simpl; tauto | simpl; intuition discriminate
      | simpl; intuition congruence | assumption | assumption |];
      rewrite (combined_frame e d b R1 R2 R3);
      rewrite (keys3_nil e d b G1 G2 G3)
  end.
  reflexivity.
Qed.

End NoDates.

Section DashboardFacts.
Context {lib : Pandas}.
Import Frames.

Lemma normalized_contains_state (raw : DataFrame) :
  empty raw = false ->
  contains (normalize raw) "state" = contains (renamed raw) "state".
Proof.
  intros E. unfold contains. rewrite normalized_state by exact E.
  now destruct (getitem (renamed raw) "state").
Qed.

Lemma normalized_contains_date (raw : DataFrame) :
  empty raw = false ->
  contains (normalize raw) "date" = contains (renamed raw) "date".
Proof.
  intros E. unfold contains. rewrite normalized_date by exact E.
  now destruct (getitem (renamed raw) "date").
Qed.

Lemma trend_runs (df : DataFrame) :
  contains df "date" = true -> contains df "total" = true ->
  exists pts, trend df = Ok pts.
Proof.
  intros Cd Ct. unfold trend, groupby_sum, missing_label. simpl.
  rewrite Cd, Ct. simpl. eexists. reflexivity.
Qed.

(** The section [FILTER] on a table with rows and a datetime column. *)
Lemma filtered_cases (T : DataFrame) (picked : list Z) :
  empty T = false -> contains T "date" = true ->
  forallb is_date (col T "date") = true ->
  Run.filtered T picked
  = match date_bounds T with
    | None => Raise ValueError
    | Some _ =>
        match picked with
        | [start; stop] => Ok (Shown (take_rows T (kept_rows T start stop)))
        | _ => Raise ValueError
        end
    end.
Proof.
  intros E C D.
  unfold Run.filtered, Run.bounds, Run.date_input, Run.date_filter.
  rewrite E, C, D. cbn [rbind].
  destruct (date_bounds T); [|reflexivity].
  destruct picked as [|a [|b [|c r]]]; reflexivity.
Qed.

(** Whether the date widget is handed a range. *)
Lemma date_bounds_cases (df : DataFrame) :
  if existsb is_timestamp (col df "date")
  then exists r, date_bounds df = Some r
  else date_bounds df = None.
Proof.
  unfold date_bounds.
  assert (H : forall s, if existsb is_timestamp s
                        then timestamps s <> [] else timestamps s = []).
  { induction s as [|c s IH]; [reflexivity|].
    destruct c; simpl; try exact IH. discriminate. }
  specialize (H (col df "date")).
  destruct (existsb is_timestamp (col df "date"));
    destruct (timestamps (col df "date")); try congruence.
  eexists. reflexivity.
Qed.

(** The widgets on a table with a "date" and a "total" column. *)
Lemma widgets_cases (T : DataFrame) :
  contains T "date" = true -> contains T "total" = true ->
  if contains T "state"
  then exists v, widgets T = Ok v
  else widgets T = Raise (KeyError "state").
Proof.
  intros Cd Ct. unfold widgets, kpi_cards. rewrite Ct.
  destruct (contains T "state"); cbn [rbind]; [|reflexivity].
  destruct (trend_runs T Cd Ct) as [pts Ep]. rewrite Ep. cbn [rbind].
  eexists. reflexivity.
Qed.

(** X23: on a single-category page whose table is not empty and has a
    "date" column, the run raises what [add_total] raises, if it does;
    else [ValueError] when no row has a date after [normalize] (none has
    parsed) or when the date widget does not return two days; else the
    widgets are all rendered when the table has a "state" column, and the
    States card raises [KeyError] on "state" when it has none. *)
Theorem single_category_dashboard_needs_a_state_column
        (fs : filesystem) (sel : dataset) (picked : list Z) :
  sel <> Combined ->
  empty (load_files fs (files_of sel)) = false ->
  wf (renamed (load_files fs (files_of sel))) ->
  contains (renamed (load_files fs (files_of sel))) "date" = true ->
  match Run.load_data fs sel with
  | Raise e => Run.dashboard fs sel picked = Raise e
  | Ok _ =>
      if existsb is_timestamp
                 (col (normalize (load_files fs (files_of sel))) "date")
      then
        match picked with
        | [_; _] =>
            if contains (renamed (load_files fs (files_of sel))) "state"
            then exists v, Run.dashboard fs sel picked = Ok (Some v)
            else Run.dashboard fs sel picked = Raise (KeyError "state")
        | _ => Run.dashboard fs sel picked = Raise ValueError
        end
      else Run.dashboard fs sel picked = Raise ValueError
  end.
Proof.
  intros S E _ Cd.
  assert (P : forall cols,
             ~ In "date" cols -> ~ In "state" cols ->
             forall r,
               r = Machine.add_total (normalize (load_files fs (files_of sel)))
                                     cols "total" ->
               let run := o <-- (df <-- r ;; Run.filtered df picked) ;;
                          match o with
                          | NoData => Ok None
                          | Shown df => v <-- widgets df ;; Ok (Some v)
                          end in
               match r with
               | Raise e => run = Raise e
               | Ok _ =>
                   if existsb is_timestamp
                        (col (normalize (load_files fs (files_of sel))) "date")
                   then
                     match picked with
                     | [_; _] =>
                         if contains (renamed (load_files fs (files_of sel)))
                                     "state"
                         then exists v, run = Ok (Some v)
                         else run = Raise (KeyError "state")
                     | _ => run = Raise ValueError
                     end
                   else run = Raise ValueError
               end).
  { intros cols N1 N2 r Er run.
    destruct r as [t|e]; [|reflexivity]. symmetry in Er.
    apply machine_shape in Er as (totals & -> & _ & _).
    set (T := with_totals (normalize (load_files fs (files_of sel))) cols
                          "total" totals) in *.
    assert (Ne : empty T = false).
    { apply with_totals_not_empty. rewrite index_normalize.
      now apply empty_false in E. }
    assert (Td : contains T "date" = true).
    { unfold T. rewrite contains_with_totals_other
        by (assumption || discriminate).
      now rewrite normalized_contains_date. }
    assert (Ts : contains T "state"
                 = contains (renamed (load_files fs (files_of sel))) "state").
    { unfold T. rewrite contains_with_totals_other
        by (assumption || discriminate).
      now apply normalized_contains_state. }
    assert (Tt : contains T "total" = true)
      by apply contains_with_totals_name.
    assert (Dc : col T "date"
                 = col (normalize (load_files fs (files_of sel))) "date").
    { unfold T, col. now rewrite getitem_with_totals_other
        by (assumption || discriminate). }
    assert (Ty : forallb is_date (col T "date") = true).
    { rewrite Dc, normalized_dates by exact E. apply to_datetime_typed. }
    unfold run. cbn [rbind]. rewrite (filtered_cases T picked Ne Td Ty).
    pose proof (date_bounds_cases T) as B. rewrite Dc in B.
    destruct (existsb is_timestamp _).
    - destruct B as [b ->].
      destruct picked as [|a [|b' [|c r]]]; try reflexivity.
      cbn [rbind].
      pose proof (widgets_cases (take_rows T (kept_rows T a b'))) as V.
      rewrite !Filtering.contains_take_rows, Ts in V.
      specialize (V Td Tt).
      destruct (contains (renamed (load_files fs (files_of sel))) "state").
      + destruct V as [v ->]. cbn [rbind]. eexists. reflexivity.
      + rewrite V. reflexivity.
    - rewrite B. reflexivity. }
  destruct sel; [| | |contradiction];
    unfold Run.dashboard, Run.page, Run.load_data;
    [refine (P ["age_0_5"; "age_5_17"; "age_18_greater"] _ _ _ eq_refl)
    |refine (P ["demo_age_5_17"; "demo_age_17_"] _ _ _ eq_refl)
    |refine (P ["bio_age_5_17"; "bio_age_17_"] _ _ _ eq_refl)];
    simpl; intuition discriminate.
Qed.

End DashboardFacts.

Section CombinedDashboard.
Context {lib : Pandas}.
Import Frames Rows Grouping Merging CombinedFacts.

(** X24: when every category has rows and the four source columns of
    the key, labels different after the cleaning, the combined page raises
    what [add_total] raises, if it does; else it stops on "No data loaded"
    when the combined table has no row, and otherwise renders all its
    widgets when the date widget returns two days, and raises [ValueError]
    when it does not. *)
Theorem combined_dashboard_runs (fs : filesystem) (picked : list Z) :
  (forall files, In files CATEGORY_FILES ->
     let raw := load_files fs files in
     empty raw = false
     /\ wf (renamed raw)
     /\ Forall (fun c => contains (renamed raw) c = true) SOURCE_KEY) ->
  match Run.categories fs with
  | Raise e => Run.dashboard fs Combined picked = Raise e
  | Ok (enr, dem, bio) =>
      exists out,
        combined enr dem bio = Ok out
        /\ if empty out then Run.dashboard fs Combined picked = Ok None
           else match picked with
                | [_; _] =>
                    exists v, Run.dashboard fs Combined picked = Ok (Some v)
                | _ => Run.dashboard fs Combined picked = Raise ValueError
                end
  end.
Proof.
  intros H.
  assert (R : forall files cols metric totals,
             In files CATEGORY_FILES ->
             ~ In metric key -> (forall c, In c cols -> ~ In c key) ->
             List.length totals = index (normalize (load_files fs files)) ->
             Forall (fun c => is_int c = true) totals ->
             ready (with_totals (normalize (load_files fs files)) cols metric
                                totals) metric).
  { intros files cols metric totals Hf Nm Nc Lt It.
    destruct (H files Hf) as (E & W & C). now apply with_totals_is_ready. }
  unfold Run.dashboard, Run.page, Run.load_data.
  destruct (Run.categories fs) as [[[enr dem] bio]|e] eqn:Cs; cbn [rbind];
    [|reflexivity].
  apply categories_shape in Cs
    as ((t1 & -> & L1 & I1) & (t2 & -> & L2 & I2) & (t3 & -> & L3 & I3)).
  match goal with
  | |- context [combined ?e ?d ?b] =>
      assert (R1 : ready e "enrol")
        by (apply R; [simpl; tauto | simpl; intuition discriminate
                      | simpl; intuition congruence | assumption | assumption]);
      assert (R2 : ready d "demo")
        by (apply R; [simpl; tauto | simpl; intuition discriminate
                      | simpl; intuition congruence | assumption | assumption]);
      assert (R3 : ready b "bio")
        by (apply R; [simpl; tauto | simpl; intuition discriminate
                      | simpl; intuition congruence | assumption | assumption]);
      pose proof (combined_frame e d b R1 R2 R3) as Ho;
      pose proof (combined_out_wf e d b) as W;
      pose proof (combined_out_columns e d b) as Co;
      pose proof (combined_out_dates e d b R1 R2 R3) as Da;
      fold (combined_out e d b) in Ho;
      remember (combined_out e d b) as out eqn:Eo; clear Eo
  end.
  exists out. split; [exact Ho|]. rewrite Ho. cbn [rbind].
  destruct (empty out) eqn:Em.
  { unfold Run.filtered. rewrite Em. reflexivity. }
  assert (C : forall c, In c ["date"; "state"; "total"] ->
                        contains out c = true).
  { intros c Hc. apply contains_in. rewrite Co. simpl in *. intuition. }
  assert (Ty : forallb is_date (col out "date") = true).
  { apply forallb_forall. intros x Hx. rewrite Forall_forall in Da.
    specialize (Da x Hx). destruct x; first [reflexivity | discriminate Da]. }
  rewrite (filtered_cases out picked Em (C "date" ltac:(simpl; auto)) Ty).
  pose proof (date_bounds_cases out) as B.
  assert (X : existsb is_timestamp (col out "date") = true).
  { pose proof (wf_col_length out "date" W (C "date" ltac:(simpl; auto))) as L.
    apply empty_false in Em as [Em _].
    destruct (col out "date") as [|x r]; [simpl in L; lia|].
    inversion Da as [|? ? Hx _]; subst. simpl. now rewrite Hx. }
  rewrite X in B. destruct B as [b ->].
  destruct picked as [|a [|b' [|c r]]]; try reflexivity.
  cbn [rbind].
  pose proof (widgets_cases (take_rows out (kept_rows out a b'))) as V.
  rewrite !Filtering.contains_take_rows in V.
  rewrite (C "state") in V by (simpl; auto).
  destruct V as [v ->]; [apply C; simpl; auto ..|].
  cbn [rbind]. eexists. reflexivity.
Qed.

End CombinedDashboard.

(** One file for each category, with one row whose date is "n/a". *)
Lemma combined_page_no_data_witness :
  Run.page Demo.unparsed_files Combined [0; 0]%Z = Ok NoData.
Proof.
  rewrite (combined_page_reports_no_data_when_no_date_parses
             Demo.unparsed_files [0; 0]%Z).
  - vm_compute. reflexivity.
  - intros files [<-|[<-|[<-|[]]]]; cbv zeta.
    all: split; [reflexivity|].
    all: split; [by_evaluation|].
    all: split; [repeat constructor|].
    all: match goal with
         | |- Forall _ ?l => let v := eval vm_compute in l in change l with v
         end; repeat constructor.
Defined.

(** An enrolment file with a date and a count, and no state; and the
    enrolment file of [Demo.all_files], which has one. *)
Lemma dashboard_state_witness :
  Run.dashboard Demo.stateless_files Enrolment [0; 0]%Z
  = Raise (KeyError "state")
  /\ exists v, Run.dashboard Demo.all_files Enrolment [0; 0]%Z = Ok (Some v).
Proof.
  assert (S : Enrolment <> Combined) by discriminate.
  split.
  - assert (W : wf (renamed (load_files Demo.stateless_files
                                        (files_of Enrolment))))
      by by_evaluation.
    pose proof (single_category_dashboard_needs_a_state_column
                  Demo.stateless_files Enrolment [0; 0]%Z S eq_refl W eq_refl)
      as H.
    destruct (Run.load_data Demo.stateless_files Enrolment) as [t|e] eqn:L;
      [|vm_compute in L; discriminate L].
    assert (X : existsb is_timestamp
                  (col (normalize (load_files Demo.stateless_files
                                              (files_of Enrolment))) "date")
                = true) by (vm_compute; reflexivity).
    rewrite X in H. exact H.
  - assert (W : wf (renamed (load_files Demo.all_files (files_of Enrolment))))
      by by_evaluation.
    pose proof (single_category_dashboard_needs_a_state_column
                  Demo.all_files Enrolment [0; 0]%Z S eq_refl W eq_refl)
      as H.
    destruct (Run.load_data Demo.all_files Enrolment) as [t|e] eqn:L;
      [|vm_compute in L; discriminate L].
    assert (X : existsb is_timestamp
                  (col (normalize (load_files Demo.all_files
                                              (files_of Enrolment))) "date")
                = true) by (vm_compute; reflexivity).
    rewrite X in H. exact H.
Defined.

(** One file for each category. *)
Lemma combined_dashboard_witness :
  exists r, Run.dashboard Demo.all_files Combined
                          [Calendar.days_from_civil 2024 1 1;
                           Calendar.days_from_civil 2024 1 31] = Ok r.
Proof.
  assert (P : forall files, In files CATEGORY_FILES ->
                let raw := load_files Demo.all_files files in
                empty raw = false
                /\ wf (renamed raw)
                /\ Forall (fun c => contains (renamed raw) c = true)
                          SOURCE_KEY).
  { intros files [<-|[<-|[<-|[]]]]; cbv zeta.
    all: split; [reflexivity|].
    all: split; [by_evaluation|].
    all: repeat constructor. }
  pose proof (combined_dashboard_runs
                Demo.all_files
                [Calendar.days_from_civil 2024 1 1;
                 Calendar.days_from_civil 2024 1 31] P) as H.
  destruct (Run.categories Demo.all_files) as [[[enr dem] bio]|e] eqn:Cs;
    [|vm_compute in Cs; discriminate Cs].
  destruct H as (out & _ & H).
  destruct (empty out); [now exists None|].
  destruct H as [v Hv]. now exists (Some v).
Defined.
